(** * Reaction-time tester for the Raspberry Pi 4 (hardware&Software.py)

    A shallow embedding of the Python script and the proofs of the
    properties its specification states.

    - Numbers that are Python floats are binary64 values ([PrimFloat.float]);
      Python integers used as pin numbers, frequencies and duty cycles are [Z].
    - The script talks to three external libraries ([RPi.GPIO], [time],
      [random]).  Their answers come from an environment ([Ambiente]); the
      calls that change the hardware are recorded in a log ([registro]) from
      which the state of the panel at any instant is replayed ([painel_de]).
    - The functions of the script are programs of a small state-and-exception
      monad ([Prog]): a Python exception is the outcome [Excecao]; a [while]
      loop that was cut by its bound is the outcome [Esgotado]. *)

From Stdlib Require Import ZArith List Bool Lia PeanoNat Floats.
Import ListNotations.

Set Warnings "-inexact-float".

(** ** Pins and constants (lines 16-29 of the script) *)

Definition PIN_BOTAO : Z := 17.
Definition PIN_ECHO : Z := 24.
Definition PIN_TRIG : Z := 23.
Definition PIN_LED_AMARELO : Z := 27.
Definition PIN_LED_VERDE : Z := 22.
Definition PIN_LED_VERMELHO : Z := 5.
Definition PIN_BUZZER : Z := 6.

Definition LIMITE_EXCELENTE : float := 0.3%float.
Definition LIMITE_MEDIO : float := 0.6%float.
Definition VELOCIDADE_DO_SOM : float := 34300%float.
Definition DISTANCIA_GATILHO : float := 10%float.

(** The value [mostrar_resultado] receives when the window closes (line 157). *)
Definition TEMPO_ESGOTADO : float := 9.99%float.
(** The value [medir_distancia] returns when the echo does not answer
    (lines 100 and 106). *)
Definition SEM_ECO : float := 999%float.
(** The length of the reaction window (line 147). *)
Definition JANELA : float := 5.0%float.

(** ** The calls that reach the hardware *)

Inductive Mensagem : Type :=
| MsgGpioConfigurado
| MsgTempoReacao (t : float)
| MsgExcelente
| MsgMedio
| MsgLento
| MsgPressione
| MsgTesteIniciado
| MsgReajaAgora
| MsgTempoEsgotado
| MsgAguardando.

Inductive Evento : Type :=
| EvOutput (pino : Z) (nivel : bool)      (* GPIO.output(pino, nivel) *)
| EvChangeFrequency (hz : Z)              (* buzzer_pwm.ChangeFrequency(hz) *)
| EvChangeDutyCycle (dc : Z)              (* buzzer_pwm.ChangeDutyCycle(dc) *)
| EvPwmStart (hz dc : Z)                  (* GPIO.PWM(PIN_BUZZER, hz).start(dc) *)
| EvSleep (d : float)                     (* time.sleep(d) *)
| EvPrint (m : Mensagem)                  (* print(...) *)
| EvSetup (pino : Z) (saida : bool)       (* GPIO.setup(pino, GPIO.OUT or GPIO.IN) *)
| EvRemoveEventDetect (pino : Z)          (* GPIO.remove_event_detect(pino) *)
| EvAddEventDetect (pino : Z).            (* GPIO.add_event_detect(pino, RISING, iniciar_teste) *)

(** The panel: the three lights, the buzzer pin, the sensor's trigger pin, the
    PWM that drives the buzzer on the board, and whether a rising edge of the
    button calls [iniciar_teste]. *)
Record Painel : Type := mkPainel {
  led_amarelo : bool;
  led_verde : bool;
  led_vermelho : bool;
  pino_buzzer : bool;
  pino_trig : bool;
  pwm_frequencia : Z;
  pwm_duty : Z;
  ouvindo : bool
}.

Definition painel_inicial : Painel :=
  mkPainel false false false false false 0 0 false.

Definition aplica_output (pino : Z) (nivel : bool) (p : Painel) : Painel :=
  if (pino =? PIN_LED_AMARELO)%Z then
    mkPainel nivel (led_verde p) (led_vermelho p) (pino_buzzer p) (pino_trig p)
             (pwm_frequencia p) (pwm_duty p) (ouvindo p)
  else if (pino =? PIN_LED_VERDE)%Z then
    mkPainel (led_amarelo p) nivel (led_vermelho p) (pino_buzzer p) (pino_trig p)
             (pwm_frequencia p) (pwm_duty p) (ouvindo p)
  else if (pino =? PIN_LED_VERMELHO)%Z then
    mkPainel (led_amarelo p) (led_verde p) nivel (pino_buzzer p) (pino_trig p)
             (pwm_frequencia p) (pwm_duty p) (ouvindo p)
  else if (pino =? PIN_BUZZER)%Z then
    mkPainel (led_amarelo p) (led_verde p) (led_vermelho p) nivel (pino_trig p)
             (pwm_frequencia p) (pwm_duty p) (ouvindo p)
  else if (pino =? PIN_TRIG)%Z then
    mkPainel (led_amarelo p) (led_verde p) (led_vermelho p) (pino_buzzer p) nivel
             (pwm_frequencia p) (pwm_duty p) (ouvindo p)
  else p.

Definition aplica (e : Evento) (p : Painel) : Painel :=
  match e with
  | EvOutput pino nivel => aplica_output pino nivel p
  | EvChangeFrequency hz =>
      mkPainel (led_amarelo p) (led_verde p) (led_vermelho p) (pino_buzzer p)
               (pino_trig p) hz (pwm_duty p) (ouvindo p)
  | EvChangeDutyCycle dc =>
      mkPainel (led_amarelo p) (led_verde p) (led_vermelho p) (pino_buzzer p)
               (pino_trig p) (pwm_frequencia p) dc (ouvindo p)
  | EvPwmStart hz dc =>
      mkPainel (led_amarelo p) (led_verde p) (led_vermelho p) (pino_buzzer p)
               (pino_trig p) hz dc (ouvindo p)
  | EvSleep _ | EvPrint _ | EvSetup _ _ => p
  | EvRemoveEventDetect pino =>
      if (pino =? PIN_BOTAO)%Z then
        mkPainel (led_amarelo p) (led_verde p) (led_vermelho p) (pino_buzzer p)
                 (pino_trig p) (pwm_frequencia p) (pwm_duty p) false
      else p
  | EvAddEventDetect pino =>
      if (pino =? PIN_BOTAO)%Z then
        mkPainel (led_amarelo p) (led_verde p) (led_vermelho p) (pino_buzzer p)
                 (pino_trig p) (pwm_frequencia p) (pwm_duty p) true
      else p
  end.

(** The log keeps the newest call first; the panel at an instant is the
    replay of the calls made so far. *)
Fixpoint painel_de (log : list Evento) : Painel :=
  match log with
  | [] => painel_inicial
  | e :: antes => aplica e (painel_de antes)
  end.

(** ** The environment *)

(** Where a [time.time()] call is made: by [iniciar_teste] itself (the k-th
    such call since the program started), or inside the n-th distance
    measurement (its k-th call). *)
Inductive Instante : Type :=
| NoTeste (k : nat)
| NaMedicao (n k : nat).

Record Ambiente : Type := mkAmbiente {
  MODO_SIMULACAO : bool;               (* the import of RPi.GPIO failed *)
  relogio : Instante -> float;         (* what time.time() returns *)
  eco : nat -> nat -> bool;            (* n-th measurement, k-th GPIO.input(PIN_ECHO): is it 1 *)
  sorteio : nat -> nat;                (* n-th measurement: the index random.choice draws *)
  aleatorio : nat -> float;            (* k-th random.random() *)
  falha : nat -> bool                  (* does the k-th write to an output raise *)
}.

(** No write to an output raises. *)
Definition sem_falhas (amb : Ambiente) : Prop := forall k, falha amb k = false.

(** ** The state of the program *)

Record Mundo : Type := mkMundo {
  buzzer_pwm : bool;                   (* the global is a PWM object (not None) *)
  tempo_inicio_estmulo : float;        (* the global of the same name *)
  n_relogio : nat;                     (* time.time() calls made by iniciar_teste *)
  n_medicoes : nat;                    (* calls of medir_distancia *)
  n_aleatorio : nat;                   (* calls of random.random() *)
  n_escritas : nat;                    (* writes to outputs attempted *)
  registro : list Evento               (* the calls that went through, newest first *)
}.

Definition painel (w : Mundo) : Painel := painel_de (registro w).

(** The log in the order of time. *)
Definition historico (w : Mundo) : list Evento := rev (registro w).

(** ** The monad *)

Inductive Desfecho (A : Type) : Type :=
| Retorno (a : A)
| Excecao
| Esgotado.
Arguments Retorno {A} a.
Arguments Excecao {A}.
Arguments Esgotado {A}.

Definition Prog (A : Type) : Type := Mundo -> Desfecho A * Mundo.

Definition ret {A} (a : A) : Prog A := fun w => (Retorno a, w).

Definition bind {A B} (m : Prog A) (f : A -> Prog B) : Prog B :=
  fun w =>
    match m w with
    | (Retorno a, w') => f a w'
    | (Excecao, w') => (Excecao, w')
    | (Esgotado, w') => (Esgotado, w')
    end.

Declare Scope prog_scope.
Delimit Scope prog_scope with prog.
Notation "x <- m ;; k" := (bind m (fun x => k))
  (at level 61, m at next level, right associativity) : prog_scope.
Notation "m ;; k" := (bind m (fun _ => k))
  (at level 61, right associativity) : prog_scope.
Open Scope prog_scope.

(** [try: m except Exception: pass] *)
Definition tenta (m : Prog unit) : Prog unit :=
  fun w =>
    match m w with
    | (Excecao, w') => (Retorno tt, w')
    | r => r
    end.

Definition esgotado {A} : Prog A := fun w => (Esgotado, w).

Definition le_mundo : Prog Mundo := fun w => (Retorno w, w).

(** A call that cannot raise: it is logged. *)
Definition emite (e : Evento) : Prog unit :=
  fun w =>
    (Retorno tt,
     mkMundo (buzzer_pwm w) (tempo_inicio_estmulo w) (n_relogio w)
             (n_medicoes w) (n_aleatorio w) (n_escritas w) (e :: registro w)).

(** A write to an output: it raises when the environment says so, and then
    leaves the hardware as it was. *)
Definition escreve (amb : Ambiente) (e : Evento) : Prog unit :=
  fun w =>
    if falha amb (n_escritas w) then
      (Excecao,
       mkMundo (buzzer_pwm w) (tempo_inicio_estmulo w) (n_relogio w)
               (n_medicoes w) (n_aleatorio w) (S (n_escritas w)) (registro w))
    else
      (Retorno tt,
       mkMundo (buzzer_pwm w) (tempo_inicio_estmulo w) (n_relogio w)
               (n_medicoes w) (n_aleatorio w) (S (n_escritas w)) (e :: registro w)).

Definition GPIO_output (amb : Ambiente) (pino : Z) (nivel : bool) : Prog unit :=
  escreve amb (EvOutput pino nivel).
Definition ChangeFrequency (amb : Ambiente) (hz : Z) : Prog unit :=
  escreve amb (EvChangeFrequency hz).
Definition ChangeDutyCycle (amb : Ambiente) (dc : Z) : Prog unit :=
  escreve amb (EvChangeDutyCycle dc).
Definition time_sleep (d : float) : Prog unit := emite (EvSleep d).
Definition print (m : Mensagem) : Prog unit := emite (EvPrint m).
Definition GPIO_remove_event_detect (pino : Z) : Prog unit :=
  emite (EvRemoveEventDetect pino).
Definition GPIO_add_event_detect (pino : Z) : Prog unit :=
  emite (EvAddEventDetect pino).

(** [time.time()] called from [iniciar_teste]. *)
Definition time_time (amb : Ambiente) : Prog float :=
  fun w =>
    (Retorno (relogio amb (NoTeste (n_relogio w))),
     mkMundo (buzzer_pwm w) (tempo_inicio_estmulo w) (S (n_relogio w))
             (n_medicoes w) (n_aleatorio w) (n_escritas w) (registro w)).

(** [random.random()] *)
Definition random_random (amb : Ambiente) : Prog float :=
  fun w =>
    (Retorno (aleatorio amb (n_aleatorio w)),
     mkMundo (buzzer_pwm w) (tempo_inicio_estmulo w) (n_relogio w)
             (n_medicoes w) (S (n_aleatorio w)) (n_escritas w) (registro w)).

(** [random.uniform(a, b)] is [a + (b - a) * self.random()] in CPython. *)
Definition uniform (a b r : float) : float := (a + (b - a) * r)%float.

Definition random_uniform (amb : Ambiente) (a b : float) : Prog float :=
  r <- random_random amb ;; ret (uniform a b r).

(** A measurement starts: its number. *)
Definition nova_medicao : Prog nat :=
  fun w =>
    (Retorno (n_medicoes w),
     mkMundo (buzzer_pwm w) (tempo_inicio_estmulo w) (n_relogio w)
             (S (n_medicoes w)) (n_aleatorio w) (n_escritas w) (registro w)).

Definition grava_inicio_estimulo (t : float) : Prog unit :=
  fun w =>
    (Retorno tt,
     mkMundo (buzzer_pwm w) t (n_relogio w)
             (n_medicoes w) (n_aleatorio w) (n_escritas w) (registro w)).

Definition grava_buzzer_pwm (b : bool) : Prog unit :=
  fun w =>
    (Retorno tt,
     mkMundo b (tempo_inicio_estmulo w) (n_relogio w)
             (n_medicoes w) (n_aleatorio w) (n_escritas w) (registro w)).

(** ** The functions of the script *)

(** [limpar_saidas] (lines 37-48) *)
Definition limpar_saidas (amb : Ambiente) : Prog unit :=
  tenta (GPIO_output amb PIN_LED_AMARELO false ;;
         GPIO_output amb PIN_LED_VERDE false ;;
         GPIO_output amb PIN_LED_VERMELHO false ;;
         w <- le_mundo ;;
         if buzzer_pwm w && negb (MODO_SIMULACAO amb)
         then ChangeDutyCycle amb 0
         else GPIO_output amb PIN_BUZZER false).

(** [tocar_tom] (lines 73-84) *)
Definition tocar_tom (amb : Ambiente) (frequencia : Z) (duracao : float) : Prog unit :=
  w <- le_mundo ;;
  if negb (MODO_SIMULACAO amb) && buzzer_pwm w then
    if (frequencia >? 0)%Z then
      ChangeFrequency amb frequencia ;;
      ChangeDutyCycle amb 50 ;;
      time_sleep duracao ;;
      ChangeDutyCycle amb 0
    else time_sleep duracao
  else time_sleep duracao.

(** The body of [for _ in range(3)] in [mostrar_resultado] (lines 121-123). *)
Definition pisca_amarelo (amb : Ambiente) : Prog unit :=
  GPIO_output amb PIN_LED_AMARELO true ;;
  time_sleep 0.1%float ;;
  GPIO_output amb PIN_LED_AMARELO false ;;
  time_sleep 0.1%float.

Fixpoint repete (n : nat) (m : Prog unit) : Prog unit :=
  match n with
  | O => ret tt
  | S n' => m ;; repete n' m
  end.

(** [mostrar_resultado] (lines 111-131) *)
Definition mostrar_resultado (amb : Ambiente) (tempo_reacao : float) : Prog unit :=
  limpar_saidas amb ;;
  print (MsgTempoReacao tempo_reacao) ;;
  (if (tempo_reacao <=? LIMITE_EXCELENTE)%float then
     print MsgExcelente ;;
     GPIO_output amb PIN_LED_VERDE true ;;
     tocar_tom amb 1500 0.2%float
   else if (tempo_reacao <=? LIMITE_MEDIO)%float then
     print MsgMedio ;;
     repete 3 (pisca_amarelo amb)
   else
     print MsgLento ;;
     GPIO_output amb PIN_LED_VERMELHO true ;;
     tocar_tom amb 440 1.0%float) ;;
  time_sleep 2%float ;;
  limpar_saidas amb ;;
  print MsgPressione.

(** *** The distance sensor *)

(** [random.choice(seq)] is [seq[i]] for the index [i] the generator draws
    below [len(seq)]. *)
Definition random_choice (seq : list float) (i : nat) : float :=
  nth (i mod length seq) seq 0%float.

(** [round(x, 2)]: the exact value of [x], rounded half-to-even to a whole
    number [n] of hundredths, and then the binary64 value closest to
    [n / 100] (CPython rounds the shortest-decimal way: correctly, both
    times).  Values that are not finite, and values without a fractional
    part, come back unchanged. *)
Definition divide_par (a b : Z) : Z :=
  let q := (a / b)%Z in
  let r := (a mod b)%Z in
  match (2 * r ?= b)%Z with
  | Lt => q
  | Gt => (q + 1)%Z
  | Eq => if Z.even q then q else (q + 1)%Z
  end.

Definition round2 (x : float) : float :=
  match Prim2SF x with
  | S754_finite s m e =>
      if (0 <=? e)%Z then x
      else
        match divide_par (100 * Zpos m) (2 ^ (- e)) with
        | Zpos n => SF2Prim (SFdiv prec emax (S754_finite s n 0) (S754_finite false 100 0))
        | _ => SF2Prim (S754_zero s)
        end
  | _ => x
  end.

(** One of the two [while GPIO.input(PIN_ECHO) == nivel] loops of
    [medir_distancia] (lines 98-100 and 104-106), inside the n-th
    measurement: [ke] echo reads and [kt] clock reads were made so far. *)
Inductive Espera : Type :=
| Seguiu (pulso : float) (ke kt : nat)   (* the loop condition failed *)
| Desistiu                               (* return 999 *)
| Cortada.                               (* the bound of the model was reached *)

Fixpoint espera_eco (amb : Ambiente) (n : nat) (nivel : bool) (limite : nat)
    (ke kt : nat) (timeout pulso : float) : Espera :=
  match limite with
  | O => Cortada
  | S limite' =>
      if Bool.eqb (eco amb n ke) nivel then
        let pulso' := relogio amb (NaMedicao n kt) in
        if (0.1 <? pulso' - timeout)%float then Desistiu
        else espera_eco amb n nivel limite' (S ke) (S kt) timeout pulso'
      else Seguiu pulso (S ke) kt
  end.

(** Lines 96-109: what the n-th measurement returns on the board. *)
Definition leitura_do_eco (amb : Ambiente) (limite : nat) (n : nat) : option float :=
  let timeout := relogio amb (NaMedicao n 0) in
  let pulse_start := relogio amb (NaMedicao n 1) in
  match espera_eco amb n false limite 0 2 timeout pulse_start with
  | Cortada => None
  | Desistiu => Some SEM_ECO
  | Seguiu pulse_start ke kt =>
      let timeout := relogio amb (NaMedicao n kt) in
      let pulse_end := relogio amb (NaMedicao n (S kt)) in
      match espera_eco amb n true limite ke (S (S kt)) timeout pulse_end with
      | Cortada => None
      | Desistiu => Some SEM_ECO
      | Seguiu pulse_end _ _ =>
          let duracao_pulso := (pulse_end - pulse_start)%float in
          Some (round2 ((duracao_pulso * VELOCIDADE_DO_SOM) / 2)%float)
      end
  end.

(** [medir_distancia] (lines 86-109) *)
Definition medir_distancia (amb : Ambiente) (limite_eco : nat) : Prog float :=
  n <- nova_medicao ;;
  if MODO_SIMULACAO amb then
    ret (random_choice [50; 40; 5]%float (sorteio amb n))
  else
    GPIO_output amb PIN_TRIG true ;;
    time_sleep 0.00001%float ;;
    GPIO_output amb PIN_TRIG false ;;
    match leitura_do_eco amb limite_eco n with
    | Some d => ret d
    | None => esgotado
    end.

(** *** The trial *)

(** The [while] loop of [iniciar_teste] (lines 147-153); it returns
    [reagiu]. *)
Fixpoint laco_reacao (amb : Ambiente) (limite_eco limite : nat) : Prog bool :=
  match limite with
  | O => esgotado
  | S limite' =>
      agora <- time_time amb ;;
      w <- le_mundo ;;
      if (agora - tempo_inicio_estmulo w <? JANELA)%float then
        d <- medir_distancia amb limite_eco ;;
        if (d <=? DISTANCIA_GATILHO)%float then
          agora <- time_time amb ;;
          w <- le_mundo ;;
          let tempo_reacao := (agora - tempo_inicio_estmulo w)%float in
          mostrar_resultado amb tempo_reacao ;;
          ret true
        else
          time_sleep 0.01%float ;;
          laco_reacao amb limite_eco limite'
      else ret false
  end.

(** Lines 137-157 of [iniciar_teste]: what runs between the removal of the
    edge detection and its registration again. *)
Definition corpo_do_teste (amb : Ambiente) (limite_eco limite : nat) : Prog unit :=
  print MsgTesteIniciado ;;
  GPIO_output amb PIN_LED_AMARELO true ;;
  d <- random_uniform amb 2 5 ;;
  time_sleep d ;;
  GPIO_output amb PIN_LED_AMARELO false ;;
  print MsgReajaAgora ;;
  GPIO_output amb PIN_LED_VERDE true ;;
  t0 <- time_time amb ;;
  grava_inicio_estimulo t0 ;;
  reagiu <- laco_reacao amb limite_eco limite ;;
  if negb reagiu then
    print MsgTempoEsgotado ;;
    mostrar_resultado amb TEMPO_ESGOTADO
  else ret tt.

(** [iniciar_teste] (lines 133-159) *)
Definition iniciar_teste (amb : Ambiente) (limite_eco limite : nat) (canal : Z) : Prog unit :=
  GPIO_remove_event_detect PIN_BOTAO ;;
  corpo_do_teste amb limite_eco limite ;;
  GPIO_add_event_detect PIN_BOTAO.

(** *** Start-up and the button *)

(** [configuracao_gpio] (lines 50-71); [setmode] and [setwarnings] change
    nothing the script observes. *)
Definition configuracao_gpio (amb : Ambiente) : Prog unit :=
  emite (EvSetup PIN_BOTAO false) ;;
  emite (EvSetup PIN_ECHO false) ;;
  emite (EvSetup PIN_TRIG true) ;;
  emite (EvSetup PIN_LED_AMARELO true) ;;
  emite (EvSetup PIN_LED_VERDE true) ;;
  emite (EvSetup PIN_LED_VERMELHO true) ;;
  emite (EvSetup PIN_BUZZER true) ;;
  GPIO_output amb PIN_TRIG false ;;
  (if negb (MODO_SIMULACAO amb) then
     emite (EvPwmStart 1000 0) ;;
     grava_buzzer_pwm true
   else ret tt) ;;
  print MsgGpioConfigurado.

(** The main block up to its idle loop (lines 164-166). *)
Definition principal (amb : Ambiente) : Prog unit :=
  configuracao_gpio amb ;;
  GPIO_add_event_detect PIN_BOTAO ;;
  print MsgAguardando.

(** A rising edge of the button: the library calls the callback when edge
    detection is registered on the pin, and does nothing otherwise. *)
Definition borda_subida (amb : Ambiente) (limite_eco limite : nat) : Prog unit :=
  w <- le_mundo ;;
  if ouvindo (painel w) then iniciar_teste amb limite_eco limite PIN_BOTAO
  else ret tt.

(** The world when the script is started. *)
Definition mundo_inicial : Mundo := mkMundo false 0%float 0 0 0 0 [].

(** A session: start-up, and then [bordas] edges of the button, one after the
    other has been served. *)
Definition sessao (amb : Ambiente) (limite_eco limite : nat) (bordas : nat) : Prog unit :=
  principal amb ;;
  repete bordas (borda_subida amb limite_eco limite).

(** * Facts about the embedding *)

(** ** Running the programs when no write raises *)

Lemma bind_retorno {A B} (m : Prog A) (f : A -> Prog B) w a w' :
  m w = (Retorno a, w') -> bind m f w = f a w'.
Proof. intros H. unfold bind. now rewrite H. Qed.

Lemma bind_assoc {A B C} (m : Prog A) (f : A -> Prog B) (g : B -> Prog C) w :
  bind (bind m f) g w = bind m (fun a => bind (f a) g) w.
Proof. unfold bind. destruct (m w) as [[a| | ] w1]; reflexivity. Qed.

Lemma bind_le_mundo {B} (f : Mundo -> Prog B) w : bind le_mundo f w = f w w.
Proof. reflexivity. Qed.

Lemma bind_excecao {A B} (m : Prog A) (f : A -> Prog B) w w' :
  m w = (Excecao, w') -> bind m f w = (Excecao, w').
Proof. intros H. unfold bind. now rewrite H. Qed.

(** The world after [k] more writes and the calls [es] (newest first). *)
Definition avanca (k : nat) (es : list Evento) (w : Mundo) : Mundo :=
  mkMundo (buzzer_pwm w) (tempo_inicio_estmulo w) (n_relogio w) (n_medicoes w)
          (n_aleatorio w) (k + n_escritas w) (es ++ registro w).

(** Is the buzzer driven by the PWM (on the board, after start-up). *)
Definition pwm_ativo (amb : Ambiente) (w : Mundo) : bool :=
  negb (MODO_SIMULACAO amb) && buzzer_pwm w.

(** What [limpar_saidas] writes, in the order of time. *)
Definition apagar (amb : Ambiente) (w : Mundo) : list Evento :=
  [EvOutput PIN_LED_AMARELO false; EvOutput PIN_LED_VERDE false;
   EvOutput PIN_LED_VERMELHO false;
   if pwm_ativo amb w then EvChangeDutyCycle 0 else EvOutput PIN_BUZZER false].

(** What a tone is: on the PWM, the frequency, half duty for the duration,
    and duty 0; without the PWM, the wait alone. *)
Definition tom (amb : Ambiente) (w : Mundo) (hz : Z) (d : float) : list Evento :=
  if pwm_ativo amb w
  then [EvChangeFrequency hz; EvChangeDutyCycle 50; EvSleep d; EvChangeDutyCycle 0]
  else [EvSleep d].

Lemma avanca_avanca k1 es1 k2 es2 w :
  avanca k2 es2 (avanca k1 es1 w) = avanca (k2 + k1) (es2 ++ es1) w.
Proof. unfold avanca. simpl. now rewrite Nat.add_assoc, app_assoc. Qed.

Lemma historico_avanca k es w : historico (avanca k es w) = historico w ++ rev es.
Proof. unfold historico, avanca. simpl. apply rev_app_distr. Qed.

Lemma emite_avanca e w : emite e w = (Retorno tt, avanca 0 [e] w).
Proof. reflexivity. Qed.

Lemma escreve_sem_falhas amb e w :
  sem_falhas amb -> escreve amb e w = (Retorno tt, avanca 1 [e] w).
Proof. intros Hf. unfold escreve. now rewrite Hf. Qed.

Lemma escreve_falha amb e w :
  falha amb (n_escritas w) = true -> escreve amb e w = (Excecao, avanca 1 [] w).
Proof. intros Hf. unfold escreve. now rewrite Hf. Qed.

Lemma limpar_saidas_sem_falhas amb w :
  sem_falhas amb ->
  limpar_saidas amb w = (Retorno tt, avanca 4 (rev (apagar amb w)) w).
Proof.
  intros Hf.
  unfold limpar_saidas, tenta, bind, GPIO_output, ChangeDutyCycle, escreve,
    le_mundo, apagar, pwm_ativo, avanca.
  simpl. rewrite !Hf. simpl. rewrite (andb_comm (negb _)).
  destruct (buzzer_pwm w && negb (MODO_SIMULACAO amb)); simpl; rewrite !Hf; reflexivity.
Qed.

Lemma tocar_tom_sem_falhas amb w hz d :
  sem_falhas amb -> (0 < hz)%Z ->
  tocar_tom amb hz d w =
  (Retorno tt, avanca (if pwm_ativo amb w then 3 else 0) (rev (tom amb w hz d)) w).
Proof.
  intros Hf Hz.
  unfold tocar_tom, tom, pwm_ativo, bind, le_mundo, ChangeFrequency,
    ChangeDutyCycle, escreve, time_sleep, emite, avanca.
  destruct (negb (MODO_SIMULACAO amb) && buzzer_pwm w); simpl.
  - apply Z.gtb_lt in Hz. rewrite Hz. simpl. rewrite !Hf. reflexivity.
  - reflexivity.
Qed.

(** One statement of a sequence is run. *)
Ltac passo Hf :=
  rewrite ?bind_assoc;
  erewrite bind_retorno by
    first [ apply (limpar_saidas_sem_falhas _ _ Hf)
          | apply (escreve_sem_falhas _ _ _ Hf)
          | apply (tocar_tom_sem_falhas _ _ _ _ Hf); reflexivity
          | apply emite_avanca
          | reflexivity ];
  rewrite ?avanca_avanca.

(** The feedback of each tier, in the order of time. *)
Definition retorno_excelente (amb : Ambiente) (w : Mundo) (t : float) : list Evento :=
  apagar amb w ++
  [EvPrint (MsgTempoReacao t); EvPrint MsgExcelente; EvOutput PIN_LED_VERDE true] ++
  tom amb w 1500 0.2%float ++
  [EvSleep 2%float] ++ apagar amb w ++ [EvPrint MsgPressione].

Definition pisca : list Evento :=
  [EvOutput PIN_LED_AMARELO true; EvSleep 0.1%float;
   EvOutput PIN_LED_AMARELO false; EvSleep 0.1%float].

Definition retorno_medio (amb : Ambiente) (w : Mundo) (t : float) : list Evento :=
  apagar amb w ++
  [EvPrint (MsgTempoReacao t); EvPrint MsgMedio] ++
  pisca ++ pisca ++ pisca ++
  [EvSleep 2%float] ++ apagar amb w ++ [EvPrint MsgPressione].

Definition retorno_lento (amb : Ambiente) (w : Mundo) (t : float) : list Evento :=
  apagar amb w ++
  [EvPrint (MsgTempoReacao t); EvPrint MsgLento; EvOutput PIN_LED_VERMELHO true] ++
  tom amb w 440 1.0%float ++
  [EvSleep 2%float] ++ apagar amb w ++ [EvPrint MsgPressione].

(** The feedback [mostrar_resultado] gives for [t], by its two comparisons. *)
Definition retorno (amb : Ambiente) (w : Mundo) (t : float) : list Evento :=
  if (t <=? LIMITE_EXCELENTE)%float then retorno_excelente amb w t
  else if (t <=? LIMITE_MEDIO)%float then retorno_medio amb w t
  else retorno_lento amb w t.

Lemma mostrar_resultado_sem_falhas amb w t :
  sem_falhas amb ->
  exists k, mostrar_resultado amb t w = (Retorno tt, avanca k (rev (retorno amb w t)) w).
Proof.
  intros Hf. unfold mostrar_resultado, retorno, print, time_sleep, GPIO_output.
  passo Hf. passo Hf.
  destruct (t <=? LIMITE_EXCELENTE)%float; [|destruct (t <=? LIMITE_MEDIO)%float].
  - do 5 passo Hf. rewrite emite_avanca, avanca_avanca. eexists. do 2 f_equal;
    unfold retorno_excelente; rewrite ?rev_app_distr; simpl; now rewrite <- ?app_assoc.
  - passo Hf. unfold repete, pisca_amarelo, time_sleep, GPIO_output.
    do 15 passo Hf. rewrite emite_avanca, avanca_avanca. eexists. do 2 f_equal;
    unfold retorno_medio; rewrite ?rev_app_distr; simpl; now rewrite <- ?app_assoc.
  - do 5 passo Hf. rewrite emite_avanca, avanca_avanca. eexists. do 2 f_equal;
    unfold retorno_lento; rewrite ?rev_app_distr; simpl; now rewrite <- ?app_assoc.
Qed.


(** ** Order of binary64 values *)

Section OrdemFloat.

Local Open Scope Z_scope.

(** The order on finite values compares the exponent and then the mantissa:
    a key for it. *)
Definition chave (e : Z) (m : positive) (e' : Z) (m' : positive) : comparison :=
  match e ?= e' with
  | Eq => (m ?= m')%positive
  | c => c
  end.

Lemma chave_trans e1 m1 e2 m2 e3 m3 :
  chave e1 m1 e2 m2 = Lt -> chave e2 m2 e3 m3 = Lt -> chave e1 m1 e3 m3 = Lt.
Proof.
  unfold chave.
  destruct (Z.compare_spec e1 e2), (Z.compare_spec e2 e3), (Z.compare_spec e1 e3);
    intros L1 L2; try discriminate; try lia; try reflexivity.
  rewrite Pos.compare_lt_iff in *. now apply Pos.lt_trans with m2.
Qed.

Lemma chave_antisym e1 m1 e2 m2 :
  chave e2 m2 e1 m1 = CompOpp (chave e1 m1 e2 m2).
Proof.
  unfold chave. rewrite (Z.compare_antisym e1 e2).
  destruct (e1 ?= e2); simpl; auto using Pos.compare_antisym.
Qed.

Lemma SFcompare_finite s1 m1 e1 s2 m2 e2 :
  SFcompare (S754_finite s1 m1 e1) (S754_finite s2 m2 e2) =
  Some (match s1, s2 with
        | true, false => Lt
        | false, true => Gt
        | false, false => chave e1 m1 e2 m2
        | true, true => CompOpp (chave e1 m1 e2 m2)
        end).
Proof.
  unfold chave. simpl. destruct s1, s2; auto; destruct (e1 ?= e2); reflexivity.
Qed.

Lemma SFcompare_Lt_Gt (x y : spec_float) :
  SFcompare x y = Some Lt -> SFcompare y x = Some Gt.
Proof.
  destruct x as [sx|sx| |sx mx ex], y as [sy|sy| |sy my ey];
    rewrite ?SFcompare_finite; simpl;
    try destruct sx; try destruct sy; try congruence;
    rewrite (chave_antisym ex mx ey my);
    destruct (chave ex mx ey my); simpl; congruence.
Qed.

Lemma SFltb_SFleb_false (x y : spec_float) :
  SFltb x y = true -> SFleb y x = false.
Proof.
  unfold SFltb, SFleb. intros H.
  destruct (SFcompare x y) as [[ | | ]|] eqn:E; try discriminate.
  now rewrite (SFcompare_Lt_Gt _ _ E).
Qed.

Lemma SFcompare_Lt_trans (x y z : spec_float) :
  SFcompare x y = Some Lt -> SFcompare y z = Some Lt -> SFcompare x z = Some Lt.
Proof.
  destruct x as [sx|sx| |sx mx ex], y as [sy|sy| |sy my ey], z as [sz|sz| |sz mz ez];
    rewrite ?SFcompare_finite; simpl;
    try destruct sx; try destruct sy; try destruct sz; try congruence.
  - intros H1 H2. f_equal.
    assert (A : chave ey my ex mx = Lt).
    { rewrite chave_antisym. destruct (chave ex mx ey my); simpl in *; congruence. }
    assert (B : chave ez mz ey my = Lt).
    { rewrite chave_antisym. destruct (chave ey my ez mz); simpl in *; congruence. }
    rewrite chave_antisym, (chave_trans _ _ _ _ _ _ B A). reflexivity.
  - intros H1 H2. f_equal. eapply chave_trans; [injection H1|injection H2]; eauto.
Qed.

End OrdemFloat.

Lemma ltb_leb_false (x y : float) :
  (x <? y)%float = true -> (y <=? x)%float = false.
Proof. rewrite ltb_spec, leb_spec. apply SFltb_SFleb_false. Qed.

Lemma ltb_trans (x y z : float) :
  (x <? y)%float = true -> (y <? z)%float = true -> (x <? z)%float = true.
Proof.
  rewrite !ltb_spec. unfold SFltb. intros H1 H2.
  destruct (SFcompare (Prim2SF x) (Prim2SF y)) as [[ | | ]|] eqn:E1; try discriminate.
  destruct (SFcompare (Prim2SF y) (Prim2SF z)) as [[ | | ]|] eqn:E2; try discriminate.
  now rewrite (SFcompare_Lt_trans _ _ _ E1 E2).
Qed.

(** ** Rounding of binary64 products and sums *)

(** The operations of [PrimFloat] are specified by those of [SpecFloat]
    ([mul_spec], [add_spec]); what follows reads off [binary_round_aux] the
    bounds of a result that was rounded to nearest. *)

Section Arredondamento.

Local Open Scope Z_scope.

(** The number of binary digits of a positive number. *)
Lemma digits2_pos_size (p : positive) : digits2_pos p = Pos.size p.
Proof. induction p; simpl; congruence. Qed.

Lemma digitos_limites (p : positive) :
  2 ^ (Zpos (digits2_pos p) - 1) <= Zpos p < 2 ^ Zpos (digits2_pos p).
Proof.
  rewrite digits2_pos_size.
  pose proof (Pos.size_gt p) as G. pose proof (Pos.size_le p) as L.
  apply Pos2Z.pos_lt_pos in G. apply Pos2Z.pos_le_pos in L.
  rewrite Pos2Z.inj_pow in G, L.
  change (Zpos p~0) with (2 * Zpos p) in L.
  assert (E : 2 ^ Zpos (Pos.size p) = 2 * 2 ^ (Zpos (Pos.size p) - 1)).
  { rewrite <- Z.pow_succ_r by lia. f_equal. lia. }
  rewrite E in *. clear E.
  generalize dependent (2 ^ (Zpos (Pos.size p) - 1)). intros; lia.
Qed.

(** One shift to the right, on a mantissa that is not negative. *)
Lemma shr_1_spec (m : Z) (r s : bool) :
  0 <= m ->
  shr_1 (Build_shr_record m r s) = Build_shr_record (m / 2) (Z.odd m) (r || s).
Proof.
  intros Hm. destruct m as [|p|p]; try lia.
  - reflexivity.
  - destruct p as [p|p|]; unfold shr_1.
    + rewrite Pos2Z.inj_xI. f_equal.
      * rewrite (Z.mul_comm 2), Z.div_add_l by lia. reflexivity.
    + rewrite Pos2Z.inj_xO. f_equal.
      rewrite (Z.mul_comm 2), Z.div_mul by lia. reflexivity.
    + reflexivity.
Qed.

(** [p] shifts: the mantissa is divided by [2 ^ p], and when nothing is lost
    the two location bits stay clear. *)
Definition limpo (x : shr_record) : Prop := shr_r x = false /\ shr_s x = false.

Lemma iter_shr_1_spec (p : positive) :
  forall x, 0 <= shr_m x ->
    shr_m (iter_pos shr_1 p x) = shr_m x / 2 ^ Zpos p /\
    (limpo x -> shr_m x mod 2 ^ Zpos p = 0 -> limpo (iter_pos shr_1 p x)).
Proof.
  assert (Um : forall x, 0 <= shr_m x ->
             shr_m (shr_1 x) = shr_m x / 2 /\ 
             (limpo x -> shr_m x mod 2 = 0 -> limpo (shr_1 x))).
  { intros [m r s] Hm. simpl in Hm. rewrite (shr_1_spec m r s Hm). simpl. split; [reflexivity|].
    intros [Hr Hs] Hz. simpl in *. subst. split; simpl; [|reflexivity].
    rewrite Zmod_odd in Hz. destruct (Z.odd m); [discriminate|reflexivity]. }
  induction p as [p IH|p IH|]; intros x Hx; simpl iter_pos.
  - destruct (Um x Hx) as [M1 L1].
    assert (H1 : 0 <= shr_m (shr_1 x)) by (rewrite M1; apply Z.div_pos; lia).
    destruct (IH _ H1) as [M2 L2].
    assert (H2 : 0 <= shr_m (iter_pos shr_1 p (shr_1 x)))
      by (rewrite M2; apply Z.div_pos; lia).
    destruct (IH _ H2) as [M3 L3].
    assert (P : 0 < 2 ^ Zpos p) by (apply Z.pow_pos_nonneg; lia).
    assert (E : 2 ^ Zpos p~1 = 2 * 2 ^ Zpos p * 2 ^ Zpos p).
    { rewrite Pos2Z.inj_xI. rewrite Z.pow_add_r, Z.pow_1_r by lia.
      replace (2 * Zpos p) with (Zpos p + Zpos p) by lia.
      rewrite Z.pow_add_r by lia. ring. }
    rewrite E. set (X := 2 ^ Zpos p) in *. clearbody X.
    split.
    + rewrite M3, M2, M1. rewrite !Z.div_div by lia. f_equal. ring.
    + intros Lx Hz.
      apply Z.mod_divide in Hz; [|lia]. destruct Hz as [k Hk].
      assert (K1 : shr_m x = (k * X * X) * 2) by (rewrite Hk; ring).
      apply L3; [apply L2; [apply L1; [exact Lx|]|]|].
      * rewrite K1. apply Z.mod_mul. lia.
      * rewrite M1, K1, Z.div_mul by lia. apply Z.mod_mul. lia.
      * rewrite M2, M1, K1, Z.div_mul by lia.
        rewrite Z.div_mul by lia. apply Z.mod_mul. lia.
  - destruct (IH _ Hx) as [M2 L2].
    assert (H2 : 0 <= shr_m (iter_pos shr_1 p x))
      by (rewrite M2; apply Z.div_pos; lia).
    destruct (IH _ H2) as [M3 L3].
    assert (P : 0 < 2 ^ Zpos p) by (apply Z.pow_pos_nonneg; lia).
    assert (E : 2 ^ Zpos p~0 = 2 ^ Zpos p * 2 ^ Zpos p).
    { change (Zpos p~0) with (2 * Zpos p).
      replace (2 * Zpos p) with (Zpos p + Zpos p) by lia.
      rewrite Z.pow_add_r by lia. reflexivity. }
    rewrite E. set (X := 2 ^ Zpos p) in *. clearbody X.
    split.
    + rewrite M3, M2. rewrite !Z.div_div by lia. reflexivity.
    + intros Lx Hz.
      apply Z.mod_divide in Hz; [|lia]. destruct Hz as [k Hk].
      assert (K1 : shr_m x = (k * X) * X) by (rewrite Hk; ring).
      apply L3; [apply L2; [exact Lx|]|].
      * rewrite K1. apply Z.mod_mul. lia.
      * rewrite M2, K1, Z.div_mul by lia. apply Z.mod_mul. lia.
  - change (2 ^ 1) with 2. apply Um. exact Hx.
Qed.

(** The exponent of the binary64 format for a number of [z] digits before
    the binary point. *)
Definition fexp64 (z : Z) : Z := Z.max (z - 53) (-1074).

Lemma fexp_fexp64 z : fexp prec emax z = fexp64 z.
Proof. reflexivity. Qed.

(** The first shift of [binary_round_aux] on an exact mantissa. *)
Lemma shr_exato (M E n : Z) :
  0 <= M -> 0 <= n ->
  snd (shr (Build_shr_record M false false) E n) = E + n /\
  shr_m (fst (shr (Build_shr_record M false false) E n)) = M / 2 ^ n /\
  (M mod 2 ^ n = 0 -> limpo (fst (shr (Build_shr_record M false false) E n))).
Proof.
  intros HM Hn. destruct n as [|p|p]; try lia; simpl.
  - rewrite Z.add_0_r, Z.div_1_r. repeat split.
  - destruct (iter_shr_1_spec p (Build_shr_record M false false) HM) as [H1 H2].
    simpl in H1, H2. repeat split; auto. 
    + apply H2; [split; reflexivity|assumption].
    + apply H2; [split; reflexivity|assumption].
Qed.

Lemma arredonda_par (x : shr_record) :
  shr_m x <= round_nearest_even (shr_m x) (loc_of_shr_record x) <= shr_m x + 1 /\
  (limpo x -> round_nearest_even (shr_m x) (loc_of_shr_record x) = shr_m x).
Proof.
  destruct x as [m r s]. simpl. split.
  - destruct r, s; simpl; try destruct (Z.even m); lia.
  - intros [Hr Hs]. simpl in *. subst. reflexivity.
Qed.

(** The second shift: it only acts when the rounding carried into a 54th
    digit. *)
Lemma shr_fexp_segundo (Q fe : Z) :
  0 <= Q <= 2 ^ 53 -> -1074 <= fe ->
  shr_fexp prec emax Q fe loc_Exact =
  if Q =? 2 ^ 53 then (Build_shr_record (2 ^ 52) false false, fe + 1)
  else (Build_shr_record Q false false, fe).
Proof.
  intros HQ Hfe. unfold shr_fexp. rewrite fexp_fexp64. simpl shr_record_of_loc.
  destruct (Z.eqb_spec Q (2 ^ 53)) as [->|Hne].
  - change (Zdigits2 (2 ^ 53)) with 54. unfold fexp64.
    replace (Z.max (54 + fe - 53) (-1074) - fe) with 1 by lia. reflexivity.
  - assert (D : Zdigits2 Q <= 53).
    { destruct Q as [|q|q]; simpl; try lia.
      pose proof (digitos_limites q) as [L _].
      destruct (Z_le_gt_dec (Zpos (digits2_pos q)) 53) as [?|G]; [assumption|].
      exfalso. assert (2 ^ 53 <= 2 ^ (Zpos (digits2_pos q) - 1))
        by (apply Z.pow_le_mono_r; lia). lia. }
    unfold fexp64, shr.
    destruct (Z.max (Zdigits2 Q + fe - 53) (-1074) - fe) eqn:En; try reflexivity.
    lia.
Qed.

(** What [binary_round_aux] returns for the rounded mantissa [Q] at the
    exponent [fe]. *)
Definition empacota (Q fe : Z) : spec_float :=
  match Q with
  | Z0 => S754_zero false
  | Zpos q =>
      if Q =? 2 ^ 53 then S754_finite false (2 ^ 52) (fe + 1)
      else S754_finite false q fe
  | Zneg _ => S754_nan
  end.

Lemma binary_round_aux_exato (M E : Z) :
  0 < M ->
  E <= fexp64 (Zdigits2 M + E) ->
  fexp64 (Zdigits2 M + E) < 971 ->
  exists Q,
    M / 2 ^ (fexp64 (Zdigits2 M + E) - E) <= Q <= M / 2 ^ (fexp64 (Zdigits2 M + E) - E) + 1 /\
    (M mod 2 ^ (fexp64 (Zdigits2 M + E) - E) = 0 ->
     Q = M / 2 ^ (fexp64 (Zdigits2 M + E) - E)) /\
    Q <= 2 ^ 53 /\
    binary_round_aux prec emax false M E loc_Exact =
      empacota Q (fexp64 (Zdigits2 M + E)).
Proof.
  intros HM Hn Hfe.
  set (fe := fexp64 (Zdigits2 M + E)) in *.
  set (n := fe - E).
  assert (Hn0 : 0 <= n) by (unfold n; lia).
  unfold binary_round_aux, shr_fexp at 1. rewrite fexp_fexp64. fold fe. fold n.
  simpl shr_record_of_loc.
  destruct (shr_exato M E n (Z.lt_le_incl _ _ HM) Hn0) as [S1 [S2 S3]].
  destruct (shr (Build_shr_record M false false) E n) as [mrs e'] eqn:Es.
  simpl in S1, S2, S3. subst e'.
  replace (E + n) with fe by (unfold n; lia).
  destruct (arredonda_par mrs) as [R1 R2].
  set (Q := round_nearest_even (shr_m mrs) (loc_of_shr_record mrs)) in *.
  rewrite S2 in R1, R2.
  assert (P2 : 0 < 2 ^ n) by (apply Z.pow_pos_nonneg; lia).
  assert (Q53 : M / 2 ^ n < 2 ^ 53).
  { apply Z.div_lt_upper_bound; [exact P2|].
    destruct M as [|m|m]; try lia. simpl Zdigits2 in *.
    pose proof (digitos_limites m) as [_ U].
    assert (Zpos (digits2_pos m) <= n + 53) by (unfold n, fe, fexp64; lia).
    assert (2 ^ Zpos (digits2_pos m) <= 2 ^ (n + 53)) by (apply Z.pow_le_mono_r; lia).
    rewrite Z.pow_add_r in H0 by lia. lia. }
  assert (Q0 : 0 <= M / 2 ^ n) by (apply Z.div_pos; lia).
  exists Q. split; [exact R1|]. split; [intros Hz; apply R2, S3, Hz|]. split; [lia|].
  rewrite shr_fexp_segundo by (unfold fe, fexp64; lia).
  unfold empacota.
  destruct (Z.eqb_spec Q (2 ^ 53)) as [EQ|NQ].
  - rewrite EQ. simpl shr_m. 
    change (2 ^ 52) with (Zpos (2 ^ 52)).
    cbv iota beta. 
    replace (fe + 1 <=? emax - prec) with true; [reflexivity|].
    symmetry. apply Z.leb_le. change (emax - prec) with 971. lia.
  - simpl shr_m. destruct Q as [|q|q]; try reflexivity; try lia.
    replace (fe <=? emax - prec) with true; [reflexivity|].
    symmetry. apply Z.leb_le. change (emax - prec) with 971. lia.
Qed.

(** The rounded mantissa between integer bounds. *)
Lemma arredonda_teto (M n Q u : Z) :
  0 <= n -> M <= u * 2 ^ n ->
  Q <= M / 2 ^ n + 1 -> (M mod 2 ^ n = 0 -> Q = M / 2 ^ n) ->
  Q <= u.
Proof.
  intros Hn Hu H1 H2.
  assert (P2 : 0 < 2 ^ n) by (apply Z.pow_pos_nonneg; lia).
  pose proof (Z.div_mod M (2 ^ n) ltac:(lia)) as D.
  pose proof (Z.mod_pos_bound M (2 ^ n) P2) as B.
  destruct (Z_lt_le_dec (M / 2 ^ n) u) as [L|G]; [lia|].
  assert (Z0 : M mod 2 ^ n = 0) by nia.
  rewrite (H2 Z0). nia.
Qed.

Lemma arredonda_piso (M n Q l : Z) :
  0 <= n -> l * 2 ^ n <= M -> M / 2 ^ n <= Q -> l <= Q.
Proof.
  intros Hn Hl H1.
  assert (P2 : 0 < 2 ^ n) by (apply Z.pow_pos_nonneg; lia).
  assert (l <= M / 2 ^ n) by (apply Z.div_le_lower_bound; lia).
  lia.
Qed.

(** Powers of two compared by their exponents. *)
Lemma pow2_lt_inv (a b : Z) : 0 <= b -> 2 ^ a < 2 ^ b -> a < b.
Proof.
  intros Hb H. destruct (Z_lt_le_dec a b) as [L|G]; [exact L|].
  assert (2 ^ b <= 2 ^ a) by (apply Z.pow_le_mono_r; lia). lia.
Qed.

Lemma iter_xO_valor (m d : positive) :
  Zpos (Pos.iter xO m d) = Zpos m * 2 ^ Zpos d.
Proof.
  induction d as [|d IH] using Pos.peano_ind.
  - simpl. lia.
  - rewrite Pos.iter_succ, Pos2Z.inj_succ, Z.pow_succ_r by lia.
    change (Zpos (Pos.iter xO m d)~0) with (2 * Zpos (Pos.iter xO m d)).
    rewrite IH. ring.
Qed.

Lemma shl_align_valor (mx : positive) (ex ex' : Z) :
  ex' <= ex ->
  Zpos (fst (shl_align mx ex ex')) = Zpos mx * 2 ^ (ex - ex').
Proof.
  intros H. unfold shl_align.
  destruct (ex' - ex) as [|d|d] eqn:E; try lia; simpl fst.
  - replace (ex - ex') with 0 by lia. simpl. lia.
  - rewrite iter_xO_valor. f_equal. f_equal. lia.
Qed.

Lemma shl_align_nada (mx : positive) (ex ex' : Z) :
  ex <= ex' -> shl_align mx ex ex' = (mx, ex).
Proof.
  intros H. unfold shl_align. destruct (ex' - ex) eqn:E; try reflexivity. lia.
Qed.

(** 3.0, 2.0 and 5.0 in the binary64 format. *)
Definition SF_tres : spec_float := S754_finite false 6755399441055744 (-51).
Definition SF_dois : spec_float := S754_finite false 4503599627370496 (-51).
Definition SF_cinco : spec_float := S754_finite false 5629499534213120 (-50).

(** The product of 3.0 and a binary64 value of [0, 1): zero, or a value that
    is at most 3. *)
Lemma produto_por_tres (m : positive) (e : Z) :
  bounded prec emax m e = true -> e <= -53 ->
  SFmul prec emax SF_tres (S754_finite false m e) = S754_zero false \/
  exists mp ep,
    SFmul prec emax SF_tres (S754_finite false m e) = S754_finite false mp ep /\
    ep <= -51 /\ Zpos mp <= 3 * 2 ^ (- ep).
Proof.
  intros Hb He.
  unfold bounded, canonical_mantissa in Hb. apply andb_prop in Hb. destruct Hb as [Hc _].
  apply Z.eqb_eq in Hc. rewrite fexp_fexp64 in Hc.
  pose proof (digitos_limites m) as [_ Um].
  assert (Dm : Zpos (digits2_pos m) <= 53) by (unfold fexp64 in Hc; lia).
  assert (M53 : Zpos m < 2 ^ 53).
  { assert (2 ^ Zpos (digits2_pos m) <= 2 ^ 53) by (apply Z.pow_le_mono_r; lia). lia. }
  unfold SF_tres, SFmul. change (xorb false false) with false.
  set (mm := (6755399441055744 * m)%positive).
  assert (HM : Zpos mm = 3 * 2 ^ 51 * Zpos m)
    by (unfold mm; rewrite Pos2Z.inj_mul; reflexivity).
  clearbody mm.
  set (E := -51 + e).
  pose proof (digitos_limites mm) as [L U].
  assert (Dl : 53 <= Zpos (digits2_pos mm) <= 106).
  { split.
    - assert (H : 2 ^ 52 < 2 ^ Zpos (digits2_pos mm)) by lia.
      apply pow2_lt_inv in H; lia.
    - assert (H : 2 ^ (Zpos (digits2_pos mm) - 1) < 2 ^ 106) by lia.
      apply pow2_lt_inv in H; lia. }
  change (Zpos (digits2_pos mm)) with (Zdigits2 (Zpos mm)) in Dl.
  set (M := Zpos mm) in *.
  assert (Hfe : fexp64 (Zdigits2 M + E) <= -51) by (unfold fexp64, E; lia).
  destruct (binary_round_aux_exato M E) as [Q [[Q1 Q2] [Q3 [Q4 Q5]]]].
  { unfold M. lia. }
  { unfold fexp64, E. lia. }
  { lia. }
  rewrite Q5. clear Q5.
  set (fe := fexp64 (Zdigits2 M + E)) in *.
  assert (Hn : 0 <= fe - E) by (unfold fe, fexp64, E; lia).
  assert (Qu : Q <= 3 * 2 ^ (- fe)).
  { apply (arredonda_teto M (fe - E) Q); try assumption.
    rewrite <- Z.mul_assoc, <- Z.pow_add_r by lia.
    replace (- fe + (fe - E)) with (51 + - e) by (unfold E; lia).
    rewrite Z.pow_add_r by lia. rewrite HM.
    assert (2 ^ 53 <= 2 ^ (- e)) by (apply Z.pow_le_mono_r; lia).
    nia. }
  assert (Q0 : 0 <= Q).
  { assert (0 <= M / 2 ^ (fe - E)); [|lia].
    apply Z.div_pos; [unfold M; lia|]. apply Z.pow_pos_nonneg; lia. }
  unfold empacota. destruct Q as [|q|q]; [now left| |lia]. right.
  destruct (Z.eqb_spec (Zpos q) (2 ^ 53)) as [EQ|NQ].
  - assert (fe <= -52).
    { destruct (Z_le_gt_dec fe (-52)) as [?|G]; [assumption|].
      exfalso. assert (2 ^ (- fe) <= 2 ^ 51) by (apply Z.pow_le_mono_r; lia).
      rewrite EQ in Qu. change (2 ^ 53) with (4 * 2 ^ 51) in Qu. lia. }
    exists (2 ^ 52)%positive, (fe + 1). split; [reflexivity|]. split; [lia|].
    assert (2 ^ 51 <= 2 ^ (- (fe + 1))) by (apply Z.pow_le_mono_r; lia).
    change (Zpos (2 ^ 52)) with (2 * 2 ^ 51). lia.
  - exists q, fe. split; [reflexivity|]. split; [exact Hfe|exact Qu].
Qed.

Lemma compara_mantissas (a b : positive) :
  Zpos a <= Zpos b ->
  match Pos.compare_cont Eq a b with Lt | Eq => true | Gt => false end = true.
Proof.
  intros H. change (Pos.compare_cont Eq a b) with (a ?= b)%positive.
  destruct (Pos.compare_spec a b) as [E|L|G]; try reflexivity. lia.
Qed.

Lemma compara_menor (a b : positive) :
  match Pos.compare_cont Eq a b with Lt => true | _ => false end = true ->
  Zpos a < Zpos b.
Proof.
  change (Pos.compare_cont Eq a b) with (a ?= b)%positive.
  destruct (Pos.compare_spec a b) as [E|L|G]; try discriminate. intros _. lia.
Qed.

(** 2.0 plus a binary64 value that is positive and at most 3 lies between 2.0
    and 5.0. *)
Lemma soma_com_dois (mp : positive) (ep : Z) :
  ep <= -51 -> Zpos mp <= 3 * 2 ^ (- ep) ->
  SFleb SF_dois (SFadd prec emax SF_dois (S754_finite false mp ep)) = true /\
  SFleb (SFadd prec emax SF_dois (S754_finite false mp ep)) SF_cinco = true.
Proof.
  intros He Hm.
  unfold SF_dois at 2 3. unfold SFadd.
  rewrite Z.min_r by lia.
  unfold cond_Zopp. cbv iota.
  rewrite (shl_align_nada mp ep ep) by lia.
  change (fst (mp, ep)) with mp.
  rewrite (shl_align_valor 4503599627370496 (-51) ep He).
  set (k := -51 - ep). assert (Hk : 0 <= k) by (unfold k; lia).
  assert (Ek : - ep = 51 + k) by (unfold k; lia).
  rewrite Ek, Z.pow_add_r in Hm by lia.
  assert (PX : 0 < 2 ^ k) by (apply Z.pow_pos_nonneg; lia).
  set (X := 2 ^ k) in *.
  change (Zpos 4503599627370496) with (2 ^ 52).
  remember (2 ^ 52 * X + Zpos mp) as S eqn:ES.
  assert (S1 : 2 ^ 52 * X <= S) by lia.
  assert (S2 : S <= 5 * 2 ^ 51 * X).
  { change (2 ^ 52) with (2 * 2 ^ 51) in ES. lia. }
  clear ES Hm.
  destruct S as [|s|s]; try lia.
  unfold binary_normalize, binary_round.
  pose proof (digitos_limites s) as [L U].
  set (d := Zpos (digits2_pos s)) in *.
  assert (Dd : d = 53 + k \/ d = 54 + k).
  { assert (H1 : 2 ^ (52 + k) < 2 ^ d).
    { rewrite Z.pow_add_r by lia. fold X. lia. }
    apply pow2_lt_inv in H1; [|unfold d; lia].
    assert (H2 : 2 ^ (d - 1) < 2 ^ (54 + k)).
    { rewrite (Z.pow_add_r 2 54 k) by lia. fold X.
      change (2 ^ 54) with (8 * 2 ^ 51). lia. }
    apply pow2_lt_inv in H2; lia. }
  assert (Fe : fexp64 (d + ep) = d + ep - 53) by (unfold fexp64; lia).
  rewrite fexp_fexp64, shl_align_nada by lia.
  destruct (binary_round_aux_exato (Zpos s) ep) as [Q [[Q1 Q2] [Q3 [Q4 Q5]]]].
  { lia. }
  { change (Zdigits2 (Zpos s)) with d. lia. }
  { change (Zdigits2 (Zpos s)) with d. lia. }
  change (Zdigits2 (Zpos s)) with d in *.
  rewrite Q5. clear Q5. rewrite Fe in *.
  destruct Dd as [Dd|Dd].
  - (* the sum is below 4 *)
    replace (d + ep - 53) with (-51) in * by lia.
    replace (-51 - ep) with k in * by lia. fold X in Q1, Q2, Q3.
    assert (Ql : 2 ^ 52 <= Q).
    { apply (arredonda_piso (Zpos s) k Q); try assumption. }
    unfold empacota. destruct Q as [|q|q]; try lia.
    destruct (Z.eqb_spec (Zpos q) (2 ^ 53)) as [EQ|NQ].
    + split; reflexivity.
    + split.
      * unfold SF_dois, SFleb, SFcompare.
        change (-51 ?= -51) with Eq. cbv iota.
        apply compara_mantissas. exact Ql.
      * reflexivity.
  - (* the sum is 4 or more *)
    replace (d + ep - 53) with (-50) in * by lia.
    assert (Hn : -50 - ep = k + 1) by lia. rewrite Hn in *.
    assert (EX : 2 ^ (k + 1) = 2 * X) by (rewrite Z.pow_add_r by lia; fold X; lia).
    rewrite EX in *.
    assert (Ql : 2 ^ 52 <= Q).
    { assert (T : 2 ^ 52 * (2 * X) <= Zpos s).
      { replace (d - 1) with (53 + k) in L by lia.
        rewrite Z.pow_add_r in L by lia. fold X in L.
        change (2 ^ 53) with (2 ^ 52 * 2) in L. lia. }
      assert (P2 : 0 < 2 * X) by lia.
      assert (2 ^ 52 <= Zpos s / (2 * X)) by (apply Z.div_le_lower_bound; lia).
      lia. }
    assert (Qu : Q <= 5 * 2 ^ 50).
    { rewrite <- EX in Q2, Q3.
      apply (arredonda_teto (Zpos s) (k + 1) Q); try assumption; [lia|].
      rewrite EX. change (2 ^ 51) with (2 * 2 ^ 50) in S2. lia. }
    unfold empacota. destruct Q as [|q|q]; try lia.
    destruct (Z.eqb_spec (Zpos q) (2 ^ 53)) as [EQ|NQ].
    + exfalso. rewrite EQ in Qu. change (2 ^ 53) with (8 * 2 ^ 50) in Qu. lia.
    + split.
      * reflexivity.
      * unfold SF_cinco, SFleb, SFcompare.
        change (-50 ?= -50) with Eq. cbv iota.
        apply compara_mantissas. exact Qu.
Qed.

End Arredondamento.

(** [random.uniform(2, 5)] for a value of [random.random()], which is in
    [0.0, 1.0): the result is in the closed interval from 2.0 to 5.0. *)
Lemma uniform_2_5_limites (r : float) :
  (0 <=? r)%float = true -> (r <? 1)%float = true ->
  (2 <=? uniform 2 5 r)%float = true /\ (uniform 2 5 r <=? 5)%float = true.
Proof.
  intros H0 H1. rewrite leb_spec in H0. rewrite ltb_spec in H1.
  unfold uniform. change (5 - 2)%float with 3%float.
  rewrite !leb_spec, add_spec, mul_spec.
  change (Prim2SF 2) with SF_dois. change (Prim2SF 3) with SF_tres.
  change (Prim2SF 5) with SF_cinco.
  change (Prim2SF 0) with (S754_zero false) in H0.
  change (Prim2SF 1) with (S754_finite false 4503599627370496 (-52)) in H1.
  pose proof (Prim2SF_valid r) as V.
  destruct (Prim2SF r) as [s|s| |s m e].
  - destruct s; split; reflexivity.
  - destruct s; discriminate.
  - discriminate.
  - destruct s; [discriminate|]. clear H0.
    simpl in V.
    assert (He : (e <= -53)%Z).
    { unfold SFltb, SFcompare in H1.
      destruct (Z.compare_spec e (-52)) as [E|L|G]; try discriminate; [|lia].
      exfalso. subst e.
      apply compara_menor in H1.
      unfold bounded, canonical_mantissa in V. apply andb_prop in V. destruct V as [Vc _].
      apply Z.eqb_eq in Vc. rewrite fexp_fexp64 in Vc. unfold fexp64 in Vc.
      pose proof (digitos_limites m) as [Lm _].
      assert (D : Zpos (digits2_pos m) = 53%Z) by lia.
      rewrite D in Lm. change (2 ^ (53 - 1))%Z with (Zpos 4503599627370496) in Lm.
      lia. }
    unfold SF64add, SF64mul.
    destruct (produto_por_tres m e V He) as [-> | [mp [ep [-> [Hep Hmp]]]]].
    + split; reflexivity.
    + apply soma_com_dois; assumption.
Qed.

(** * The tiers of [mostrar_resultado] *)

(** An environment of the simulation mode: the clock stands still, the
    generator always draws its first value, no write raises. *)
Definition ambiente_simulado : Ambiente :=
  mkAmbiente true (fun _ => 0%float) (fun _ _ => false) (fun _ => 0%nat)
             (fun _ => 0%float) (fun _ => false).

Lemma ambiente_simulado_sem_falhas : sem_falhas ambiente_simulado.
Proof. intros k. reflexivity. Qed.

(** C1. For every reaction time [t] given to [mostrar_resultado] (no write
    raising): the call returns, and what it did since it was called is
    - for [t <= 0.3]: outputs cleared, "EXCELENTE" printed, the green light
      on, [tocar_tom(1500, 0.2)] once (on the PWM of the board, 1500 Hz at
      half duty for 0.2 s; the wait alone where there is no PWM), the 2 s
      pause, outputs cleared;
    - for [0.3 < t <= 0.6]: "MEDIO" printed, the yellow light on and off three
      times (0.1 s each), and no call of [tocar_tom];
    - for [0.6 < t]: "LENTO" printed, the red light on, [tocar_tom(440, 1.0)]
      once.
    The two bounds themselves belong to the better tier, as [<=] is what is
    tested. *)
Theorem mostrar_resultado_classifica (amb : Ambiente) (w : Mundo) (t : float) :
  sem_falhas amb ->
  exists w', mostrar_resultado amb t w = (Retorno tt, w') /\
    ((t <=? LIMITE_EXCELENTE)%float = true ->
       historico w' = historico w ++ retorno_excelente amb w t) /\
    ((LIMITE_EXCELENTE <? t)%float = true -> (t <=? LIMITE_MEDIO)%float = true ->
       historico w' = historico w ++ retorno_medio amb w t) /\
    ((LIMITE_MEDIO <? t)%float = true ->
       historico w' = historico w ++ retorno_lento amb w t) /\
    historico (snd (mostrar_resultado amb LIMITE_EXCELENTE w)) =
      historico w ++ retorno_excelente amb w LIMITE_EXCELENTE /\
    historico (snd (mostrar_resultado amb LIMITE_MEDIO w)) =
      historico w ++ retorno_medio amb w LIMITE_MEDIO.
Proof.
  intros Hf.
  destruct (mostrar_resultado_sem_falhas amb w t Hf) as [k Hk].
  exists (avanca k (rev (retorno amb w t)) w). split; [exact Hk|].
  rewrite historico_avanca, rev_involutive. unfold retorno.
  repeat split.
  - intros H. now rewrite H.
  - intros H1 H2. now rewrite (ltb_leb_false _ _ H1), H2.
  - intros H.
    assert (H' : (LIMITE_EXCELENTE <? t)%float = true)
      by (apply ltb_trans with LIMITE_MEDIO; [reflexivity | exact H]).
    now rewrite (ltb_leb_false _ _ H'), (ltb_leb_false _ _ H).
  - destruct (mostrar_resultado_sem_falhas amb w LIMITE_EXCELENTE Hf) as [k1 Hk1].
    rewrite Hk1. unfold snd. now rewrite historico_avanca, rev_involutive.
  - destruct (mostrar_resultado_sem_falhas amb w LIMITE_MEDIO Hf) as [k1 Hk1].
    rewrite Hk1. unfold snd. now rewrite historico_avanca, rev_involutive.
Qed.

Lemma mostrar_resultado_classifica_witness :
  sem_falhas ambiente_simulado /\
  exists w', mostrar_resultado ambiente_simulado 0.45%float mundo_inicial = (Retorno tt, w') /\
    ((0.45 <=? LIMITE_EXCELENTE)%float = true ->
       historico w' = historico mundo_inicial ++ retorno_excelente ambiente_simulado mundo_inicial 0.45%float) /\
    ((LIMITE_EXCELENTE <? 0.45)%float = true -> (0.45 <=? LIMITE_MEDIO)%float = true ->
       historico w' = historico mundo_inicial ++ retorno_medio ambiente_simulado mundo_inicial 0.45%float) /\
    ((LIMITE_MEDIO <? 0.45)%float = true ->
       historico w' = historico mundo_inicial ++ retorno_lento ambiente_simulado mundo_inicial 0.45%float) /\
    historico (snd (mostrar_resultado ambiente_simulado LIMITE_EXCELENTE mundo_inicial)) =
      historico mundo_inicial ++ retorno_excelente ambiente_simulado mundo_inicial LIMITE_EXCELENTE /\
    historico (snd (mostrar_resultado ambiente_simulado LIMITE_MEDIO mundo_inicial)) =
      historico mundo_inicial ++ retorno_medio ambiente_simulado mundo_inicial LIMITE_MEDIO.
Proof.
  split.
  - intros k. reflexivity.
  - apply (mostrar_resultado_classifica ambiente_simulado mundo_inicial 0.45%float).
    intros k. reflexivity.
Defined.

(** * The calls a program can make *)

(** ** Programs whose calls all belong to a class *)

(** Whatever the world and whatever the outcome, the program only adds calls
    of the class [C] to the log. *)
Definition so_emite {A} (C : Evento -> Prop) (m : Prog A) : Prop :=
  forall w, exists novos,
    registro (snd (m w)) = novos ++ registro w /\ Forall C novos.

Lemma so_emite_ret {A} C (a : A) : so_emite C (ret a).
Proof. intros w. exists []. split; [reflexivity|constructor]. Qed.

Lemma so_emite_esgotado {A} C : so_emite C (@esgotado A).
Proof. intros w. exists []. split; [reflexivity|constructor]. Qed.

Lemma so_emite_bind {A B} C (m : Prog A) (f : A -> Prog B) :
  so_emite C m -> (forall a, so_emite C (f a)) -> so_emite C (bind m f).
Proof.
  intros Hm Hf w. unfold bind.
  destruct (Hm w) as [n1 [E1 F1]].
  destruct (m w) as [[a| | ] w1]; simpl in *.
  - destruct (Hf a w1) as [n2 [E2 F2]].
    exists (n2 ++ n1). split.
    + now rewrite E2, E1, app_assoc.
    + apply Forall_app. now split.
  - now exists n1.
  - now exists n1.
Qed.

Lemma so_emite_emite C e : C e -> so_emite C (emite e).
Proof. intros He w. exists [e]. split; [reflexivity|now constructor]. Qed.

Lemma so_emite_escreve C amb e : C e -> so_emite C (escreve amb e).
Proof.
  intros He w. unfold escreve. destruct (falha amb (n_escritas w)); simpl.
  - exists []. split; [reflexivity|constructor].
  - exists [e]. split; [reflexivity|now constructor].
Qed.

Lemma so_emite_tenta C (m : Prog unit) : so_emite C m -> so_emite C (tenta m).
Proof.
  intros Hm w. unfold tenta. destruct (Hm w) as [n [E F]].
  destruct (m w) as [[a| | ] w1]; simpl in *; now exists n.
Qed.

(** A step that only reads or updates the variables of the program. *)
Lemma so_emite_calado {A} C (m : Prog A) :
  (forall w, registro (snd (m w)) = registro w) -> so_emite C m.
Proof. intros H w. exists []. split; [apply H|constructor]. Qed.

Lemma so_emite_repete C n (m : Prog unit) : so_emite C m -> so_emite C (repete n m).
Proof.
  intros Hm. induction n as [|n IH]; simpl.
  - apply so_emite_ret.
  - apply so_emite_bind; auto.
Qed.

(** The calls that leave the edge detection of the button as it is. *)
Definition nao_toca_botao (e : Evento) : Prop :=
  match e with
  | EvRemoveEventDetect _ | EvAddEventDetect _ => False
  | _ => True
  end.

Ltac classe :=
  repeat first
    [ apply so_emite_bind; [|intros ?]
    | apply so_emite_ret
    | apply so_emite_esgotado
    | apply so_emite_emite; exact I
    | apply so_emite_escreve; exact I
    | apply so_emite_tenta
    | apply so_emite_repete
    | apply so_emite_calado; intros ?; reflexivity
    | match goal with |- so_emite _ (if ?c then _ else _) => destruct c end
    | match goal with |- so_emite _ (match ?c with _ => _ end) => destruct c end ].

Lemma limpar_saidas_nao_toca_botao amb : so_emite nao_toca_botao (limpar_saidas amb).
Proof.
  unfold limpar_saidas, GPIO_output, ChangeDutyCycle. classe.
Qed.

Lemma tocar_tom_nao_toca_botao amb hz d : so_emite nao_toca_botao (tocar_tom amb hz d).
Proof.
  unfold tocar_tom, ChangeFrequency, ChangeDutyCycle, time_sleep. classe.
Qed.

Lemma mostrar_resultado_nao_toca_botao amb t :
  so_emite nao_toca_botao (mostrar_resultado amb t).
Proof.
  unfold mostrar_resultado, pisca_amarelo, print, time_sleep, GPIO_output.
  repeat first
    [ apply limpar_saidas_nao_toca_botao
    | apply tocar_tom_nao_toca_botao
    | progress classe ].
Qed.

Lemma medir_distancia_nao_toca_botao amb le :
  so_emite nao_toca_botao (medir_distancia amb le).
Proof.
  unfold medir_distancia, time_sleep, GPIO_output. classe.
Qed.

Lemma laco_reacao_nao_toca_botao amb le l :
  so_emite nao_toca_botao (laco_reacao amb le l).
Proof.
  induction l as [|l IH]; simpl.
  - apply so_emite_esgotado.
  - unfold time_sleep.
    repeat first
      [ apply IH
      | apply medir_distancia_nao_toca_botao
      | apply mostrar_resultado_nao_toca_botao
      | progress classe ].
Qed.

Lemma corpo_do_teste_nao_toca_botao amb le l :
  so_emite nao_toca_botao (corpo_do_teste amb le l).
Proof.
  unfold corpo_do_teste, random_uniform, print, time_sleep, GPIO_output.
  repeat first
    [ apply laco_reacao_nao_toca_botao
    | apply mostrar_resultado_nao_toca_botao
    | progress classe ].
Qed.

(** * One trial at a time *)

Lemma ouvindo_aplica e p : nao_toca_botao e -> ouvindo (aplica e p) = ouvindo p.
Proof.
  destruct e; simpl; try contradiction; try reflexivity.
  intros _. unfold aplica_output.
  repeat match goal with |- context [if ?c then _ else _] => destruct c end;
    reflexivity.
Qed.

Lemma ouvindo_painel_de novos base :
  Forall nao_toca_botao novos ->
  ouvindo (painel_de (novos ++ base)) = ouvindo (painel_de base).
Proof.
  induction 1 as [|e novos He _ IH]; simpl; [reflexivity|].
  now rewrite ouvindo_aplica.
Qed.

(** What ends the log of a call of [iniciar_teste]: the registration of the
    edge detection when the call returns, nothing when it does not. *)
Definition fecho (r : Desfecho unit) : list Evento :=
  match r with
  | Retorno _ => [EvAddEventDetect PIN_BOTAO]
  | _ => []
  end.

Lemma iniciar_teste_forma amb le l canal w :
  exists meio,
    registro (snd (iniciar_teste amb le l canal w)) =
      fecho (fst (iniciar_teste amb le l canal w)) ++ meio ++
      EvRemoveEventDetect PIN_BOTAO :: registro w /\
    Forall nao_toca_botao meio.
Proof.
  unfold iniciar_teste, GPIO_remove_event_detect, GPIO_add_event_detect.
  rewrite (bind_retorno _ _ _ _ _ (emite_avanca _ _)).
  set (w0 := avanca 0 [EvRemoveEventDetect PIN_BOTAO] w).
  destruct (corpo_do_teste_nao_toca_botao amb le l w0) as [meio [E F]].
  exists meio. split; [|exact F].
  unfold bind.
  destruct (corpo_do_teste amb le l w0) as [[[]| | ] w1]; simpl in *; rewrite E; reflexivity.
Qed.

(** C3. Whatever the environment does, the log of a call of [iniciar_teste]
    is: the removal of the edge detection, calls that do not touch it, and (when
    the call returns) its registration.  At every instant in between the panel
    is not listening, and a rising edge that arrives then calls nothing and
    changes nothing: it is lost, not kept.  In any world an edge starts a
    trial exactly when the panel is listening. *)
Theorem um_teste_por_vez (amb : Ambiente) (le l : nat) (canal : Z) (w : Mundo) :
  exists meio,
    registro (snd (iniciar_teste amb le l canal w)) =
      fecho (fst (iniciar_teste amb le l canal w)) ++ meio ++
      EvRemoveEventDetect PIN_BOTAO :: registro w /\
    Forall nao_toca_botao meio /\
    (forall depois antes wi,
        meio = depois ++ antes ->
        registro wi = antes ++ EvRemoveEventDetect PIN_BOTAO :: registro w ->
        ouvindo (painel wi) = false /\
        forall le' l', borda_subida amb le' l' wi = (Retorno tt, wi)) /\
    (forall w0 le' l',
        borda_subida amb le' l' w0 =
        if ouvindo (painel w0) then iniciar_teste amb le' l' PIN_BOTAO w0
        else (Retorno tt, w0)).
Proof.
  destruct (iniciar_teste_forma amb le l canal w) as [meio [E F]].
  exists meio. split; [exact E|]. split; [exact F|]. split.
  - intros depois antes wi Em Ei.
    assert (O : ouvindo (painel wi) = false).
    { unfold painel. rewrite Ei, ouvindo_painel_de; [reflexivity|].
      subst meio. apply Forall_app in F. tauto. }
    split; [exact O|].
    intros le' l'. unfold borda_subida. rewrite bind_le_mundo. now rewrite O.
  - intros w0 le' l'. unfold borda_subida. rewrite bind_le_mundo.
    destruct (ouvindo (painel w0)); reflexivity.
Qed.

(** * Listening again after a trial *)

(** The board, with the sensor never answering, a clock that stands still,
    and the [k0]-th write to an output raising. *)
Definition ambiente_escrita_falha (k0 : nat) : Ambiente :=
  mkAmbiente false (fun _ => 0%float) (fun _ _ => false) (fun _ => 0%nat)
             (fun _ => 0.5%float) (fun k => Nat.eqb k k0).

(** The simulation mode with the hand always at 5 cm. *)
Definition ambiente_reacao : Ambiente :=
  mkAmbiente true (fun _ => 0%float) (fun _ _ => false) (fun _ => 2%nat)
             (fun _ => 0.5%float) (fun _ => false).

(** C4, as the specification states it, fails: on the board, after start-up
    the panel listens; the button is pressed and the first write of the trial
    (the yellow light) raises; the exception leaves [iniciar_teste] before
    line 159, and the panel does not listen any more. *)
Lemma escuta_perdida :
  ouvindo (painel (snd (principal (ambiente_escrita_falha 1) mundo_inicial))) = true /\
  fst (iniciar_teste (ambiente_escrita_falha 1) 1 1 PIN_BOTAO
         (snd (principal (ambiente_escrita_falha 1) mundo_inicial))) = Excecao /\
  ouvindo (painel (snd (iniciar_teste (ambiente_escrita_falha 1) 1 1 PIN_BOTAO
         (snd (principal (ambiente_escrita_falha 1) mundo_inicial))))) = false.
Proof. vm_compute. repeat split. Qed.

(** C4, amended. When a call of [iniciar_teste] returns (the hand was
    detected or the window closed), the panel listens again; and between the
    removal of the edge detection at the start of the call and its
    registration at the end no call touches it. *)
Theorem escuta_restabelecida (amb : Ambiente) (le l : nat) (canal : Z) (w : Mundo) :
  fst (iniciar_teste amb le l canal w) = Retorno tt ->
  ouvindo (painel (snd (iniciar_teste amb le l canal w))) = true /\
  exists meio,
    registro (snd (iniciar_teste amb le l canal w)) =
      EvAddEventDetect PIN_BOTAO :: meio ++ EvRemoveEventDetect PIN_BOTAO :: registro w /\
    Forall nao_toca_botao meio.
Proof.
  intros Hr.
  destruct (iniciar_teste_forma amb le l canal w) as [meio [E F]].
  rewrite Hr in E. simpl in E. split.
  - unfold painel. rewrite E. reflexivity.
  - now exists meio.
Qed.

Lemma escuta_restabelecida_witness :
  fst (iniciar_teste ambiente_reacao 0 1 PIN_BOTAO mundo_inicial) = Retorno tt /\
  ouvindo (painel (snd (iniciar_teste ambiente_reacao 0 1 PIN_BOTAO mundo_inicial))) = true /\
  exists meio,
    registro (snd (iniciar_teste ambiente_reacao 0 1 PIN_BOTAO mundo_inicial)) =
      EvAddEventDetect PIN_BOTAO :: meio ++
      EvRemoveEventDetect PIN_BOTAO :: registro mundo_inicial /\
    Forall nao_toca_botao meio.
Proof.
  split.
  - vm_compute. reflexivity.
  - apply (escuta_restabelecida ambiente_reacao 0 1 PIN_BOTAO mundo_inicial).
    vm_compute. reflexivity.
Defined.

(** * Running the programs when some writes raise *)

Lemma escreve_passa amb e w :
  falha amb (n_escritas w) = false -> escreve amb e w = (Retorno tt, avanca 1 [e] w).
Proof. intros Hf. unfold escreve. now rewrite Hf. Qed.

(** A call that cannot raise is made. *)
Ltac emitido :=
  rewrite ?bind_assoc;
  rewrite (bind_retorno _ _ _ _ _ (emite_avanca _ _));
  rewrite ?avanca_avanca.

(** The next [n] writes go through. *)
Definition passam (amb : Ambiente) (w : Mundo) (n : nat) : Prop :=
  forall i, i < n -> falha amb (i + n_escritas w) = false.

Lemma passam_avanca amb w k es n :
  passam amb w (k + n) -> passam amb (avanca k es w) n.
Proof.
  intros H i Hi. unfold avanca. simpl.
  replace (i + (k + n_escritas w)) with ((i + k) + n_escritas w) by lia.
  apply H. lia.
Qed.

Lemma escreve_passam amb e w n :
  passam amb w (S n) -> escreve amb e w = (Retorno tt, avanca 1 [e] w).
Proof. intros H. apply escreve_passa. apply (H 0). lia. Qed.

(** The writes [mostrar_resultado] makes between its two clearings: the
    light of the tier and the three writes of a tone on the PWM, or the six
    writes of the blinking. *)
Definition escritas_do_sinal (amb : Ambiente) (w : Mundo) (t : float) : nat :=
  if (t <=? LIMITE_EXCELENTE)%float then 1 + (if pwm_ativo amb w then 3 else 0)
  else if (t <=? LIMITE_MEDIO)%float then 6
  else 1 + (if pwm_ativo amb w then 3 else 0).

(** What [limpar_saidas] did is a prefix of its four writes. *)
Lemma limpar_saidas_prefixo amb w :
  exists j w',
    limpar_saidas amb w = (Retorno tt, w') /\
    historico w' = historico w ++ firstn j (apagar amb w) /\
    buzzer_pwm w' = buzzer_pwm w.
Proof.
  unfold limpar_saidas, tenta, bind, GPIO_output, ChangeDutyCycle, escreve, le_mundo,
    apagar, pwm_ativo, historico.
  simpl. rewrite (andb_comm (negb _)).
  destruct (falha amb (n_escritas w)); simpl;
    [exists 0; eexists; split; [reflexivity|]; simpl; rewrite app_nil_r; auto|].
  destruct (falha amb (S (n_escritas w))); simpl;
    [exists 1; eexists; split; [reflexivity|]; simpl; auto|].
  destruct (falha amb (S (S (n_escritas w)))); simpl;
    [exists 2; eexists; split; [reflexivity|]; simpl; rewrite <- ?app_assoc; auto|].
  destruct (buzzer_pwm w && negb (MODO_SIMULACAO amb)); simpl;
    destruct (falha amb (S (S (S (n_escritas w))))); simpl;
    first [ exists 3; eexists; (split; [reflexivity|]); simpl; rewrite <- ?app_assoc;
            split; reflexivity
          | exists 4; eexists; (split; [reflexivity|]); simpl; rewrite <- ?app_assoc;
            split; reflexivity ].
Qed.

(** The writes up to the one that raises are made. *)
Ltac ate_a_falha Hp Hf :=
  repeat
    (rewrite ?bind_assoc;
     first
       [ erewrite bind_excecao by (apply escreve_falha; exact Hf); reflexivity
       | erewrite bind_retorno
           by (eapply (escreve_passam _ _ _ 0); apply passam_avanca;
               intros ? ?; apply Hp; lia);
         rewrite ?avanca_avanca
       | rewrite (bind_retorno _ _ _ _ _ (emite_avanca _ _)); rewrite ?avanca_avanca ]).

(** * Writes that raise *)

(** C8, as the specification states it, fails: on the board, the write that
    turns the green light on in [mostrar_resultado] (its fifth write) raises,
    and the exception leaves [mostrar_resultado]; the write that turns the
    yellow light on in [iniciar_teste] (its first) raises, and the exception
    leaves [iniciar_teste]. *)
Lemma escrita_nao_guardada :
  fst (mostrar_resultado (ambiente_escrita_falha 4) 0.2%float mundo_inicial) = Excecao /\
  fst (iniciar_teste (ambiente_escrita_falha 0) 1 1 PIN_BOTAO mundo_inicial) = Excecao.
Proof. vm_compute. split; reflexivity. Qed.

Lemma limpar_saidas_retorna amb w : fst (limpar_saidas amb w) = Retorno tt.
Proof.
  unfold limpar_saidas, tenta, bind, GPIO_output, ChangeDutyCycle, escreve, le_mundo.
  simpl.
  repeat (match goal with |- context [falha ?a ?k] => destruct (falha a k) end;
          simpl; try reflexivity);
    destruct (buzzer_pwm w && negb (MODO_SIMULACAO amb)); simpl;
    match goal with |- context [falha ?a ?k] => destruct (falha a k) end;
    reflexivity.
Qed.

(** C8, amended. A write that raises inside [limpar_saidas] is caught there:
    [limpar_saidas] always returns.  No other write to a light or to the
    tone is guarded.  When one of the three writes [iniciar_teste] itself
    makes to the lights (lines 138, 140 and 143: the [i]-th of them, the ones
    before it having gone through) raises, the exception leaves
    [iniciar_teste].  When one of the writes [mostrar_resultado] makes between
    its two clearings raises (the light of the tier and the three writes of
    its tone on the PWM, or the six writes of the blinking: the [i]-th of
    them, the ones before it having gone through), the exception leaves
    [mostrar_resultado]. *)
Theorem so_limpar_saidas_guarda (amb : Ambiente) (w : Mundo) :
  fst (limpar_saidas amb w) = Retorno tt /\
  (forall i, i < 3 -> passam amb w i -> falha amb (i + n_escritas w) = true ->
   forall le l canal, fst (iniciar_teste amb le l canal w) = Excecao) /\
  (forall t i, i < escritas_do_sinal amb w t ->
   passam amb (snd (limpar_saidas amb w)) i ->
   falha amb (i + n_escritas (snd (limpar_saidas amb w))) = true ->
   fst (mostrar_resultado amb t w) = Excecao).
Proof.
  split; [apply limpar_saidas_retorna|split].
  - intros i Hi Hp Hf le l canal.
    unfold iniciar_teste, corpo_do_teste, random_uniform, GPIO_remove_event_detect,
      print, time_sleep, GPIO_output.
    emitido. emitido. rewrite ?bind_assoc.
    destruct i as [|[|[|i]]]; [| | |lia].
    + erewrite bind_excecao by (apply escreve_falha; exact Hf). reflexivity.
    + erewrite bind_retorno by (apply escreve_passa; exact (Hp 0 ltac:(lia))).
      rewrite ?bind_assoc. erewrite bind_retorno by reflexivity.
      rewrite ?bind_assoc. erewrite bind_retorno by reflexivity.
      emitido. rewrite ?bind_assoc.
      erewrite bind_excecao by (apply escreve_falha; exact Hf). reflexivity.
    + erewrite bind_retorno by (apply escreve_passa; exact (Hp 0 ltac:(lia))).
      rewrite ?bind_assoc. erewrite bind_retorno by reflexivity.
      rewrite ?bind_assoc. erewrite bind_retorno by reflexivity.
      emitido. rewrite ?bind_assoc.
      erewrite bind_retorno by (apply escreve_passa; exact (Hp 1 ltac:(lia))).
      emitido. rewrite ?bind_assoc.
      erewrite bind_excecao by (apply escreve_falha; exact Hf). reflexivity.
  - intros t i Hi Hp Hf.
    destruct (limpar_saidas_prefixo amb w) as [j1 [w1 [E1 [_ B1]]]].
    rewrite E1 in Hp, Hf. simpl snd in Hp, Hf.
    assert (A : pwm_ativo amb w1 = pwm_ativo amb w)
      by (unfold pwm_ativo; now rewrite B1).
    unfold mostrar_resultado.
    rewrite (bind_retorno _ _ _ _ _ E1). unfold print at 1. emitido.
    unfold escritas_do_sinal in Hi.
    destruct (t <=? LIMITE_EXCELENTE)%float; [|destruct (t <=? LIMITE_MEDIO)%float].
    + unfold print at 1, GPIO_output. emitido.
      destruct i as [|i].
      * ate_a_falha Hp Hf.
      * destruct (pwm_ativo amb w) eqn:Pw; [|lia].
        rewrite ?bind_assoc.
        erewrite bind_retorno
          by (eapply (escreve_passam _ _ _ 0); apply passam_avanca;
              intros ? ?; apply Hp; lia).
        rewrite avanca_avanca.
        unfold tocar_tom, ChangeFrequency, ChangeDutyCycle, time_sleep.
        rewrite ?bind_assoc, bind_le_mundo.
        match goal with |- context [negb (MODO_SIMULACAO amb) && buzzer_pwm ?x] =>
          change (negb (MODO_SIMULACAO amb) && buzzer_pwm x) with (pwm_ativo amb w1)
        end.
        rewrite A. cbv iota. change (1500 >? 0)%Z with true. cbv iota.
        destruct i as [|[|[|i]]]; [| | |lia]; ate_a_falha Hp Hf.
    + unfold print at 1, repete, pisca_amarelo, GPIO_output, time_sleep. emitido.
      destruct i as [|[|[|[|[|[|i]]]]]]; [| | | | | |lia]; ate_a_falha Hp Hf.
    + unfold print at 1, GPIO_output. emitido.
      destruct i as [|i].
      * ate_a_falha Hp Hf.
      * destruct (pwm_ativo amb w) eqn:Pw; [|lia].
        rewrite ?bind_assoc.
        erewrite bind_retorno
          by (eapply (escreve_passam _ _ _ 0); apply passam_avanca;
              intros ? ?; apply Hp; lia).
        rewrite avanca_avanca.
        unfold tocar_tom, ChangeFrequency, ChangeDutyCycle, time_sleep.
        rewrite ?bind_assoc, bind_le_mundo.
        match goal with |- context [negb (MODO_SIMULACAO amb) && buzzer_pwm ?x] =>
          change (negb (MODO_SIMULACAO amb) && buzzer_pwm x) with (pwm_ativo amb w1)
        end.
        rewrite A. cbv iota. change (440 >? 0)%Z with true. cbv iota.
        destruct i as [|[|[|i]]]; [| | |lia]; ate_a_falha Hp Hf.
Qed.

(** * The sensor in simulation mode *)

Lemma random_choice_tres (a b c : float) (i : nat) :
  random_choice [a; b; c] i = a \/ random_choice [a; b; c] i = b \/
  random_choice [a; b; c] i = c.
Proof.
  unfold random_choice. simpl length.
  assert (H : i mod 3 < 3) by (apply Nat.mod_upper_bound; discriminate).
  destruct (i mod 3) as [|[|[|n]]]; simpl; auto. lia.
Qed.

(** C10. In simulation mode a call of [medir_distancia] always returns, makes
    no call to the hardware, and its value is 50, 40 or 5, the one the
    generator draws: never the 999 of a lost echo; 50 and 40 are above the
    10 cm that count as a detection, 5 is a detection. *)
Theorem medir_distancia_simulada (amb : Ambiente) (le : nat) (w : Mundo) :
  MODO_SIMULACAO amb = true ->
  exists d w',
    medir_distancia amb le w = (Retorno d, w') /\
    d = random_choice [50; 40; 5]%float (sorteio amb (n_medicoes w)) /\
    registro w' = registro w /\
    n_medicoes w' = S (n_medicoes w) /\
    ((d = 50%float /\ (d <=? DISTANCIA_GATILHO)%float = false) \/
     (d = 40%float /\ (d <=? DISTANCIA_GATILHO)%float = false) \/
     (d = 5%float /\ (d <=? DISTANCIA_GATILHO)%float = true)) /\
    (d =? SEM_ECO)%float = false.
Proof.
  intros Hs. unfold medir_distancia, bind, nova_medicao. rewrite Hs. simpl.
  eexists. eexists. split; [reflexivity|]. simpl.
  repeat split.
  - destruct (random_choice_tres 50 40 5 (sorteio amb (n_medicoes w))) as [E|[E|E]];
      rewrite E; auto.
  - destruct (random_choice_tres 50 40 5 (sorteio amb (n_medicoes w))) as [E|[E|E]];
      rewrite E; reflexivity.
Qed.

Lemma medir_distancia_simulada_witness :
  MODO_SIMULACAO ambiente_reacao = true /\
  exists d w',
    medir_distancia ambiente_reacao 0 mundo_inicial = (Retorno d, w') /\
    d = random_choice [50; 40; 5]%float (sorteio ambiente_reacao (n_medicoes mundo_inicial)) /\
    registro w' = registro mundo_inicial /\
    n_medicoes w' = S (n_medicoes mundo_inicial) /\
    ((d = 50%float /\ (d <=? DISTANCIA_GATILHO)%float = false) \/
     (d = 40%float /\ (d <=? DISTANCIA_GATILHO)%float = false) \/
     (d = 5%float /\ (d <=? DISTANCIA_GATILHO)%float = true)) /\
    (d =? SEM_ECO)%float = false.
Proof.
  split.
  - reflexivity.
  - apply (medir_distancia_simulada ambiente_reacao 0 mundo_inicial). reflexivity.
Defined.

(** * The polling loop when no write raises *)

(** What the n-th measurement returns. *)
Definition leitura (amb : Ambiente) (limite_eco : nat) (n : nat) : option float :=
  if MODO_SIMULACAO amb
  then Some (random_choice [50; 40; 5]%float (sorteio amb n))
  else leitura_do_eco amb limite_eco n.

(** What a measurement writes, in the order of time: the pulse on the
    trigger pin of the sensor on the board, nothing in simulation mode. *)
Definition medicao (amb : Ambiente) : list Evento :=
  if MODO_SIMULACAO amb then []
  else [EvOutput PIN_TRIG true; EvSleep 0.00001%float; EvOutput PIN_TRIG false].

(** One turn of the loop that detects nothing: the measurement and the 10 ms
    pause. *)
Definition sondagem (amb : Ambiente) : list Evento :=
  medicao amb ++ [EvSleep 0.01%float].

Definition conta_medicao (w : Mundo) : Mundo :=
  mkMundo (buzzer_pwm w) (tempo_inicio_estmulo w) (n_relogio w)
          (S (n_medicoes w)) (n_aleatorio w) (n_escritas w) (registro w).

Definition conta_relogio (w : Mundo) : Mundo :=
  mkMundo (buzzer_pwm w) (tempo_inicio_estmulo w) (S (n_relogio w))
          (n_medicoes w) (n_aleatorio w) (n_escritas w) (registro w).

Definition apos_medicao (amb : Ambiente) (w : Mundo) : Mundo :=
  avanca (if MODO_SIMULACAO amb then 0 else 2) (rev (medicao amb)) (conta_medicao w).

Lemma medir_distancia_sem_falhas amb le w :
  sem_falhas amb ->
  medir_distancia amb le w =
  (match leitura amb le (n_medicoes w) with
   | Some d => Retorno d
   | None => Esgotado
   end, apos_medicao amb w).
Proof.
  intros Hf. unfold medir_distancia, leitura, apos_medicao, medicao.
  unfold bind at 1. unfold nova_medicao. fold (conta_medicao w).
  destruct (MODO_SIMULACAO amb).
  - reflexivity.
  - unfold GPIO_output, time_sleep. passo Hf. passo Hf. passo Hf.
    destruct (leitura_do_eco amb le (n_medicoes w)); reflexivity.
Qed.

(** The first [N] turns of the loop start inside the window and none of them
    reads 10 cm or less: [c] and [m] number the next reading of the clock and
    the next measurement, [t0] is the onset of the stimulus. *)
Fixpoint sem_reacao (amb : Ambiente) (le : nat) (t0 : float) (c m N : nat) : bool :=
  match N with
  | O => true
  | S N' =>
      (relogio amb (NoTeste c) - t0 <? JANELA)%float &&
      match leitura amb le m with
      | Some d => negb (d <=? DISTANCIA_GATILHO)%float
      | None => false
      end &&
      sem_reacao amb le t0 (S c) (S m) N'
  end.

Fixpoint repete_lista {A} (n : nat) (l : list A) : list A :=
  match n with
  | O => []
  | S n' => l ++ repete_lista n' l
  end.

Lemma time_time_conta amb w :
  time_time amb w = (Retorno (relogio amb (NoTeste (n_relogio w))), conta_relogio w).
Proof. reflexivity. Qed.

Lemma laco_reacao_sem_reacao amb le :
  sem_falhas amb ->
  forall N l w,
    N < l ->
    sem_reacao amb le (tempo_inicio_estmulo w) (n_relogio w) (n_medicoes w) N = true ->
    (relogio amb (NoTeste (N + n_relogio w)) - tempo_inicio_estmulo w <? JANELA)%float = false ->
    exists w',
      laco_reacao amb le l w = (Retorno false, w') /\
      historico w' = historico w ++ repete_lista N (sondagem amb) /\
      buzzer_pwm w' = buzzer_pwm w.
Proof.
  intros Hf. induction N as [|N IH]; intros l w Hl Hs Hd.
  - destruct l as [|l]; [lia|]. simpl.
    rewrite (bind_retorno _ _ _ _ _ (time_time_conta _ _)).
    unfold bind, le_mundo. simpl in *. rewrite Hd.
    eexists. split; [reflexivity|]. simpl. split; [|reflexivity].
    unfold historico. simpl. now rewrite app_nil_r.
  - destruct l as [|l]; [lia|]. simpl in Hs.
    apply andb_prop in Hs. destruct Hs as [Hs H3].
    apply andb_prop in Hs. destruct Hs as [H1 H2].
    simpl laco_reacao.
    rewrite (bind_retorno _ _ _ _ _ (time_time_conta _ _)).
    unfold bind at 1. unfold le_mundo.
    change (tempo_inicio_estmulo (conta_relogio w)) with (tempo_inicio_estmulo w).
    rewrite H1.
    unfold bind at 1. rewrite (medir_distancia_sem_falhas _ _ _ Hf).
    change (n_medicoes (conta_relogio w)) with (n_medicoes w).
    destruct (leitura amb le (n_medicoes w)) as [d|]; [|discriminate].
    apply negb_true_iff in H2. rewrite H2.
    unfold time_sleep. rewrite (bind_retorno _ _ _ _ _ (emite_avanca _ _)).
    destruct (IH l (avanca 0 [EvSleep 0.01%float] (apos_medicao amb (conta_relogio w))))
      as [w' [E [Hh Hb]]].
    + lia.
    + exact H3.
    + change ((relogio amb (NoTeste (N + S (n_relogio w))) - tempo_inicio_estmulo w <? JANELA)%float = false).
      now replace (N + S (n_relogio w)) with (S N + n_relogio w) by lia.
    + exists w'. split; [exact E|]. split; [|exact Hb].
      rewrite Hh. unfold apos_medicao. rewrite avanca_avanca, historico_avanca.
      unfold sondagem. simpl repete_lista. rewrite rev_app_distr, rev_involutive.
      unfold historico. simpl. now rewrite <- !app_assoc.
Qed.

(** * The trial up to the stimulus *)

(** What [iniciar_teste] does before its loop, in the order of time: the
    edge detection removed, the yellow light for the delay that was drawn, and
    the green light. *)
Definition armar (amb : Ambiente) (w : Mundo) : list Evento :=
  [EvRemoveEventDetect PIN_BOTAO; EvPrint MsgTesteIniciado;
   EvOutput PIN_LED_AMARELO true;
   EvSleep (uniform 2 5 (aleatorio amb (n_aleatorio w)));
   EvOutput PIN_LED_AMARELO false; EvPrint MsgReajaAgora;
   EvOutput PIN_LED_VERDE true].

(** The world when the loop is entered: the onset of the stimulus is the
    reading of the clock that follows the green light. *)
Definition mundo_no_estimulo (amb : Ambiente) (w : Mundo) : Mundo :=
  mkMundo (buzzer_pwm w) (relogio amb (NoTeste (n_relogio w))) (S (n_relogio w))
          (n_medicoes w) (S (n_aleatorio w)) (3 + n_escritas w)
          (rev (armar amb w) ++ registro w).

(** What follows the loop (lines 155-159). *)
Definition depois_do_laco (amb : Ambiente) (reagiu : bool) : Prog unit :=
  (if negb reagiu then
     print MsgTempoEsgotado ;;
     mostrar_resultado amb TEMPO_ESGOTADO
   else ret tt) ;;
  GPIO_add_event_detect PIN_BOTAO.

Lemma iniciar_teste_ate_o_estimulo amb le l canal w :
  sem_falhas amb ->
  iniciar_teste amb le l canal w =
  bind (laco_reacao amb le l) (depois_do_laco amb) (mundo_no_estimulo amb w).
Proof.
  intros Hf.
  unfold iniciar_teste, corpo_do_teste, depois_do_laco, random_uniform,
    GPIO_remove_event_detect, print, time_sleep, GPIO_output.
  do 11 passo Hf. rewrite ?bind_assoc. reflexivity.
Qed.

Lemma retorno_mesmo_pwm amb w1 w2 t :
  buzzer_pwm w1 = buzzer_pwm w2 -> retorno amb w1 t = retorno amb w2 t.
Proof.
  intros H.
  unfold retorno, retorno_excelente, retorno_medio, retorno_lento, apagar, tom, pwm_ativo.
  now rewrite H.
Qed.

Lemma retorno_do_tempo_esgotado amb w :
  retorno amb w TEMPO_ESGOTADO = retorno_lento amb w TEMPO_ESGOTADO.
Proof. reflexivity. Qed.

(** * The window that closes *)

(** The simulation mode with the hand far away, and a clock that gains three
    seconds at each reading by [iniciar_teste]. *)
Definition ambiente_sem_mao : Ambiente :=
  mkAmbiente true
    (fun i => match i with
              | NoTeste 0 => 100%float
              | NoTeste 1 => 103%float
              | _ => 106%float
              end)
    (fun _ _ => false) (fun _ => 0%nat) (fun _ => 0.5%float) (fun _ => false).

(** The board after start-up, with a hand at 6.86 cm: the first turn of the
    loop starts 4.95 s after the onset of the stimulus, its measurement is
    made after the 5.0 s, and the clock is read again at 5.06 s. *)
Definition ambiente_mao_tardia : Ambiente :=
  mkAmbiente false
    (fun i => match i with
              | NoTeste 0 => 100%float
              | NoTeste 1 => 104.95%float
              | NoTeste _ => 105.06%float
              | NaMedicao _ 0 => 105.0100%float
              | NaMedicao _ 1 => 105.0101%float
              | NaMedicao _ 2 => 105.0102%float
              | NaMedicao _ 3 => 105.0103%float
              | NaMedicao _ 4 => 105.0104%float
              | NaMedicao _ _ => 105.0106%float
              end)
    (fun _ k => match k with 1 | 2 => true | _ => false end)
    (fun _ => 0%nat) (fun _ => 0.5%float) (fun _ => false).

(** C2, as the specification states it, fails: the deadline is tested
    before a measurement only (line 147).  Here no reading of 10 cm or less
    comes within 5.0 s of the onset of the stimulus: the only turn is let in
    at 4.95 s, and its measurement, made after the 5.0 s, reads 6.86 cm.  The
    loop does not leave at the test of the deadline: it ends with [reagiu]
    true, and the trial shows the reaction time 5.06 s with the feedback of
    the slow tier; there is no "TEMPO ESGOTADO" and no 9.99. *)
Lemma deteccao_depois_da_janela :
  (relogio ambiente_mao_tardia (NoTeste 1) - relogio ambiente_mao_tardia (NoTeste 0)
   <? JANELA)%float = true /\
  (relogio ambiente_mao_tardia (NaMedicao 0 0) - relogio ambiente_mao_tardia (NoTeste 0)
   <? JANELA)%float = false /\
  leitura ambiente_mao_tardia 5 0 = Some 6.86%float /\
  (6.86 <=? DISTANCIA_GATILHO)%float = true /\
  (JANELA <=? relogio ambiente_mao_tardia (NoTeste 2) -
              relogio ambiente_mao_tardia (NoTeste 0))%float = true /\
  fst (laco_reacao ambiente_mao_tardia 5 5
         (mundo_no_estimulo ambiente_mao_tardia
            (snd (principal ambiente_mao_tardia mundo_inicial)))) = Retorno true /\
  fst (iniciar_teste ambiente_mao_tardia 5 5 PIN_BOTAO
         (snd (principal ambiente_mao_tardia mundo_inicial))) = Retorno tt /\
  historico (snd (iniciar_teste ambiente_mao_tardia 5 5 PIN_BOTAO
                    (snd (principal ambiente_mao_tardia mundo_inicial)))) =
    historico (snd (principal ambiente_mao_tardia mundo_inicial)) ++
    armar ambiente_mao_tardia (snd (principal ambiente_mao_tardia mundo_inicial)) ++
    medicao ambiente_mao_tardia ++
    retorno_lento ambiente_mao_tardia (snd (principal ambiente_mao_tardia mundo_inicial))
      (relogio ambiente_mao_tardia (NoTeste 2) - relogio ambiente_mao_tardia (NoTeste 0)) ++
    [EvAddEventDetect PIN_BOTAO].
Proof. vm_compute. repeat split. Qed.

(** C2, amended. A trial (no write raising) in which the first [N] turns of the loop
    start less than 5.0 s after the onset of the stimulus, none of them reads
    10 cm or less, and the clock then shows 5.0 s or more: [iniciar_teste]
    returns; its loop ends at the test of the deadline with [reagiu] false,
    after exactly these [N] turns; what follows is "TEMPO ESGOTADO", the
    feedback of the slow tier for the fixed value 9.99, which is above both
    bounds, and the registration of the edge detection. *)
Theorem janela_esgotada (amb : Ambiente) (le l : nat) (canal : Z) (w : Mundo) (N : nat) :
  sem_falhas amb ->
  N < l ->
  sem_reacao amb le (relogio amb (NoTeste (n_relogio w)))
             (S (n_relogio w)) (n_medicoes w) N = true ->
  (relogio amb (NoTeste (S N + n_relogio w)) - relogio amb (NoTeste (n_relogio w))
   <? JANELA)%float = false ->
  exists w',
    iniciar_teste amb le l canal w = (Retorno tt, w') /\
    fst (laco_reacao amb le l (mundo_no_estimulo amb w)) = Retorno false /\
    historico w' =
      historico w ++ armar amb w ++ repete_lista N (sondagem amb) ++
      [EvPrint MsgTempoEsgotado] ++ retorno_lento amb w TEMPO_ESGOTADO ++
      [EvAddEventDetect PIN_BOTAO] /\
    (LIMITE_EXCELENTE <? TEMPO_ESGOTADO)%float = true /\
    (LIMITE_MEDIO <? TEMPO_ESGOTADO)%float = true.
Proof.
  intros Hf Hl Hs Hd.
  rewrite (iniciar_teste_ate_o_estimulo _ _ _ _ _ Hf).
  destruct (laco_reacao_sem_reacao amb le Hf N l (mundo_no_estimulo amb w) Hl Hs)
    as [w1 [E1 [H1 B1]]].
  { simpl. now replace (N + S (n_relogio w)) with (S N + n_relogio w) by lia. }
  rewrite (bind_retorno _ _ _ _ _ E1). rewrite E1.
  unfold depois_do_laco, print, GPIO_add_event_detect. simpl negb. cbv iota.
  passo Hf.
  destruct (mostrar_resultado_sem_falhas amb (avanca 0 [EvPrint MsgTempoEsgotado] w1)
              TEMPO_ESGOTADO Hf) as [k Hk].
  rewrite (bind_retorno _ _ _ _ _ Hk).
  rewrite emite_avanca, !avanca_avanca.
  eexists. split; [reflexivity|]. split; [reflexivity|]. split; [|split; reflexivity].
  rewrite historico_avanca, H1.
  rewrite retorno_do_tempo_esgotado.
  assert (R : retorno_lento amb (avanca 0 [EvPrint MsgTempoEsgotado] w1) TEMPO_ESGOTADO =
              retorno_lento amb w TEMPO_ESGOTADO).
  { unfold retorno_lento, apagar, tom, pwm_ativo. simpl buzzer_pwm. rewrite B1. reflexivity. }
  rewrite R. unfold historico at 1. simpl registro.
  rewrite !rev_app_distr, !rev_involutive. simpl. now rewrite <- !app_assoc.
Qed.

Lemma janela_esgotada_witness :
  sem_falhas ambiente_sem_mao /\
  exists w',
    iniciar_teste ambiente_sem_mao 0 2 PIN_BOTAO mundo_inicial = (Retorno tt, w') /\
    fst (laco_reacao ambiente_sem_mao 0 2 (mundo_no_estimulo ambiente_sem_mao mundo_inicial)) =
      Retorno false /\
    historico w' =
      historico mundo_inicial ++ armar ambiente_sem_mao mundo_inicial ++
      repete_lista 1 (sondagem ambiente_sem_mao) ++
      [EvPrint MsgTempoEsgotado] ++
      retorno_lento ambiente_sem_mao mundo_inicial TEMPO_ESGOTADO ++
      [EvAddEventDetect PIN_BOTAO] /\
    (LIMITE_EXCELENTE <? TEMPO_ESGOTADO)%float = true /\
    (LIMITE_MEDIO <? TEMPO_ESGOTADO)%float = true.
Proof.
  split.
  - intros k. reflexivity.
  - apply (janela_esgotada ambiente_sem_mao 0 2 PIN_BOTAO mundo_inicial 1).
    + intros k. reflexivity.
    + lia.
    + vm_compute. reflexivity.
    + vm_compute. reflexivity.
Defined.

(** * A measurement that gets no echo *)








(** * The shape of a trial when no write raises *)

(** Whatever the readings, the loop makes some turns that detect nothing and
    then: leaves at the deadline; or detects the hand and gives the feedback;
    or is cut by the bound of the model. *)
Lemma laco_reacao_forma amb le :
  sem_falhas amb ->
  forall l w r w',
    laco_reacao amb le l w = (r, w') ->
    exists N fim,
      historico w' = historico w ++ repete_lista N (sondagem amb) ++ fim /\
      buzzer_pwm w' = buzzer_pwm w /\
      match r with
      | Retorno false => fim = []
      | Retorno true => exists t, fim = medicao amb ++ retorno amb w t
      | Esgotado => fim = [] \/ fim = medicao amb
      | Excecao => False
      end.
Proof.
  intros Hf. induction l as [|l IH]; intros w r w' H.
  - simpl in H. injection H as <- <-. exists 0, []. simpl. rewrite app_nil_r. auto.
  - simpl laco_reacao in H.
    rewrite (bind_retorno _ _ _ _ _ (time_time_conta _ _)), bind_le_mundo in H.
    destruct (relogio amb (NoTeste (n_relogio w)) -
              tempo_inicio_estmulo (conta_relogio w) <? JANELA)%float.
    2:{ injection H as <- <-. exists 0, []. simpl. rewrite app_nil_r. auto. }
    unfold bind at 1 in H. rewrite (medir_distancia_sem_falhas _ _ _ Hf) in H.
    assert (Hm : historico (apos_medicao amb (conta_relogio w)) =
                 historico w ++ medicao amb).
    { unfold apos_medicao. rewrite historico_avanca, rev_involutive. reflexivity. }
    destruct (leitura amb le (n_medicoes (conta_relogio w))) as [d|].
    2:{ injection H as <- <-. exists 0, (medicao amb). simpl. auto. }
    destruct (d <=? DISTANCIA_GATILHO)%float.
    + rewrite (bind_retorno _ _ _ _ _ (time_time_conta _ _)), bind_le_mundo in H.
      match type of H with bind (mostrar_resultado amb ?t) _ ?w1 = _ =>
        destruct (mostrar_resultado_sem_falhas amb w1 t Hf) as [k Hk];
        rewrite (bind_retorno _ _ _ _ _ Hk) in H;
        exists 0, (medicao amb ++ retorno amb w t);
        rewrite (retorno_mesmo_pwm amb w1 w t eq_refl) in H
      end.
      unfold ret in H. injection H as <- <-. split; [|split; [reflexivity|eauto]].
      rewrite historico_avanca, rev_involutive.
      change (historico (conta_relogio (apos_medicao amb (conta_relogio w))))
        with (historico (apos_medicao amb (conta_relogio w))).
      rewrite Hm. simpl. now rewrite <- app_assoc.
    + unfold time_sleep in H. rewrite (bind_retorno _ _ _ _ _ (emite_avanca _ _)) in H.
      destruct (IH _ _ _ H) as [N [fim [Hh [Hb Hr]]]].
      exists (S N), fim. split; [|split].
      * rewrite Hh, historico_avanca, Hm. unfold sondagem. simpl.
        now rewrite <- !app_assoc.
      * exact Hb.
      * destruct r as [[|]| | ]; exact Hr.
Qed.

Lemma historico_mundo_no_estimulo amb w :
  historico (mundo_no_estimulo amb w) = historico w ++ armar amb w.
Proof.
  unfold historico, mundo_no_estimulo. cbn [registro].
  now rewrite rev_app_distr, rev_involutive.
Qed.

(** The log of a call of [iniciar_teste]: the arming, turns of the loop that
    detect nothing, and then the feedback of a detection or of the closed
    window and the registration of the edge detection, or nothing more when
    the bound of the model cut the call. *)
Lemma iniciar_teste_forma_sem_falhas amb le l canal w r w' :
  sem_falhas amb ->
  iniciar_teste amb le l canal w = (r, w') ->
  exists N fim,
    historico w' = historico w ++ armar amb w ++ repete_lista N (sondagem amb) ++ fim /\
    buzzer_pwm w' = buzzer_pwm w /\
    match r with
    | Retorno _ =>
        (exists t, fim = medicao amb ++ retorno amb w t ++ [EvAddEventDetect PIN_BOTAO]) \/
        fim = [EvPrint MsgTempoEsgotado] ++ retorno amb w TEMPO_ESGOTADO ++
              [EvAddEventDetect PIN_BOTAO]
    | Esgotado => fim = [] \/ fim = medicao amb
    | Excecao => False
    end.
Proof.
  intros Hf H. rewrite (iniciar_teste_ate_o_estimulo _ _ _ _ _ Hf) in H.
  unfold bind at 1 in H.
  destruct (laco_reacao amb le l (mundo_no_estimulo amb w)) as [rl w1] eqn:El.
  destruct (laco_reacao_forma amb le Hf _ _ _ _ El) as [N [fim [Hh [Hb Hr]]]].
  rewrite historico_mundo_no_estimulo, <- app_assoc in Hh.
  change (buzzer_pwm (mundo_no_estimulo amb w)) with (buzzer_pwm w) in Hb.
  destruct rl as [[|]| | ].
  - destruct Hr as [t Ht]. unfold depois_do_laco, GPIO_add_event_detect in H.
    simpl negb in H. cbv iota in H.
    rewrite (bind_retorno _ _ _ _ _ (eq_refl : ret tt w1 = (Retorno tt, w1))) in H.
    rewrite emite_avanca in H. injection H as <- <-.
    exists N, (fim ++ [EvAddEventDetect PIN_BOTAO]). split; [|split; [exact Hb|]].
    + rewrite historico_avanca, Hh.
      change (rev [EvAddEventDetect PIN_BOTAO]) with [EvAddEventDetect PIN_BOTAO].
      now rewrite <- !app_assoc.
    + left. exists t. rewrite Ht. 
      rewrite (retorno_mesmo_pwm amb (mundo_no_estimulo amb w) w t eq_refl).
      now rewrite <- app_assoc.
  - subst fim. unfold depois_do_laco, print, GPIO_add_event_detect in H.
    simpl negb in H. cbv iota in H.
    rewrite bind_assoc in H.
    rewrite (bind_retorno _ _ _ _ _ (emite_avanca _ _)) in H.
    destruct (mostrar_resultado_sem_falhas amb (avanca 0 [EvPrint MsgTempoEsgotado] w1)
                TEMPO_ESGOTADO Hf) as [k Hk].
    rewrite (retorno_mesmo_pwm amb (avanca 0 [EvPrint MsgTempoEsgotado] w1) w
               TEMPO_ESGOTADO Hb) in Hk.
    rewrite (bind_retorno _ _ _ _ _ Hk) in H.
    rewrite emite_avanca, !avanca_avanca in H.
    apply pair_equal_spec in H. destruct H as [<- <-].
    exists N, ([EvPrint MsgTempoEsgotado] ++ retorno amb w TEMPO_ESGOTADO ++
               [EvAddEventDetect PIN_BOTAO]).
    split; [|split; [exact Hb|now right]].
    rewrite historico_avanca, Hh, app_nil_r.
    rewrite !rev_app_distr, !rev_involutive.
    change (rev [EvAddEventDetect PIN_BOTAO]) with [EvAddEventDetect PIN_BOTAO].
    change (rev [EvPrint MsgTempoEsgotado]) with [EvPrint MsgTempoEsgotado].
    now rewrite <- !app_assoc.
  - contradiction.
  - injection H as <- <-. exists N, fim. split; [exact Hh|split; [exact Hb|exact Hr]].
Qed.

(** * The three lights *)

(** The yellow, the green and the red light. *)
Definition Luzes : Type := (bool * bool * bool)%type.

Definition luzes (p : Painel) : Luzes :=
  (led_amarelo p, led_verde p, led_vermelho p).

Definition ate_uma (s : Luzes) : bool :=
  match s with
  | (true, true, _) | (true, _, true) | (_, true, true) => false
  | _ => true
  end.

(** At most one of the three lights of the panel is on. *)
Definition ate_uma_luz (p : Painel) : Prop := ate_uma (luzes p) = true.

Definition passo_luz (e : Evento) (s : Luzes) : Luzes :=
  match e with
  | EvOutput pino nivel =>
      let '(a, v, r) := s in
      if (pino =? PIN_LED_AMARELO)%Z then (nivel, v, r)
      else if (pino =? PIN_LED_VERDE)%Z then (a, nivel, r)
      else if (pino =? PIN_LED_VERMELHO)%Z then (a, v, nivel)
      else s
  | _ => s
  end.

Lemma luzes_aplica e p : luzes (aplica e p) = passo_luz e (luzes p).
Proof.
  destruct e; try reflexivity; unfold luzes; simpl.
  - unfold aplica_output.
    repeat match goal with |- context [if ?c then _ else _] => destruct c end;
      reflexivity.
  - destruct (pino =? PIN_BOTAO)%Z; reflexivity.
  - destruct (pino =? PIN_BOTAO)%Z; reflexivity.
Qed.

(** After each call of [es], made in this order from the lights [s], at most
    one light is on. *)
Fixpoint confere (s : Luzes) (es : list Evento) : bool :=
  match es with
  | [] => true
  | e :: es' => ate_uma (passo_luz e s) && confere (passo_luz e s) es'
  end.

Definition luzes_apos (s : Luzes) (es : list Evento) : Luzes :=
  fold_left (fun s e => passo_luz e s) es s.

Lemma luzes_apos_app s a b : luzes_apos s (a ++ b) = luzes_apos (luzes_apos s a) b.
Proof. apply fold_left_app. Qed.

Lemma confere_app s a b :
  confere s (a ++ b) = confere s a && confere (luzes_apos s a) b.
Proof.
  revert s. induction a as [|e a IH]; intros s; simpl; [reflexivity|].
  now rewrite IH, andb_assoc.
Qed.

Lemma luzes_painel_de es base :
  luzes (painel_de (rev es ++ base)) = luzes_apos (luzes (painel_de base)) es.
Proof.
  revert base. induction es as [|e es IH]; intros base; simpl; [reflexivity|].
  rewrite <- app_assoc. simpl. rewrite IH. simpl. now rewrite luzes_aplica.
Qed.

Lemma confere_prefixos es :
  forall s, ate_uma s = true -> confere s es = true ->
  forall antes depois, es = antes ++ depois -> ate_uma (luzes_apos s antes) = true.
Proof.
  intros s Hs Hc antes. revert s es Hs Hc.
  induction antes as [|e antes IH]; intros s es Hs Hc depois E; simpl; [exact Hs|].
  subst es. simpl in Hc. apply andb_prop in Hc. destruct Hc as [H1 H2].
  now apply (IH _ _ H1 H2 depois).
Qed.

(** The turns of the loop that detect nothing leave the lights as they are. *)
Lemma luzes_apos_medicao amb s : luzes_apos s (medicao amb) = s.
Proof. unfold medicao. destruct (MODO_SIMULACAO amb), s as [[a v] r]; reflexivity. Qed.

Lemma confere_medicao amb s : ate_uma s = true -> confere s (medicao amb) = true.
Proof.
  unfold medicao. destruct (MODO_SIMULACAO amb), s as [[a v] r]; simpl; intros H;
    rewrite ?H; reflexivity.
Qed.

Lemma luzes_apos_sondagem amb s : luzes_apos s (sondagem amb) = s.
Proof. unfold sondagem. now rewrite luzes_apos_app, luzes_apos_medicao. Qed.

Lemma confere_sondagem amb s : ate_uma s = true -> confere s (sondagem amb) = true.
Proof.
  intros Hs. unfold sondagem.
  rewrite confere_app, luzes_apos_medicao, (confere_medicao amb s Hs). simpl.
  now rewrite Hs.
Qed.

Lemma luzes_apos_sondagens amb N s :
  luzes_apos s (repete_lista N (sondagem amb)) = s.
Proof.
  induction N as [|N IH]; simpl; [reflexivity|].
  now rewrite luzes_apos_app, luzes_apos_sondagem.
Qed.

Lemma confere_sondagens amb N s :
  ate_uma s = true -> confere s (repete_lista N (sondagem amb)) = true.
Proof.
  intros Hs. induction N as [|N IH]; simpl; [reflexivity|].
  now rewrite confere_app, luzes_apos_sondagem, (confere_sondagem amb s Hs), IH.
Qed.

(** The feedback, entered with the green light alone or with no light, keeps
    at most one light on and ends with none. *)
Lemma confere_retorno amb w t v :
  confere (false, v, false) (retorno amb w t) = true /\
  luzes_apos (false, v, false) (retorno amb w t) = (false, false, false).
Proof.
  unfold retorno, retorno_excelente, retorno_medio, retorno_lento, apagar, tom, pisca.
  destruct (t <=? LIMITE_EXCELENTE)%float; [|destruct (t <=? LIMITE_MEDIO)%float];
    destruct (pwm_ativo amb w), v; split; reflexivity.
Qed.

Lemma luzes_apos_retorno amb w t s :
  luzes_apos s (retorno amb w t) = (false, false, false).
Proof.
  unfold retorno, retorno_excelente, retorno_medio, retorno_lento, apagar, tom, pisca.
  destruct s as [[a v] r].
  destruct (t <=? LIMITE_EXCELENTE)%float; [|destruct (t <=? LIMITE_MEDIO)%float];
    destruct (pwm_ativo amb w); reflexivity.
Qed.

Lemma confere_armar amb w :
  confere (false, false, false) (armar amb w) = true /\
  luzes_apos (false, false, false) (armar amb w) = (false, true, false).
Proof. split; reflexivity. Qed.

Lemma confere_fim amb w t :
  confere (false, true, false) [] = true /\
  confere (false, true, false) (medicao amb) = true /\
  confere (false, true, false)
    (medicao amb ++ retorno amb w t ++ [EvAddEventDetect PIN_BOTAO]) = true /\
  confere (false, true, false)
    ([EvPrint MsgTempoEsgotado] ++ retorno amb w TEMPO_ESGOTADO ++
     [EvAddEventDetect PIN_BOTAO]) = true.
Proof.
  split; [reflexivity|]. split; [now apply confere_medicao|]. split.
  - rewrite !confere_app, luzes_apos_medicao.
    rewrite (confere_medicao amb (false, true, false) eq_refl).
    destruct (confere_retorno amb w t true) as [-> ->]. reflexivity.
  - rewrite !confere_app.
    change (luzes_apos (false, true, false) [EvPrint MsgTempoEsgotado])
      with (false, true, false).
    destruct (confere_retorno amb w TEMPO_ESGOTADO true) as [-> ->]. reflexivity.
Qed.

(** The calls of a trial, made from a dark panel, keep at most one light on,
    and leave the panel dark when the trial returns. *)
Lemma confere_teste amb le l canal w r w' :
  sem_falhas amb ->
  iniciar_teste amb le l canal w = (r, w') ->
  exists es,
    historico w' = historico w ++ es /\
    confere (false, false, false) es = true /\
    (r = Retorno tt -> luzes_apos (false, false, false) es = (false, false, false)) /\
    r <> Excecao.
Proof.
  intros Hf E.
  destruct (iniciar_teste_forma_sem_falhas _ _ _ _ _ _ _ Hf E) as [N [fim [Hh [_ Hr]]]].
  exists (armar amb w ++ repete_lista N (sondagem amb) ++ fim).
  split; [exact Hh|].
  rewrite !confere_app, !luzes_apos_app, luzes_apos_sondagens.
  destruct (confere_armar amb w) as [-> ->].
  rewrite (confere_sondagens amb N (false, true, false) eq_refl). simpl andb.
  destruct r as [[]| | ].
  - split; [|split; [intros _|discriminate]].
    + destruct Hr as [[t ->]| ->]; apply confere_fim; exact 0%float.
    + destruct Hr as [[t ->]| ->]; rewrite !luzes_apos_app, luzes_apos_retorno;
        reflexivity.
  - contradiction.
  - split; [|split; [discriminate|discriminate]].
    destruct Hr as [-> | ->]; [reflexivity|]. now apply confere_medicao.
Qed.

(** The board with a clock that shows six seconds more at its second
    reading (the window of a trial closes at once), and the [k0]-th write to
    an output raising. *)
Definition ambiente_janela_falha (k0 : nat) : Ambiente :=
  mkAmbiente false
    (fun i => match i with
              | NoTeste 0 => 100%float
              | _ => 106%float
              end)
    (fun _ _ => false) (fun _ => 0%nat) (fun _ => 0.5%float) (fun k => Nat.eqb k k0).

(** C6, as the specification states it, fails.  On the board, after
    start-up, the three lights are off and the button is pressed; the window
    closes, and the first write of the [limpar_saidas] that opens
    [mostrar_resultado] (the fifth write of the run) raises: lines 47-48
    swallow the exception and the rest of the clearing is skipped, so the
    green light is still on when the red light of the slow tier goes on (the
    23rd call of the run).  The trial returns and the panel listens again. *)
Lemma luzes_simultaneas :
  luzes (painel (snd (principal (ambiente_janela_falha 4) mundo_inicial))) =
    (false, false, false) /\
  fst (iniciar_teste (ambiente_janela_falha 4) 0 1 PIN_BOTAO
         (snd (principal (ambiente_janela_falha 4) mundo_inicial))) = Retorno tt /\
  ouvindo (painel (snd (iniciar_teste (ambiente_janela_falha 4) 0 1 PIN_BOTAO
         (snd (principal (ambiente_janela_falha 4) mundo_inicial))))) = true /\
  nth 22 (historico (snd (iniciar_teste (ambiente_janela_falha 4) 0 1 PIN_BOTAO
         (snd (principal (ambiente_janela_falha 4) mundo_inicial)))))
      (EvPrint MsgAguardando) = EvOutput PIN_LED_VERMELHO true /\
  luzes (painel_de (rev (firstn 23
    (historico (snd (iniciar_teste (ambiente_janela_falha 4) 0 1 PIN_BOTAO
         (snd (principal (ambiente_janela_falha 4) mundo_inicial)))))))) =
    (false, true, true) /\
  ate_uma (false, true, true) = false.
Proof. vm_compute. repeat split. Qed.

(** C6, amended. A trial that starts with the three lights off (no write raising):
    after each call made by [iniciar_teste], however far it gets, at most
    one of the three lights is on, and the yellow light (armed) and the green
    light (go) are never on together.  And [mostrar_resultado] begins by
    clearing the outputs: whatever the lights were, they are all off before
    the feedback of the tier is shown. *)
Theorem luzes_exclusivas (amb : Ambiente) (le l : nat) (canal : Z) (w : Mundo) :
  sem_falhas amb ->
  luzes (painel w) = (false, false, false) ->
  (exists es,
     historico (snd (iniciar_teste amb le l canal w)) = historico w ++ es /\
     forall antes depois,
       es = antes ++ depois ->
       ate_uma_luz (painel_de (rev antes ++ registro w)) /\
       led_amarelo (painel_de (rev antes ++ registro w)) &&
       led_verde (painel_de (rev antes ++ registro w)) = false) /\
  (forall t w0, exists resto,
     historico (snd (mostrar_resultado amb t w0)) =
       historico w0 ++ apagar amb w0 ++ resto /\
     luzes (painel_de (rev (apagar amb w0) ++ registro w0)) = (false, false, false)).
Proof.
  intros Hf Hw. split.
  - destruct (iniciar_teste amb le l canal w) as [r w'] eqn:E.
    destruct (confere_teste _ _ _ _ _ _ _ Hf E) as [es [Hh [C _]]].
    exists es. split; [exact Hh|].
    intros antes depois Ea.
    pose proof (confere_prefixos _ (false, false, false) eq_refl C antes depois Ea) as P.
    unfold painel in Hw. rewrite <- Hw, <- luzes_painel_de in P.
    split; [exact P|].
    unfold luzes in P.
    destruct (led_amarelo _), (led_verde _), (led_vermelho _); simpl in *; congruence.
  - intros t w0.
    destruct (mostrar_resultado_sem_falhas amb w0 t Hf) as [k Hk]. rewrite Hk.
    unfold snd. rewrite historico_avanca, rev_involutive.
    assert (R : exists resto, retorno amb w0 t = apagar amb w0 ++ resto).
    { unfold retorno, retorno_excelente, retorno_medio, retorno_lento.
      destruct (t <=? LIMITE_EXCELENTE)%float; [|destruct (t <=? LIMITE_MEDIO)%float];
        eexists; reflexivity. }
    destruct R as [resto ->]. exists resto. split; [reflexivity|].
    rewrite luzes_painel_de. unfold apagar.
    destruct (luzes (painel_de (registro w0))) as [[a v] r].
    destruct (pwm_ativo amb w0); reflexivity.
Qed.

Lemma luzes_exclusivas_witness :
  sem_falhas ambiente_reacao /\
  luzes (painel mundo_inicial) = (false, false, false) /\
  (exists es,
     historico (snd (iniciar_teste ambiente_reacao 0 1 PIN_BOTAO mundo_inicial)) =
       historico mundo_inicial ++ es /\
     forall antes depois,
       es = antes ++ depois ->
       ate_uma_luz (painel_de (rev antes ++ registro mundo_inicial)) /\
       led_amarelo (painel_de (rev antes ++ registro mundo_inicial)) &&
       led_verde (painel_de (rev antes ++ registro mundo_inicial)) = false) /\
  (forall t w0, exists resto,
     historico (snd (mostrar_resultado ambiente_reacao t w0)) =
       historico w0 ++ apagar ambiente_reacao w0 ++ resto /\
     luzes (painel_de (rev (apagar ambiente_reacao w0) ++ registro w0)) =
       (false, false, false)).
Proof.
  split; [intros k; reflexivity|]. split; [reflexivity|].
  apply (luzes_exclusivas ambiente_reacao 0 1 PIN_BOTAO mundo_inicial).
  - intros k. reflexivity.
  - reflexivity.
Defined.

(** ** The lights over a whole session *)


(** What start-up does, in the order of time. *)
Definition partida (amb : Ambiente) : list Evento :=
  [EvSetup PIN_BOTAO false; EvSetup PIN_ECHO false; EvSetup PIN_TRIG true;
   EvSetup PIN_LED_AMARELO true; EvSetup PIN_LED_VERDE true;
   EvSetup PIN_LED_VERMELHO true; EvSetup PIN_BUZZER true;
   EvOutput PIN_TRIG false] ++
  (if MODO_SIMULACAO amb then [] else [EvPwmStart 1000 0]) ++
  [EvPrint MsgGpioConfigurado; EvAddEventDetect PIN_BOTAO; EvPrint MsgAguardando].

Lemma principal_sem_falhas amb :
  sem_falhas amb ->
  exists w0,
    principal amb mundo_inicial = (Retorno tt, w0) /\
    historico w0 = partida amb /\
    buzzer_pwm w0 = negb (MODO_SIMULACAO amb) /\
    ouvindo (painel w0) = true.
Proof.
  intros Hf. unfold principal, configuracao_gpio, print, GPIO_add_event_detect,
    GPIO_output, partida.
  do 8 passo Hf. rewrite !bind_assoc.
  destruct (MODO_SIMULACAO amb); simpl negb; cbv iota.
  - do 3 passo Hf. rewrite emite_avanca, avanca_avanca.
    eexists. split; [reflexivity|]. repeat split.
  - rewrite !bind_assoc. passo Hf.
    unfold bind at 1. unfold grava_buzzer_pwm.
    do 2 passo Hf. rewrite emite_avanca.
    eexists. split; [reflexivity|]. repeat split.
Qed.



(** * The outputs after the feedback *)

(** The tone generator is silent: the PWM at duty 0 where the PWM drives the
    buzzer, the pin of the buzzer low where it does not. *)
Definition silencioso (amb : Ambiente) (w : Mundo) : Prop :=
  if pwm_ativo amb w then pwm_duty (painel w) = 0%Z
  else pino_buzzer (painel w) = false.

(** The three lights are off and the tone generator is silent. *)
Definition apagado (amb : Ambiente) (w : Mundo) : Prop :=
  luzes (painel w) = (false, false, false) /\ silencioso amb w.

(** The calls that change no output. *)
Definition inerte (e : Evento) : Prop :=
  match e with
  | EvPrint _ | EvSleep _ | EvAddEventDetect _ | EvRemoveEventDetect _ => True
  | _ => False
  end.

Lemma inerte_aplica e p :
  inerte e ->
  luzes (aplica e p) = luzes p /\ pwm_duty (aplica e p) = pwm_duty p /\
  pino_buzzer (aplica e p) = pino_buzzer p.
Proof.
  destruct e; simpl; try contradiction; intros _; auto;
    destruct (pino =? PIN_BOTAO)%Z; auto.
Qed.

Lemma apagado_apos amb w w' pre pos :
  historico w' = pre ++ apagar amb w ++ pos ->
  Forall inerte pos ->
  buzzer_pwm w' = buzzer_pwm w ->
  apagado amb w'.
Proof.
  intros Hh Hp Hb. unfold apagado, silencioso, painel.
  assert (R : registro w' = rev pos ++ rev (apagar amb w) ++ rev pre).
  { rewrite <- (rev_involutive (registro w')). fold (historico w'). rewrite Hh.
    now rewrite !rev_app_distr, app_assoc. }
  rewrite R.
  assert (P : pwm_ativo amb w' = pwm_ativo amb w) by (unfold pwm_ativo; now rewrite Hb).
  rewrite P. clear R Hh P.
  apply Forall_rev in Hp. revert Hp. generalize (rev pos). clear pos.
  set (base := rev (apagar amb w) ++ rev pre).
  assert (B : luzes (painel_de base) = (false, false, false) /\
              if pwm_ativo amb w then pwm_duty (painel_de base) = 0%Z
              else pino_buzzer (painel_de base) = false).
  { unfold base, apagar. destruct (pwm_ativo amb w); split; reflexivity. }
  intros q Hq. induction Hq as [|e q He _ IH]; [exact B|].
  simpl. destruct (inerte_aplica e (painel_de (q ++ base)) He) as [-> [-> ->]].
  exact IH.
Qed.

Lemma retorno_termina amb w t :
  exists ini, retorno amb w t = ini ++ apagar amb w ++ [EvPrint MsgPressione].
Proof.
  unfold retorno, retorno_excelente, retorno_medio, retorno_lento.
  destruct (t <=? LIMITE_EXCELENTE)%float; [|destruct (t <=? LIMITE_MEDIO)%float].
  - exists (apagar amb w ++
            [EvPrint (MsgTempoReacao t); EvPrint MsgExcelente;
             EvOutput PIN_LED_VERDE true] ++
            tom amb w 1500 0.2%float ++ [EvSleep 2%float]).
    now rewrite <- !app_assoc.
  - exists (apagar amb w ++ [EvPrint (MsgTempoReacao t); EvPrint MsgMedio] ++
            pisca ++ pisca ++ pisca ++ [EvSleep 2%float]).
    now rewrite <- !app_assoc.
  - exists (apagar amb w ++
            [EvPrint (MsgTempoReacao t); EvPrint MsgLento;
             EvOutput PIN_LED_VERMELHO true] ++
            tom amb w 440 1.0%float ++ [EvSleep 2%float]).
    now rewrite <- !app_assoc.
Qed.

(** C9, as the specification states it, fails.  On the board, after
    start-up, the button is pressed and the window closes; the first write of
    the [limpar_saidas] that ends [mostrar_resultado] (the thirteenth write of
    the run) raises: lines 47-48 swallow the exception and the rest of the
    clearing is skipped.  The trial returns and the panel listens again, with
    the red light on. *)
Lemma luz_acesa_no_fim :
  fst (iniciar_teste (ambiente_janela_falha 12) 0 1 PIN_BOTAO
         (snd (principal (ambiente_janela_falha 12) mundo_inicial))) = Retorno tt /\
  ouvindo (painel (snd (iniciar_teste (ambiente_janela_falha 12) 0 1 PIN_BOTAO
         (snd (principal (ambiente_janela_falha 12) mundo_inicial))))) = true /\
  luzes (painel (snd (iniciar_teste (ambiente_janela_falha 12) 0 1 PIN_BOTAO
         (snd (principal (ambiente_janela_falha 12) mundo_inicial))))) =
    (false, false, true).
Proof. vm_compute. repeat split. Qed.

(** C9, amended. When no write raises: [mostrar_resultado] returns for every reaction
    time, whatever the tier, with the three lights off and the tone generator
    silent; and so is the panel when a call of [iniciar_teste] returns, after
    a detection or after the window closed. *)
Theorem saidas_apagadas (amb : Ambiente) :
  sem_falhas amb ->
  (forall w t, exists w',
      mostrar_resultado amb t w = (Retorno tt, w') /\ apagado amb w') /\
  (forall le l canal w w',
      iniciar_teste amb le l canal w = (Retorno tt, w') -> apagado amb w').
Proof.
  intros Hf. split.
  - intros w t. destruct (mostrar_resultado_sem_falhas amb w t Hf) as [k Hk].
    eexists. split; [exact Hk|].
    destruct (retorno_termina amb w t) as [ini Hi].
    apply (apagado_apos amb w _ (historico w ++ ini) [EvPrint MsgPressione]).
    + rewrite historico_avanca, rev_involutive, Hi. now rewrite <- app_assoc.
    + repeat constructor.
    + reflexivity.
  - intros le l canal w w' H.
    destruct (iniciar_teste_forma_sem_falhas _ _ _ _ _ _ _ Hf H) as [N [fim [Hh [Hb Hr]]]].
    destruct Hr as [[t ->]| ->].
    + destruct (retorno_termina amb w t) as [ini Hi].
      apply (apagado_apos amb w _
               (historico w ++ armar amb w ++ repete_lista N (sondagem amb) ++
                medicao amb ++ ini)
               [EvPrint MsgPressione; EvAddEventDetect PIN_BOTAO]).
      * rewrite Hh, Hi. rewrite <- !app_assoc. reflexivity.
      * repeat constructor.
      * exact Hb.
    + destruct (retorno_termina amb w TEMPO_ESGOTADO) as [ini Hi].
      apply (apagado_apos amb w _
               (historico w ++ armar amb w ++ repete_lista N (sondagem amb) ++
                [EvPrint MsgTempoEsgotado] ++ ini)
               [EvPrint MsgPressione; EvAddEventDetect PIN_BOTAO]).
      * rewrite Hh, Hi. rewrite <- !app_assoc. reflexivity.
      * repeat constructor.
      * exact Hb.
Qed.

Lemma saidas_apagadas_witness :
  sem_falhas ambiente_sem_mao /\
  (forall w t, exists w',
      mostrar_resultado ambiente_sem_mao t w = (Retorno tt, w') /\
      apagado ambiente_sem_mao w') /\
  (forall le l canal w w',
      iniciar_teste ambiente_sem_mao le l canal w = (Retorno tt, w') ->
      apagado ambiente_sem_mao w').
Proof.
  split; [intros k; reflexivity|].
  apply (saidas_apagadas ambiente_sem_mao). intros k. reflexivity.
Defined.

(** * The delay before the stimulus *)

(** The simulation mode with the generator returning the largest value of
    [random.random()], which is [1 - 2^-53]. *)
Definition ambiente_maior_sorteio : Ambiente :=
  mkAmbiente true (fun _ => 0%float) (fun _ _ => false) (fun _ => 2%nat)
             (fun _ => 0x1.fffffffffffffp-1%float) (fun _ => false).

(** C5, as the specification states it, fails: [random.random()] is below 1
    and [random.uniform(2, 5)], which is [2 + (5 - 2) * random.random()]
    rounded twice, is exactly 5.0, not less; this is the delay the trial
    sleeps (its fourth call). *)
Lemma atraso_de_cinco_segundos :
  (0 <=? aleatorio ambiente_maior_sorteio 0)%float = true /\
  (aleatorio ambiente_maior_sorteio 0 <? 1)%float = true /\
  uniform 2 5 (aleatorio ambiente_maior_sorteio 0) = 5%float /\
  (uniform 2 5 (aleatorio ambiente_maior_sorteio 0) <? 5)%float = false /\
  nth 3 (historico (snd (iniciar_teste ambiente_maior_sorteio 0 1 PIN_BOTAO mundo_inicial)))
      (EvPrint MsgAguardando) = EvSleep 5%float.
Proof. vm_compute. repeat split. Qed.

(** C5, amended. In every trial (no write raising) the delay slept between
    the yellow light going on and going off, after the removal of the edge
    detection and before the green light, is [random.uniform(2, 5)] for the
    value [r] the generator returns; for [r] in [0.0, 1.0) it is in the
    closed interval: [2.0 <= d <= 5.0]. *)
Theorem atraso_de_armar (amb : Ambiente) (le l : nat) (canal : Z) (w : Mundo) :
  sem_falhas amb ->
  (0 <=? aleatorio amb (n_aleatorio w))%float = true ->
  (aleatorio amb (n_aleatorio w) <? 1)%float = true ->
  exists d resto,
    historico (snd (iniciar_teste amb le l canal w)) =
      historico w ++
      [EvRemoveEventDetect PIN_BOTAO; EvPrint MsgTesteIniciado;
       EvOutput PIN_LED_AMARELO true; EvSleep d;
       EvOutput PIN_LED_AMARELO false; EvPrint MsgReajaAgora;
       EvOutput PIN_LED_VERDE true] ++ resto /\
    d = uniform 2 5 (aleatorio amb (n_aleatorio w)) /\
    (2 <=? d)%float = true /\ (d <=? 5)%float = true.
Proof.
  intros Hf H0 H1.
  destruct (iniciar_teste amb le l canal w) as [r w'] eqn:E.
  destruct (iniciar_teste_forma_sem_falhas _ _ _ _ _ _ _ Hf E) as [N [fim [Hh _]]].
  exists (uniform 2 5 (aleatorio amb (n_aleatorio w))),
         (repete_lista N (sondagem amb) ++ fim).
  split; [exact Hh|]. split; [reflexivity|].
  apply uniform_2_5_limites; assumption.
Qed.

Lemma atraso_de_armar_witness :
  sem_falhas ambiente_maior_sorteio /\
  (0 <=? aleatorio ambiente_maior_sorteio (n_aleatorio mundo_inicial))%float = true /\
  (aleatorio ambiente_maior_sorteio (n_aleatorio mundo_inicial) <? 1)%float = true /\
  exists d resto,
    historico (snd (iniciar_teste ambiente_maior_sorteio 0 1 PIN_BOTAO mundo_inicial)) =
      historico mundo_inicial ++
      [EvRemoveEventDetect PIN_BOTAO; EvPrint MsgTesteIniciado;
       EvOutput PIN_LED_AMARELO true; EvSleep d;
       EvOutput PIN_LED_AMARELO false; EvPrint MsgReajaAgora;
       EvOutput PIN_LED_VERDE true] ++ resto /\
    d = uniform 2 5 (aleatorio ambiente_maior_sorteio (n_aleatorio mundo_inicial)) /\
    (2 <=? d)%float = true /\ (d <=? 5)%float = true.
Proof.
  split; [intros k; reflexivity|]. split; [reflexivity|]. split; [reflexivity|].
  apply (atraso_de_armar ambiente_maior_sorteio 0 1 PIN_BOTAO mundo_inicial).
  - intros k. reflexivity.
  - reflexivity.
  - reflexivity.
Defined.

(** * Further properties of the script *)

(** ** Clearing the outputs when a write raises *)

(** Of the next [n] writes, from the [k]-th on, how many go through before
    one raises. *)
Fixpoint escritas_ate_falha (amb : Ambiente) (k n : nat) : nat :=
  match n with
  | O => 0
  | S n' => if falha amb k then 0 else S (escritas_ate_falha amb (S k) n')
  end.

(** X2. Whatever the writes do, [limpar_saidas] returns, and it has made its
    four writes (yellow, green, red, and the buzzer: duty 0 on the PWM of the
    board, the pin low otherwise) in this order up to the first one that
    raised: the writes after that one are not attempted, so an output they
    would have switched off stays as it was.  The variable [buzzer_pwm] is
    left as it was. *)
Theorem limpar_saidas_ate_falha (amb : Ambiente) (w : Mundo) :
  exists w',
    limpar_saidas amb w = (Retorno tt, w') /\
    historico w' =
      historico w ++ firstn (escritas_ate_falha amb (n_escritas w) 4) (apagar amb w) /\
    n_escritas w' =
      Nat.min 4 (S (escritas_ate_falha amb (n_escritas w) 4)) + n_escritas w /\
    buzzer_pwm w' = buzzer_pwm w.
Proof.
  unfold limpar_saidas, tenta, bind, GPIO_output, ChangeDutyCycle, escreve, le_mundo,
    apagar, pwm_ativo, historico.
  simpl. rewrite (andb_comm (negb _)).
  destruct (falha amb (n_escritas w)); simpl;
    [eexists; split; [reflexivity|]; simpl; rewrite app_nil_r; auto|].
  destruct (falha amb (S (n_escritas w))); simpl;
    [eexists; split; [reflexivity|]; simpl; auto|].
  destruct (falha amb (S (S (n_escritas w)))); simpl;
    [eexists; split; [reflexivity|]; simpl; rewrite <- ?app_assoc; auto|].
  destruct (buzzer_pwm w && negb (MODO_SIMULACAO amb)); simpl;
    destruct (falha amb (S (S (S (n_escritas w))))); simpl;
    eexists; (split; [reflexivity|]); simpl; rewrite <- ?app_assoc; auto.
Qed.

(** ** The tone *)

(** X3. Whatever the writes do, [tocar_tom] leaves the lights, the pin of
    the buzzer, the trigger pin, the edge detection and the variable
    [buzzer_pwm] as they were.  Without the PWM (simulation mode, or
    [buzzer_pwm] still [None]) or with a frequency that is not positive it is
    the wait of [duracao] alone: it writes nothing and cannot raise.  With the
    PWM and a positive frequency: when it returns, it has set the frequency,
    set the duty to 50, waited [duracao] and set the duty to 0, which is the
    duty it leaves; when the write that ends the tone raises (the two before
    it went through), the exception leaves [tocar_tom] with the duty at 50. *)
Theorem tocar_tom_efeitos (amb : Ambiente) (frequencia : Z) (duracao : float) (w : Mundo) :
  luzes (painel (snd (tocar_tom amb frequencia duracao w))) = luzes (painel w) /\
  pino_buzzer (painel (snd (tocar_tom amb frequencia duracao w))) = pino_buzzer (painel w) /\
  pino_trig (painel (snd (tocar_tom amb frequencia duracao w))) = pino_trig (painel w) /\
  ouvindo (painel (snd (tocar_tom amb frequencia duracao w))) = ouvindo (painel w) /\
  buzzer_pwm (snd (tocar_tom amb frequencia duracao w)) = buzzer_pwm w /\
  (pwm_ativo amb w && (frequencia >? 0)%Z = false ->
   tocar_tom amb frequencia duracao w = (Retorno tt, avanca 0 [EvSleep duracao] w)) /\
  (pwm_ativo amb w && (frequencia >? 0)%Z = true ->
   (fst (tocar_tom amb frequencia duracao w) = Retorno tt ->
    historico (snd (tocar_tom amb frequencia duracao w)) =
      historico w ++ [EvChangeFrequency frequencia; EvChangeDutyCycle 50;
                      EvSleep duracao; EvChangeDutyCycle 0] /\
    pwm_duty (painel (snd (tocar_tom amb frequencia duracao w))) = 0%Z) /\
   (falha amb (n_escritas w) = false -> falha amb (S (n_escritas w)) = false ->
    falha amb (S (S (n_escritas w))) = true ->
    fst (tocar_tom amb frequencia duracao w) = Excecao /\
    pwm_duty (painel (snd (tocar_tom amb frequencia duracao w))) = 50%Z)).
Proof.
  unfold tocar_tom, pwm_ativo, bind, le_mundo, ChangeFrequency, ChangeDutyCycle,
    escreve, time_sleep, emite, avanca, painel, historico.
  destruct (negb (MODO_SIMULACAO amb) && buzzer_pwm w); simpl;
    [|repeat split; discriminate].
  destruct (frequencia >? 0)%Z; simpl; [|repeat split; discriminate].
  destruct (falha amb (n_escritas w)); simpl;
    [repeat split; discriminate|].
  destruct (falha amb (S (n_escritas w))); simpl;
    [repeat split; discriminate|].
  destruct (falha amb (S (S (n_escritas w)))); simpl;
    repeat split; try discriminate.
  now rewrite <- !app_assoc.
Qed.

(** ** Start-up *)

(** The world after a start-up in which the write to the trigger pin went
    through. *)
Definition pronto (amb : Ambiente) (w : Mundo) : Mundo :=
  mkMundo (negb (MODO_SIMULACAO amb) || buzzer_pwm w) (tempo_inicio_estmulo w)
          (n_relogio w) (n_medicoes w) (n_aleatorio w) (S (n_escritas w))
          (rev (partida amb) ++ registro w).

Lemma principal_passa amb w :
  falha amb (n_escritas w) = false -> principal amb w = (Retorno tt, pronto amb w).
Proof.
  intros H.
  unfold principal, configuracao_gpio, print, GPIO_add_event_detect, GPIO_output.
  do 7 emitido. rewrite ?bind_assoc.
  erewrite bind_retorno by (apply escreve_passa; exact H). rewrite avanca_avanca.
  rewrite !bind_assoc. unfold pronto, partida.
  destruct (MODO_SIMULACAO amb); simpl negb; cbv iota.
  - rewrite (bind_retorno _ _ _ _ _ (eq_refl : ret tt _ = (Retorno tt, _))).
    do 2 emitido. rewrite emite_avanca, avanca_avanca. reflexivity.
  - emitido. rewrite ?bind_assoc.
    unfold bind at 1. unfold grava_buzzer_pwm.
    do 2 emitido. rewrite emite_avanca. reflexivity.
Qed.

(** When that write raises, start-up stops there. *)
Lemma principal_falha amb w :
  falha amb (n_escritas w) = true ->
  principal amb w =
  (Excecao,
   avanca 1 [EvSetup PIN_BUZZER true; EvSetup PIN_LED_VERMELHO true;
             EvSetup PIN_LED_VERDE true; EvSetup PIN_LED_AMARELO true;
             EvSetup PIN_TRIG true; EvSetup PIN_ECHO false; EvSetup PIN_BOTAO false] w).
Proof.
  intros H.
  unfold principal, configuracao_gpio, print, GPIO_add_event_detect, GPIO_output.
  do 7 emitido. rewrite ?bind_assoc.
  erewrite bind_excecao by (apply escreve_falha; exact H).
  now rewrite avanca_avanca.
Qed.

(** X4. Start-up ([configuracao_gpio] and the registration of the edge
    detection, lines 164-166) makes one write, the one that sets the trigger
    pin low.  When it goes through, start-up returns with the panel listening
    to the button and the trigger pin low; the lights and the pin of the
    buzzer are not written (they are as they were); on the board the PWM is
    started at 1000 Hz with duty 0 and [buzzer_pwm] holds it; in simulation
    mode the PWM is not touched and [buzzer_pwm] is left as it was.  When the
    write raises, the exception leaves start-up: the panel is as it was (it
    does not listen to the button) and [buzzer_pwm] is as it was. *)
Theorem partida_pronta (amb : Ambiente) (w : Mundo) :
  (falha amb (n_escritas w) = false ->
   exists w',
     principal amb w = (Retorno tt, w') /\
     ouvindo (painel w') = true /\
     pino_trig (painel w') = false /\
     luzes (painel w') = luzes (painel w) /\
     pino_buzzer (painel w') = pino_buzzer (painel w) /\
     (if MODO_SIMULACAO amb
      then buzzer_pwm w' = buzzer_pwm w /\
           pwm_frequencia (painel w') = pwm_frequencia (painel w) /\
           pwm_duty (painel w') = pwm_duty (painel w)
      else buzzer_pwm w' = true /\
           pwm_frequencia (painel w') = 1000%Z /\
           pwm_duty (painel w') = 0%Z)) /\
  (falha amb (n_escritas w) = true ->
   exists w',
     principal amb w = (Excecao, w') /\
     painel w' = painel w /\
     buzzer_pwm w' = buzzer_pwm w).
Proof.
  split; intros H.
  - exists (pronto amb w). split; [now apply principal_passa|].
    unfold pronto, partida, painel.
    destruct (MODO_SIMULACAO amb); repeat split.
  - eexists. split; [now apply principal_falha|]. split; reflexivity.
Qed.

(** ** The feedback when the clearing fails *)






(** ** The echo that answers *)

(** Inside the n-th measurement, in the loop that waits while the echo pin
    is at [nivel]: the pin is at [nivel] for [K] reads, none of the readings of
    the clock that follow them is more than 0.1 s after [timeout], and the next
    read of the pin finds the other level. *)
Fixpoint segue (amb : Ambiente) (n : nat) (nivel : bool) (timeout : float)
    (ke kt K : nat) : bool :=
  match K with
  | O => negb (Bool.eqb (eco amb n ke) nivel)
  | S K' =>
      Bool.eqb (eco amb n ke) nivel &&
      negb (0.1 <? relogio amb (NaMedicao n kt) - timeout)%float &&
      segue amb n nivel timeout (S ke) (S kt) K'
  end.

(** The loop then ends after [K] turns, with the last reading of the clock it
    made (the one made before it, when it made none). *)
Lemma espera_eco_segue amb n nivel timeout :
  forall K limite ke kt pulso,
    K < limite ->
    segue amb n nivel timeout ke kt K = true ->
    espera_eco amb n nivel limite ke kt timeout pulso =
    Seguiu (match K with
            | O => pulso
            | S K' => relogio amb (NaMedicao n (kt + K'))
            end) (S (ke + K)) (kt + K).
Proof.
  induction K as [|K IH]; intros limite ke kt pulso Hl Hs;
    (destruct limite as [|limite]; [lia|]); simpl in *.
  - apply negb_true_iff in Hs. rewrite Hs, !Nat.add_0_r. reflexivity.
  - apply andb_prop in Hs. destruct Hs as [Hs H3].
    apply andb_prop in Hs. destruct Hs as [H1 H2].
    apply negb_true_iff in H2. rewrite H1, H2.
    rewrite (IH limite (S ke) (S kt) _ ltac:(lia) H3).
    replace (S ke + K) with (ke + S K) by lia.
    replace (S kt + K) with (kt + S K) by lia.
    destruct K as [|K']; [now rewrite Nat.add_0_r|].
    now replace (S kt + K') with (kt + S K') by lia.
Qed.

(** The board with a sensor that answers: the echo pin is low at the first
    read, high at the next three, and low again; inside a measurement the
    clock gains 0.2 ms at each reading. *)
Definition ambiente_eco : Ambiente :=
  mkAmbiente false
    (fun i => match i with
              | NoTeste _ => 100%float
              | NaMedicao _ 0 => 100%float
              | NaMedicao _ 1 => 100.0002%float
              | NaMedicao _ 2 => 100.0004%float
              | NaMedicao _ 3 => 100.0006%float
              | NaMedicao _ 4 => 100.0008%float
              | NaMedicao _ 5 => 100.0010%float
              | NaMedicao _ _ => 100.0012%float
              end)
    (fun _ k => match k with 1 | 2 | 3 => true | _ => false end)
    (fun _ => 0%nat) (fun _ => 0.5%float) (fun _ => false).

(** X6. On the board (no write raising), a measurement in which the echo
    pin reads low [a] times and then high, reads high [b] more times and then
    low, and in which no reading of the clock inside a wait is more than 0.1 s
    after the reading that started the wait (0.1 s itself is not too late):
    [medir_distancia] returns [round((t_end - t_start) * 34300 / 2, 2)], where
    [t_start] is the reading of the clock number [1 + a] of the measurement
    (the last one of the first wait; the one of line 97 when the pin was high
    at once) and [t_end] is the reading number [3 + a + b] (the last one of
    the second wait; the one of line 103 when the pin was low at once), the
    readings numbered from 0; what it wrote is the pulse on the trigger
    pin. *)
Theorem medir_distancia_pulso (amb : Ambiente) (le a b : nat) (w : Mundo) :
  MODO_SIMULACAO amb = false ->
  sem_falhas amb ->
  a < le -> b < le ->
  segue amb (n_medicoes w) false (relogio amb (NaMedicao (n_medicoes w) 0)) 0 2 a = true ->
  segue amb (n_medicoes w) true (relogio amb (NaMedicao (n_medicoes w) (2 + a)))
        (S a) (4 + a) b = true ->
  medir_distancia amb le w =
  (Retorno (round2 (((relogio amb (NaMedicao (n_medicoes w) (3 + a + b)) -
                      relogio amb (NaMedicao (n_medicoes w) (1 + a))) *
                     VELOCIDADE_DO_SOM) / 2)%float),
   apos_medicao amb w).
Proof.
  intros Hb Hf Ha Hlb H1 H2.
  rewrite (medir_distancia_sem_falhas _ _ _ Hf). unfold leitura. rewrite Hb.
  unfold leitura_do_eco.
  rewrite (espera_eco_segue _ _ _ _ _ _ _ _ _ Ha H1).
  replace (S (0 + a)) with (S a) by lia.
  change (S (S (2 + a))) with (4 + a).
  rewrite (espera_eco_segue _ _ _ _ _ _ _ _ _ Hlb H2).
  assert (Ea : match a with
               | O => relogio amb (NaMedicao (n_medicoes w) 1)
               | S K' => relogio amb (NaMedicao (n_medicoes w) (2 + K'))
               end = relogio amb (NaMedicao (n_medicoes w) (1 + a))).
  { destruct a as [|a']; reflexivity. }
  assert (Eb : match b with
               | O => relogio amb (NaMedicao (n_medicoes w) (S (2 + a)))
               | S K' => relogio amb (NaMedicao (n_medicoes w) (4 + a + K'))
               end = relogio amb (NaMedicao (n_medicoes w) (3 + a + b))).
  { destruct b as [|b']; do 2 f_equal; lia. }
  now rewrite Ea, Eb.
Qed.

Lemma medir_distancia_pulso_witness :
  MODO_SIMULACAO ambiente_eco = false /\
  sem_falhas ambiente_eco /\
  segue ambiente_eco (n_medicoes mundo_inicial) false
    (relogio ambiente_eco (NaMedicao (n_medicoes mundo_inicial) 0)) 0 2 1 = true /\
  segue ambiente_eco (n_medicoes mundo_inicial) true
    (relogio ambiente_eco (NaMedicao (n_medicoes mundo_inicial) (2 + 1))) 2 (4 + 1) 2 = true /\
  medir_distancia ambiente_eco 5 mundo_inicial =
  (Retorno (round2 (((relogio ambiente_eco (NaMedicao (n_medicoes mundo_inicial) (3 + 1 + 2)) -
                      relogio ambiente_eco (NaMedicao (n_medicoes mundo_inicial) (1 + 1))) *
                     VELOCIDADE_DO_SOM) / 2)%float),
   apos_medicao ambiente_eco mundo_inicial).
Proof.
  split; [reflexivity|]. split; [intros k; reflexivity|].
  split; [vm_compute; reflexivity|]. split; [vm_compute; reflexivity|].
  apply (medir_distancia_pulso ambiente_eco 5 1 2 mundo_inicial).
  - reflexivity.
  - intros k. reflexivity.
  - lia.
  - lia.
  - vm_compute. reflexivity.
  - vm_compute. reflexivity.
Defined.

(** ** What a measurement touches *)

(** The panel outside the trigger pin of the sensor. *)
Definition fora_do_gatilho (p : Painel) : Luzes * bool * Z * Z * bool :=
  (luzes p, pino_buzzer p, pwm_frequencia p, pwm_duty p, ouvindo p).

(** X7. Whatever the environment does (writes that raise included), a call
    of [medir_distancia] leaves the lights, the pin of the buzzer, the PWM and
    the edge detection as they were, and so the variables [buzzer_pwm] and
    [tempo_inicio_estmulo]; it counts as one measurement.  On the board: when
    it returns a value the trigger pin is low; when its first write raises,
    the exception leaves it with nothing changed; when the write that ends
    the pulse raises, the exception leaves it with the trigger pin high. *)
Theorem medir_distancia_so_gatilho (amb : Ambiente) (le : nat) (w : Mundo) :
  fora_do_gatilho (painel (snd (medir_distancia amb le w))) = fora_do_gatilho (painel w) /\
  buzzer_pwm (snd (medir_distancia amb le w)) = buzzer_pwm w /\
  tempo_inicio_estmulo (snd (medir_distancia amb le w)) = tempo_inicio_estmulo w /\
  n_medicoes (snd (medir_distancia amb le w)) = S (n_medicoes w) /\
  (MODO_SIMULACAO amb = false ->
   (forall d, fst (medir_distancia amb le w) = Retorno d ->
      pino_trig (painel (snd (medir_distancia amb le w))) = false) /\
   (falha amb (n_escritas w) = true ->
      fst (medir_distancia amb le w) = Excecao /\
      registro (snd (medir_distancia amb le w)) = registro w) /\
   (falha amb (n_escritas w) = false -> falha amb (S (n_escritas w)) = true ->
      fst (medir_distancia amb le w) = Excecao /\
      pino_trig (painel (snd (medir_distancia amb le w))) = true)).
Proof.
  unfold medir_distancia, bind, nova_medicao, GPIO_output, escreve, time_sleep, emite,
    esgotado, ret, painel.
  destruct (MODO_SIMULACAO amb); simpl.
  - repeat split; discriminate.
  - destruct (falha amb (n_escritas w)); simpl;
      [|destruct (falha amb (S (n_escritas w))); simpl;
        [|destruct (leitura_do_eco amb le (n_medicoes w)); simpl]];
      repeat split; intros; try discriminate; try reflexivity.
Qed.

(** ** The hand that is detected *)

(** The world after a turn of the loop that detected nothing. *)
Definition apos_sondagem (amb : Ambiente) (w : Mundo) : Mundo :=
  avanca 0 [EvSleep 0.01%float] (apos_medicao amb (conta_relogio w)).

Fixpoint apos_sondagens (amb : Ambiente) (N : nat) (w : Mundo) : Mundo :=
  match N with
  | O => w
  | S N' => apos_sondagens amb N' (apos_sondagem amb w)
  end.

Lemma apos_sondagens_campos amb N :
  forall w,
    n_relogio (apos_sondagens amb N w) = N + n_relogio w /\
    n_medicoes (apos_sondagens amb N w) = N + n_medicoes w /\
    tempo_inicio_estmulo (apos_sondagens amb N w) = tempo_inicio_estmulo w /\
    buzzer_pwm (apos_sondagens amb N w) = buzzer_pwm w /\
    historico (apos_sondagens amb N w) = historico w ++ repete_lista N (sondagem amb).
Proof.
  induction N as [|N IH]; intros w; simpl.
  - rewrite app_nil_r. auto.
  - destruct (IH (apos_sondagem amb w)) as [-> [-> [-> [-> ->]]]].
    unfold apos_sondagem, apos_medicao. rewrite avanca_avanca, historico_avanca.
    simpl. repeat split; try lia.
    rewrite rev_involutive. unfold sondagem.
    change (historico (conta_medicao (conta_relogio w))) with (historico w).
    now rewrite <- !app_assoc.
Qed.

(** Turns that start inside the window and read more than 10 cm are followed
    by the rest of the loop. *)
Lemma laco_reacao_salta amb le :
  sem_falhas amb ->
  forall N l w,
    sem_reacao amb le (tempo_inicio_estmulo w) (n_relogio w) (n_medicoes w) N = true ->
    laco_reacao amb le (N + l) w = laco_reacao amb le l (apos_sondagens amb N w).
Proof.
  intros Hf. induction N as [|N IH]; intros l w Hs; [reflexivity|].
  simpl in Hs.
  apply andb_prop in Hs. destruct Hs as [Hs H3].
  apply andb_prop in Hs. destruct Hs as [H1 H2].
  change (S N + l) with (S (N + l)). simpl laco_reacao.
  rewrite (bind_retorno _ _ _ _ _ (time_time_conta _ _)), bind_le_mundo.
  change (tempo_inicio_estmulo (conta_relogio w)) with (tempo_inicio_estmulo w).
  rewrite H1.
  unfold bind at 1. rewrite (medir_distancia_sem_falhas _ _ _ Hf).
  change (n_medicoes (conta_relogio w)) with (n_medicoes w).
  destruct (leitura amb le (n_medicoes w)) as [d|]; [|discriminate].
  apply negb_true_iff in H2. rewrite H2.
  unfold time_sleep. rewrite (bind_retorno _ _ _ _ _ (emite_avanca _ _)).
  fold (apos_sondagem amb w). apply IH. exact H3.
Qed.

(** The simulation mode with the hand far away at the first measurement and
    at 5 cm at the second. *)
Definition ambiente_mao : Ambiente :=
  mkAmbiente true
    (fun i => match i with
              | NoTeste 0 => 100%float
              | NoTeste 1 => 100.2%float
              | NoTeste 2 => 100.4%float
              | _ => 100.45%float
              end)
    (fun _ _ => false)
    (fun n => match n with 1 => 2 | _ => 0 end)
    (fun _ => 0.5%float) (fun _ => false).

(** X8. A trial (no write raising) in which the first [N] turns of the loop
    start inside the window and read more than 10 cm, and the next turn starts
    inside the window and reads [d], 10 cm or less (10 cm itself is a
    detection): [iniciar_teste] returns; the reaction time it gives to
    [mostrar_resultado] is the reading of the clock made after that
    measurement minus the one made at the onset of the stimulus - whatever
    this difference is, it is not compared with the 5.0 s of the window; what
    it did is the arming, the [N] turns, the measurement, the feedback for
    this reaction time (and no "TEMPO ESGOTADO"), and the registration of the
    edge detection.  It made [N + 1] measurements and read the clock
    [N + 3] times, and [tempo_inicio_estmulo] holds the onset. *)
Theorem mao_detectada (amb : Ambiente) (le l : nat) (canal : Z) (w : Mundo)
    (N : nat) (d : float) :
  sem_falhas amb ->
  N < l ->
  sem_reacao amb le (relogio amb (NoTeste (n_relogio w)))
             (S (n_relogio w)) (n_medicoes w) N = true ->
  (relogio amb (NoTeste (S N + n_relogio w)) - relogio amb (NoTeste (n_relogio w))
   <? JANELA)%float = true ->
  leitura amb le (N + n_medicoes w) = Some d ->
  (d <=? DISTANCIA_GATILHO)%float = true ->
  exists w',
    iniciar_teste amb le l canal w = (Retorno tt, w') /\
    historico w' =
      historico w ++ armar amb w ++ repete_lista N (sondagem amb) ++ medicao amb ++
      retorno amb w (relogio amb (NoTeste (S (S N) + n_relogio w)) -
                     relogio amb (NoTeste (n_relogio w))) ++
      [EvAddEventDetect PIN_BOTAO] /\
    tempo_inicio_estmulo w' = relogio amb (NoTeste (n_relogio w)) /\
    n_medicoes w' = S N + n_medicoes w /\
    n_relogio w' = S (S (S N)) + n_relogio w.
Proof.
  intros Hf Hl Hs Hj Hd Hg.
  rewrite (iniciar_teste_ate_o_estimulo _ _ _ _ _ Hf).
  replace l with (N + S (l - S N)) by lia.
  unfold bind at 1.
  rewrite (laco_reacao_salta amb le Hf N _ (mundo_no_estimulo amb w) Hs).
  destruct (apos_sondagens_campos amb N (mundo_no_estimulo amb w))
    as [Er [Em [Et [Eb Eh]]]].
  set (w1 := apos_sondagens amb N (mundo_no_estimulo amb w)) in *.
  simpl in Er, Em, Et, Eb.
  rewrite historico_mundo_no_estimulo in Eh.
  simpl laco_reacao.
  rewrite (bind_retorno _ _ _ _ _ (time_time_conta _ _)), bind_le_mundo.
  change (tempo_inicio_estmulo (conta_relogio w1)) with (tempo_inicio_estmulo w1).
  rewrite Er, Et.
  replace (N + S (n_relogio w)) with (S N + n_relogio w) by lia. rewrite Hj.
  unfold bind at 1. rewrite (medir_distancia_sem_falhas _ _ _ Hf).
  change (n_medicoes (conta_relogio w1)) with (n_medicoes w1).
  rewrite Em, Hd, Hg.
  rewrite (bind_retorno _ _ _ _ _ (time_time_conta _ _)), bind_le_mundo.
  set (w2 := apos_medicao amb (conta_relogio w1)).
  change (n_relogio w2) with (S (n_relogio w1)).
  change (tempo_inicio_estmulo (conta_relogio w2)) with (tempo_inicio_estmulo w1).
  rewrite Er, Et.
  replace (S (N + S (n_relogio w))) with (S (S N) + n_relogio w) by lia.
  destruct (mostrar_resultado_sem_falhas amb (conta_relogio w2)
              (relogio amb (NoTeste (S (S N) + n_relogio w)) -
               relogio amb (NoTeste (n_relogio w))) Hf) as [k Hk].
  rewrite (retorno_mesmo_pwm amb (conta_relogio w2) w _ Eb) in Hk.
  rewrite (bind_retorno _ _ _ _ _ Hk).
  unfold ret, depois_do_laco, GPIO_add_event_detect. simpl negb. cbv iota.
  rewrite (bind_retorno _ _ _ _ _ (eq_refl : ret tt _ = (Retorno tt, _))).
  rewrite emite_avanca, avanca_avanca.
  eexists. split; [reflexivity|].
  rewrite historico_avanca.
  change (historico (conta_relogio w2)) with (historico w2).
  unfold w2, apos_medicao. rewrite historico_avanca, rev_involutive.
  change (historico (conta_medicao (conta_relogio w1))) with (historico w1).
  rewrite Eh. repeat split.
  - rewrite rev_app_distr, rev_involutive. simpl. now rewrite <- !app_assoc.
  - simpl. exact Et.
  - simpl. rewrite Em. reflexivity.
  - simpl. rewrite Er. lia.
Qed.

Lemma mao_detectada_witness :
  sem_falhas ambiente_mao /\
  sem_reacao ambiente_mao 0 (relogio ambiente_mao (NoTeste (n_relogio mundo_inicial)))
             (S (n_relogio mundo_inicial)) (n_medicoes mundo_inicial) 1 = true /\
  (relogio ambiente_mao (NoTeste (2 + n_relogio mundo_inicial)) -
   relogio ambiente_mao (NoTeste (n_relogio mundo_inicial)) <? JANELA)%float = true /\
  leitura ambiente_mao 0 (1 + n_medicoes mundo_inicial) = Some 5%float /\
  (5 <=? DISTANCIA_GATILHO)%float = true /\
  exists w',
    iniciar_teste ambiente_mao 0 2 PIN_BOTAO mundo_inicial = (Retorno tt, w') /\
    historico w' =
      historico mundo_inicial ++ armar ambiente_mao mundo_inicial ++
      repete_lista 1 (sondagem ambiente_mao) ++ medicao ambiente_mao ++
      retorno ambiente_mao mundo_inicial
        (relogio ambiente_mao (NoTeste (3 + n_relogio mundo_inicial)) -
         relogio ambiente_mao (NoTeste (n_relogio mundo_inicial))) ++
      [EvAddEventDetect PIN_BOTAO] /\
    tempo_inicio_estmulo w' = relogio ambiente_mao (NoTeste (n_relogio mundo_inicial)) /\
    n_medicoes w' = 2 + n_medicoes mundo_inicial /\
    n_relogio w' = 4 + n_relogio mundo_inicial.
Proof.
  split; [intros k; reflexivity|].
  split; [vm_compute; reflexivity|]. split; [vm_compute; reflexivity|].
  split; [vm_compute; reflexivity|]. split; [vm_compute; reflexivity|].
  apply (mao_detectada ambiente_mao 0 2 PIN_BOTAO mundo_inicial 1 5%float).
  - intros k. reflexivity.
  - lia.
  - vm_compute. reflexivity.
  - vm_compute. reflexivity.
  - vm_compute. reflexivity.
  - vm_compute. reflexivity.
Defined.

(** ** What a trial prints *)

(** The messages printed by the calls [es], in the order of time. *)
Definition mensagens (es : list Evento) : list Mensagem :=
  flat_map (fun e => match e with EvPrint m => [m] | _ => [] end) es.

(** The tier [mostrar_resultado] announces for [t] (lines 115-125). *)
Definition faixa (t : float) : Mensagem :=
  if (t <=? LIMITE_EXCELENTE)%float then MsgExcelente
  else if (t <=? LIMITE_MEDIO)%float then MsgMedio
  else MsgLento.

Lemma mensagens_app a b : mensagens (a ++ b) = mensagens a ++ mensagens b.
Proof. apply flat_map_app. Qed.

Lemma mensagens_sondagens amb N : mensagens (repete_lista N (sondagem amb)) = [].
Proof.
  induction N as [|N IH]; simpl; [reflexivity|].
  rewrite mensagens_app, IH. unfold sondagem, medicao.
  destruct (MODO_SIMULACAO amb); reflexivity.
Qed.

Lemma mensagens_medicao amb : mensagens (medicao amb) = [].
Proof. unfold medicao. destruct (MODO_SIMULACAO amb); reflexivity. Qed.

Lemma mensagens_retorno amb w t :
  mensagens (retorno amb w t) = [MsgTempoReacao t; faixa t; MsgPressione].
Proof.
  unfold retorno, faixa, retorno_excelente, retorno_medio, retorno_lento, apagar, tom.
  destruct (t <=? LIMITE_EXCELENTE)%float; [|destruct (t <=? LIMITE_MEDIO)%float];
    destruct (pwm_ativo amb w); reflexivity.
Qed.

(** X9. What a trial that returns (no write raising) has printed is, in this
    order: "TESTE INICIADO", "REAJA AGORA", and then either one reaction
    time, the tier of this reaction time and the invitation to press again
    (the hand was detected), or "TEMPO ESGOTADO", the reaction time 9.99, the
    slow tier and the invitation (the window closed): one result per trial,
    and never both. *)
Theorem mensagens_do_teste (amb : Ambiente) (le l : nat) (canal : Z) (w w' : Mundo) :
  sem_falhas amb ->
  iniciar_teste amb le l canal w = (Retorno tt, w') ->
  exists es,
    historico w' = historico w ++ es /\
    ((exists t,
         mensagens es =
         [MsgTesteIniciado; MsgReajaAgora; MsgTempoReacao t; faixa t; MsgPressione]) \/
     mensagens es =
       [MsgTesteIniciado; MsgReajaAgora; MsgTempoEsgotado;
        MsgTempoReacao TEMPO_ESGOTADO; MsgLento; MsgPressione]).
Proof.
  intros Hf H.
  destruct (iniciar_teste_forma_sem_falhas _ _ _ _ _ _ _ Hf H) as [N [fim [Hh [_ Hr]]]].
  exists (armar amb w ++ repete_lista N (sondagem amb) ++ fim). split; [exact Hh|].
  rewrite !mensagens_app, mensagens_sondagens.
  destruct Hr as [[t ->]| ->]; [left; exists t|right];
    rewrite !mensagens_app, ?mensagens_medicao, mensagens_retorno; reflexivity.
Qed.

Lemma mensagens_do_teste_witness :
  sem_falhas ambiente_reacao /\
  iniciar_teste ambiente_reacao 0 1 PIN_BOTAO mundo_inicial =
    (Retorno tt, snd (iniciar_teste ambiente_reacao 0 1 PIN_BOTAO mundo_inicial)) /\
  exists es,
    historico (snd (iniciar_teste ambiente_reacao 0 1 PIN_BOTAO mundo_inicial)) =
      historico mundo_inicial ++ es /\
    ((exists t,
         mensagens es =
         [MsgTesteIniciado; MsgReajaAgora; MsgTempoReacao t; faixa t; MsgPressione]) \/
     mensagens es =
       [MsgTesteIniciado; MsgReajaAgora; MsgTempoEsgotado;
        MsgTempoReacao TEMPO_ESGOTADO; MsgLento; MsgPressione]).
Proof.
  split; [intros k; reflexivity|]. split; [vm_compute; reflexivity|].
  apply (mensagens_do_teste ambiente_reacao 0 1 PIN_BOTAO mundo_inicial).
  - intros k. reflexivity.
  - vm_compute. reflexivity.
Defined.

(** ** The tone and its wait *)

Definition passo_duty (e : Evento) (dc : Z) : Z :=
  match e with
  | EvChangeDutyCycle d => d
  | EvPwmStart _ d => d
  | _ => dc
  end.

Lemma pwm_duty_aplica e p : pwm_duty (aplica e p) = passo_duty e (pwm_duty p).
Proof.
  destruct e; try reflexivity; simpl.
  - unfold aplica_output.
    repeat match goal with |- context [if ?c then _ else _] => destruct c end;
      reflexivity.
  - destruct (pino =? PIN_BOTAO)%Z; reflexivity.
  - destruct (pino =? PIN_BOTAO)%Z; reflexivity.
Qed.

Definition duty_apos (dc : Z) (es : list Evento) : Z :=
  fold_left (fun dc e => passo_duty e dc) es dc.

Lemma duty_painel_de es base :
  pwm_duty (painel_de (rev es ++ base)) = duty_apos (pwm_duty (painel_de base)) es.
Proof.
  revert base. induction es as [|e es IH]; intros base; simpl; [reflexivity|].
  rewrite <- app_assoc. simpl. rewrite IH. simpl. now rewrite pwm_duty_aplica.
Qed.

(** The call that starts a tone, and a wait. *)
Definition liga (e : Evento) : bool :=
  match e with
  | EvChangeDutyCycle dc => (dc =? 50)%Z
  | _ => false
  end.

Definition espera (e : Evento) : bool :=
  match e with
  | EvSleep _ => true
  | _ => false
  end.

(** After each call of [es], made in this order from the duty [dc]: the duty
    is 0, or the call started a tone, or it is the wait that follows such a
    call ([ligou]: the call before [es] started a tone). *)
Fixpoint confere_tom (dc : Z) (ligou : bool) (es : list Evento) : bool :=
  match es with
  | [] => true
  | e :: es' =>
      ((passo_duty e dc =? 0)%Z || liga e || (espera e && ligou)) &&
      confere_tom (passo_duty e dc) (liga e) es'
  end.

Definition ligou_apos (ligou : bool) (es : list Evento) : bool :=
  fold_left (fun _ e => liga e) es ligou.

Lemma confere_tom_app dc lg a b :
  confere_tom dc lg (a ++ b) =
  confere_tom dc lg a && confere_tom (duty_apos dc a) (ligou_apos lg a) b.
Proof.
  revert dc lg. induction a as [|e a IH]; intros dc lg; simpl; [reflexivity|].
  now rewrite IH, andb_assoc.
Qed.

Lemma confere_tom_cada es :
  forall dc lg, confere_tom dc lg es = true ->
  forall antes e depois, es = antes ++ e :: depois ->
    passo_duty e (duty_apos dc antes) = 0%Z \/ liga e = true \/
    (espera e = true /\ ligou_apos lg antes = true).
Proof.
  intros dc lg Hc antes. revert dc lg es Hc.
  induction antes as [|x antes IH]; intros dc lg es Hc e depois E; subst es;
    simpl in Hc; apply andb_prop in Hc; destruct Hc as [H1 H2].
  - simpl. apply orb_prop in H1. destruct H1 as [H1|H1].
    + apply orb_prop in H1. destruct H1 as [H1|H1]; [left; now apply Z.eqb_eq|now right; left].
    + apply andb_prop in H1. now right; right.
  - apply (IH _ _ _ H2 e depois eq_refl).
Qed.

Lemma ligou_apos_ultimo antes :
  ligou_apos false antes = true ->
  exists ini, antes = ini ++ [EvChangeDutyCycle 50].
Proof.
  destruct antes as [|x antes] using rev_ind; [discriminate|].
  unfold ligou_apos. rewrite fold_left_app. simpl. intros H. exists antes. f_equal.
  destruct x; try discriminate. simpl in H. apply Z.eqb_eq in H. now subst.
Qed.

(** The calls that leave the duty of the PWM as it is. *)
Definition mudo (e : Evento) : bool :=
  match e with
  | EvChangeDutyCycle _ | EvPwmStart _ _ => false
  | _ => true
  end.

Lemma confere_tom_mudos es :
  forallb mudo es = true ->
  forall lg, confere_tom 0 lg es = true /\ duty_apos 0 es = 0%Z.
Proof.
  induction es as [|e es IH]; intros H lg; simpl in *; [auto|].
  apply andb_prop in H. destruct H as [H1 H2].
  assert (E : passo_duty e 0 = 0%Z) by (destruct e; try reflexivity; discriminate).
  rewrite E. simpl. apply IH. exact H2.
Qed.

Lemma mudo_sondagens amb N : forallb mudo (repete_lista N (sondagem amb)) = true.
Proof.
  induction N as [|N IH]; simpl; [reflexivity|].
  rewrite forallb_app, IH. unfold sondagem, medicao.
  destruct (MODO_SIMULACAO amb); reflexivity.
Qed.

Lemma confere_tom_retorno amb w t lg :
  confere_tom 0 lg (retorno amb w t) = true /\ duty_apos 0 (retorno amb w t) = 0%Z.
Proof.
  unfold retorno, retorno_excelente, retorno_medio, retorno_lento, apagar, tom, pisca.
  destruct (t <=? LIMITE_EXCELENTE)%float; [|destruct (t <=? LIMITE_MEDIO)%float];
    destruct (pwm_ativo amb w), lg; split; reflexivity.
Qed.

Lemma confere_tom_teste amb le l canal w r w' :
  sem_falhas amb ->
  iniciar_teste amb le l canal w = (r, w') ->
  exists es, historico w' = historico w ++ es /\ confere_tom 0 false es = true.
Proof.
  intros Hf H.
  destruct (iniciar_teste_forma_sem_falhas _ _ _ _ _ _ _ Hf H) as [N [fim [Hh [_ Hr]]]].
  exists (armar amb w ++ repete_lista N (sondagem amb) ++ fim). split; [exact Hh|].
  assert (A : forall lg, confere_tom 0 lg (armar amb w ++ repete_lista N (sondagem amb)) = true /\
                         duty_apos 0 (armar amb w ++ repete_lista N (sondagem amb)) = 0%Z).
  { apply confere_tom_mudos. rewrite forallb_app, mudo_sondagens. reflexivity. }
  rewrite app_assoc, confere_tom_app.
  destruct (A false) as [-> ->]. rewrite andb_true_l.
  generalize (ligou_apos false (armar amb w ++ repete_lista N (sondagem amb))). intros lg.
  assert (M : forall lg', confere_tom 0 lg' (medicao amb) = true /\
                          duty_apos 0 (medicao amb) = 0%Z).
  { apply confere_tom_mudos. unfold medicao. destruct (MODO_SIMULACAO amb); reflexivity. }
  destruct r as [[]| | ].
  - destruct Hr as [[t ->]| ->].
    + rewrite !confere_tom_app. destruct (M lg) as [-> ->]. rewrite andb_true_l.
      destruct (confere_tom_retorno amb w t (ligou_apos lg (medicao amb))) as [-> ->].
      reflexivity.
    + rewrite !confere_tom_app.
      change (confere_tom 0 lg [EvPrint MsgTempoEsgotado]) with true.
      change (duty_apos 0 [EvPrint MsgTempoEsgotado]) with 0%Z. rewrite andb_true_l.
      destruct (confere_tom_retorno amb w TEMPO_ESGOTADO
                  (ligou_apos lg [EvPrint MsgTempoEsgotado])) as [-> ->].
      reflexivity.
  - contradiction.
  - destruct Hr as [-> | ->]; [reflexivity|]. apply M.
Qed.

(** The board with a clock that shows six seconds more at its second
    reading: the window of the trial closes at once. *)
Definition ambiente_placa : Ambiente :=
  mkAmbiente false
    (fun i => match i with
              | NoTeste 0 => 100%float
              | _ => 106%float
              end)
    (fun _ _ => false) (fun _ => 0%nat) (fun _ => 0.5%float) (fun _ => false).

(** X10. In a trial (no write raising, the duty of the PWM at 0 when it
    starts), however far it gets: after each call the duty of the PWM is 0,
    unless the call is the [ChangeDutyCycle(50)] that starts a tone or the
    wait that follows it at once.  The tone is on for the wait of [tocar_tom]
    and at no other instant of the trial. *)
Theorem tom_so_na_espera (amb : Ambiente) (le l : nat) (canal : Z) (w : Mundo)
    (antes : list Evento) (e : Evento) (depois : list Evento) :
  sem_falhas amb ->
  pwm_duty (painel w) = 0%Z ->
  historico (snd (iniciar_teste amb le l canal w)) = historico w ++ antes ++ e :: depois ->
  pwm_duty (painel_de (e :: rev antes ++ registro w)) = 0%Z \/
  e = EvChangeDutyCycle 50 \/
  (exists d ini, e = EvSleep d /\ antes = ini ++ [EvChangeDutyCycle 50]).
Proof.
  intros Hf Hd H.
  destruct (iniciar_teste amb le l canal w) as [r w'] eqn:E.
  destruct (confere_tom_teste _ _ _ _ _ _ _ Hf E) as [es [Hh Hc]].
  simpl snd in H. rewrite Hh in H. apply app_inv_head in H.
  destruct (confere_tom_cada es 0 false Hc antes e depois H) as [H1|[H1|[H1 H2]]].
  - left. simpl. rewrite pwm_duty_aplica, duty_painel_de. fold (painel w).
    now rewrite Hd.
  - right. left. destruct e; try discriminate. simpl in H1.
    apply Z.eqb_eq in H1. now subst.
  - right. right. destruct e; try discriminate.
    destruct (ligou_apos_ultimo antes H2) as [ini Hi]. now exists d, ini.
Qed.

Lemma tom_so_na_espera_witness :
  sem_falhas ambiente_placa /\
  pwm_duty (painel (pronto ambiente_placa mundo_inicial)) = 0%Z /\
  historico (snd (iniciar_teste ambiente_placa 0 1 PIN_BOTAO
                    (pronto ambiente_placa mundo_inicial))) =
    historico (pronto ambiente_placa mundo_inicial) ++
    firstn 17 (skipn 12 (historico (snd (iniciar_teste ambiente_placa 0 1 PIN_BOTAO
                                           (pronto ambiente_placa mundo_inicial))))) ++
    EvSleep 1.0%float ::
    skipn 30 (historico (snd (iniciar_teste ambiente_placa 0 1 PIN_BOTAO
                                (pronto ambiente_placa mundo_inicial)))) /\
  (pwm_duty
     (painel_de
        (EvSleep 1.0%float ::
         rev (firstn 17 (skipn 12 (historico (snd (iniciar_teste ambiente_placa 0 1 PIN_BOTAO
                                                     (pronto ambiente_placa mundo_inicial)))))) ++
         registro (pronto ambiente_placa mundo_inicial))) = 0%Z \/
   EvSleep 1.0%float = EvChangeDutyCycle 50 \/
   (exists d ini,
       EvSleep 1.0%float = EvSleep d /\
       firstn 17 (skipn 12 (historico (snd (iniciar_teste ambiente_placa 0 1 PIN_BOTAO
                                              (pronto ambiente_placa mundo_inicial))))) =
       ini ++ [EvChangeDutyCycle 50])).
Proof.
  split; [intros k; reflexivity|]. split; [reflexivity|].
  split; [vm_compute; reflexivity|].
  apply (tom_so_na_espera ambiente_placa 0 1 PIN_BOTAO (pronto ambiente_placa mundo_inicial)
           _ _
           (skipn 30 (historico (snd (iniciar_teste ambiente_placa 0 1 PIN_BOTAO
                                        (pronto ambiente_placa mundo_inicial)))))).
  - intros k. reflexivity.
  - reflexivity.
  - vm_compute. reflexivity.
Defined.

(** ** The presses of a session *)

(** A trial that returns leaves the lights off and the tone generator
    silent. *)
Lemma apagado_apos_teste amb le l canal w w' :
  sem_falhas amb ->
  iniciar_teste amb le l canal w = (Retorno tt, w') -> apagado amb w'.
Proof.
  intros Hf H.
  destruct (iniciar_teste_forma_sem_falhas _ _ _ _ _ _ _ Hf H) as [N [fim [Hh [Hb Hr]]]].
  destruct Hr as [[t ->]| ->].
  - destruct (retorno_termina amb w t) as [ini Hi].
    apply (apagado_apos amb w _
             (historico w ++ armar amb w ++ repete_lista N (sondagem amb) ++
              medicao amb ++ ini)
             [EvPrint MsgPressione; EvAddEventDetect PIN_BOTAO]).
    + rewrite Hh, Hi. rewrite <- !app_assoc. reflexivity.
    + repeat constructor.
    + exact Hb.
  - destruct (retorno_termina amb w TEMPO_ESGOTADO) as [ini Hi].
    apply (apagado_apos amb w _
             (historico w ++ armar amb w ++ repete_lista N (sondagem amb) ++
              [EvPrint MsgTempoEsgotado] ++ ini)
             [EvPrint MsgPressione; EvAddEventDetect PIN_BOTAO]).
    + rewrite Hh, Hi. rewrite <- !app_assoc. reflexivity.
    + repeat constructor.
    + exact Hb.
Qed.

(** The trials started in a log: the calls that print "TESTE INICIADO". *)
Definition e_inicio (e : Evento) : bool :=
  match e with
  | EvPrint MsgTesteIniciado => true
  | _ => false
  end.

Definition testes_iniciados (es : list Evento) : nat := length (filter e_inicio es).

Lemma testes_iniciados_app a b :
  testes_iniciados (a ++ b) = testes_iniciados a + testes_iniciados b.
Proof. unfold testes_iniciados. now rewrite filter_app, length_app. Qed.

Lemma testes_iniciados_sondagens amb N :
  testes_iniciados (repete_lista N (sondagem amb)) = 0.
Proof.
  induction N as [|N IH]; simpl; [reflexivity|].
  rewrite testes_iniciados_app, IH. unfold sondagem, medicao.
  destruct (MODO_SIMULACAO amb); reflexivity.
Qed.

Lemma testes_iniciados_retorno amb w t : testes_iniciados (retorno amb w t) = 0.
Proof.
  unfold retorno, retorno_excelente, retorno_medio, retorno_lento, apagar, tom.
  destruct (t <=? LIMITE_EXCELENTE)%float; [|destruct (t <=? LIMITE_MEDIO)%float];
    destruct (pwm_ativo amb w); reflexivity.
Qed.

(** A trial that returns started once, and left the panel listening. *)
Lemma um_teste_iniciado amb le l canal w w' :
  sem_falhas amb ->
  iniciar_teste amb le l canal w = (Retorno tt, w') ->
  testes_iniciados (historico w') = S (testes_iniciados (historico w)) /\
  ouvindo (painel w') = true /\
  buzzer_pwm w' = buzzer_pwm w.
Proof.
  intros Hf H.
  destruct (iniciar_teste_forma_sem_falhas _ _ _ _ _ _ _ Hf H) as [N [fim [Hh [Hb Hr]]]].
  split; [|split; [|exact Hb]].
  - rewrite Hh, !testes_iniciados_app, testes_iniciados_sondagens.
    destruct Hr as [[t ->]| ->];
      rewrite !testes_iniciados_app, testes_iniciados_retorno;
      [unfold medicao; destruct (MODO_SIMULACAO amb)|];
      unfold testes_iniciados, armar; simpl; lia.
  - destruct (iniciar_teste_forma amb le l canal w) as [meio [E _]].
    rewrite H in E. simpl in E. unfold painel. rewrite E. reflexivity.
Qed.

Lemma bordas_atendidas amb le l :
  sem_falhas amb ->
  forall n w w',
    ouvindo (painel w) = true ->
    apagado amb w ->
    repete n (borda_subida amb le l) w = (Retorno tt, w') ->
    testes_iniciados (historico w') = n + testes_iniciados (historico w) /\
    ouvindo (painel w') = true /\
    apagado amb w' /\
    buzzer_pwm w' = buzzer_pwm w.
Proof.
  intros Hf. induction n as [|n IH]; intros w w' Ho Ha H.
  - injection H as <-. auto.
  - simpl repete in H. unfold bind at 1 in H.
    unfold borda_subida at 1 in H. rewrite bind_le_mundo, Ho in H.
    destruct (iniciar_teste amb le l PIN_BOTAO w) as [[[]| | ] w1] eqn:E1;
      try discriminate.
    destruct (um_teste_iniciado _ _ _ _ _ _ Hf E1) as [T1 [O1 B1]].
    destruct (IH w1 w' O1 (apagado_apos_teste _ _ _ _ _ _ Hf E1) H) as [T [O [A B]]].
    repeat split; try assumption; try apply A.
    + rewrite T, T1. lia.
    + now rewrite B.
Qed.

(** X11. In a session (start-up, then presses of the button served one
    after the other; no write raising) that runs to its end: every press
    started a trial - the trials started are as many as the presses - and
    after the last of them the panel listens to the button, the three lights
    are off and the tone generator is silent; [buzzer_pwm] holds the PWM
    exactly on the board. *)
Theorem toda_borda_inicia_um_teste (amb : Ambiente) (le l bordas : nat) (w' : Mundo) :
  sem_falhas amb ->
  sessao amb le l bordas mundo_inicial = (Retorno tt, w') ->
  testes_iniciados (historico w') = bordas /\
  ouvindo (painel w') = true /\
  apagado amb w' /\
  buzzer_pwm w' = negb (MODO_SIMULACAO amb).
Proof.
  intros Hf H.
  destruct (principal_sem_falhas amb Hf) as [w0 [E0 [H0 [B0 O0]]]].
  unfold sessao in H. rewrite (bind_retorno _ _ _ _ _ E0) in H.
  assert (A0 : apagado amb w0).
  { unfold apagado, silencioso, pwm_ativo, painel.
    rewrite <- (rev_involutive (registro w0)). fold (historico w0). rewrite H0, B0.
    unfold partida. destruct (MODO_SIMULACAO amb); split; reflexivity. }
  destruct (bordas_atendidas amb le l Hf bordas w0 w' O0 A0 H) as [T [O [A B]]].
  repeat split; try assumption; try apply A.
  - rewrite T, H0. unfold partida, testes_iniciados.
    destruct (MODO_SIMULACAO amb); simpl; lia.
  - now rewrite B.
Qed.

Lemma toda_borda_inicia_um_teste_witness :
  sem_falhas ambiente_reacao /\
  sessao ambiente_reacao 0 1 3 mundo_inicial =
    (Retorno tt, snd (sessao ambiente_reacao 0 1 3 mundo_inicial)) /\
  testes_iniciados (historico (snd (sessao ambiente_reacao 0 1 3 mundo_inicial))) = 3 /\
  ouvindo (painel (snd (sessao ambiente_reacao 0 1 3 mundo_inicial))) = true /\
  apagado ambiente_reacao (snd (sessao ambiente_reacao 0 1 3 mundo_inicial)) /\
  buzzer_pwm (snd (sessao ambiente_reacao 0 1 3 mundo_inicial)) =
    negb (MODO_SIMULACAO ambiente_reacao).
Proof.
  split; [intros k; reflexivity|]. split; [vm_compute; reflexivity|].
  apply (toda_borda_inicia_um_teste ambiente_reacao 0 1 3).
  - intros k. reflexivity.
  - vm_compute. reflexivity.
Defined.

(** ** After a trial that raised *)

(** X12. When a call of [iniciar_teste] raises (whatever raised inside it),
    the panel does not listen to the button any more, and no press that
    follows does anything: each returns at once and changes nothing. *)
Theorem nenhum_teste_depois_da_excecao (amb : Ambiente) (le l : nat) (canal : Z)
    (w : Mundo) :
  fst (iniciar_teste amb le l canal w) = Excecao ->
  ouvindo (painel (snd (iniciar_teste amb le l canal w))) = false /\
  forall le' l' n,
    repete n (borda_subida amb le' l') (snd (iniciar_teste amb le l canal w)) =
    (Retorno tt, snd (iniciar_teste amb le l canal w)).
Proof.
  intros Hr.
  destruct (iniciar_teste_forma amb le l canal w) as [meio [E F]].
  rewrite Hr in E. simpl in E.
  assert (O : ouvindo (painel (snd (iniciar_teste amb le l canal w))) = false).
  { unfold painel. rewrite E, ouvindo_painel_de; [reflexivity|exact F]. }
  split; [exact O|].
  intros le' l' n. induction n as [|n IH]; [reflexivity|].
  simpl repete. unfold bind at 1. unfold borda_subida at 1.
  rewrite bind_le_mundo, O. exact IH.
Qed.

Lemma nenhum_teste_depois_da_excecao_witness :
  fst (iniciar_teste (ambiente_escrita_falha 0) 1 1 PIN_BOTAO mundo_inicial) = Excecao /\
  ouvindo (painel (snd (iniciar_teste (ambiente_escrita_falha 0) 1 1 PIN_BOTAO mundo_inicial)))
    = false /\
  forall le' l' n,
    repete n (borda_subida (ambiente_escrita_falha 0) le' l')
      (snd (iniciar_teste (ambiente_escrita_falha 0) 1 1 PIN_BOTAO mundo_inicial)) =
    (Retorno tt, snd (iniciar_teste (ambiente_escrita_falha 0) 1 1 PIN_BOTAO mundo_inicial)).
Proof.
  split; [vm_compute; reflexivity|].
  apply (nenhum_teste_depois_da_excecao (ambiente_escrita_falha 0) 1 1 PIN_BOTAO mundo_inicial).
  vm_compute. reflexivity.
Defined.

(** ** The buzzer outside the PWM *)

(** The calls that cannot make the buzzer sound: the pin of the buzzer is
    not driven high, and where the import of [RPi.GPIO] failed ([sim]) the PWM
    is not called. *)
Definition sem_som (sim : bool) (e : Evento) : Prop :=
  match e with
  | EvOutput pino nivel => Is_true (negb ((pino =? PIN_BUZZER)%Z && nivel))
  | EvChangeFrequency _ | EvChangeDutyCycle _ | EvPwmStart _ _ => Is_true (negb sim)
  | _ => True
  end.

(** The class of the calls of a program, the parts settled by [tac]. *)
Ltac classe_com tac :=
  repeat first
    [ tac
    | apply so_emite_bind; [|intros ?]
    | apply so_emite_ret
    | apply so_emite_esgotado
    | apply so_emite_emite; exact I
    | apply so_emite_escreve; exact I
    | apply so_emite_repete
    | apply so_emite_calado; intros ?; reflexivity
    | match goal with |- so_emite _ (if ?c then _ else _) => destruct c end
    | match goal with |- so_emite _ (match ?c with _ => _ end) => destruct c end ].

Lemma limpar_saidas_sem_som amb : so_emite (sem_som (MODO_SIMULACAO amb)) (limpar_saidas amb).
Proof.
  unfold limpar_saidas, GPIO_output, ChangeDutyCycle.
  apply so_emite_tenta.
  do 3 (apply so_emite_bind; [apply so_emite_escreve; exact I|intros _]).
  apply so_emite_bind; [apply so_emite_calado; intros ?; reflexivity|intros w0].
  destruct (MODO_SIMULACAO amb); [rewrite andb_false_r|destruct (buzzer_pwm w0)];
    apply so_emite_escreve; exact I.
Qed.

Lemma tocar_tom_sem_som amb hz d : so_emite (sem_som (MODO_SIMULACAO amb)) (tocar_tom amb hz d).
Proof.
  unfold tocar_tom, ChangeFrequency, ChangeDutyCycle, time_sleep.
  destruct (MODO_SIMULACAO amb); simpl negb; simpl andb; classe_com fail.
Qed.

Lemma mostrar_resultado_sem_som amb t :
  so_emite (sem_som (MODO_SIMULACAO amb)) (mostrar_resultado amb t).
Proof.
  unfold mostrar_resultado, pisca_amarelo, print, time_sleep, GPIO_output.
  classe_com ltac:(first [apply limpar_saidas_sem_som | apply tocar_tom_sem_som]).
Qed.

Lemma laco_reacao_sem_som amb le l :
  so_emite (sem_som (MODO_SIMULACAO amb)) (laco_reacao amb le l).
Proof.
  induction l as [|l IH]; simpl.
  - apply so_emite_esgotado.
  - unfold medir_distancia, time_sleep, GPIO_output.
    classe_com ltac:(first [apply IH | apply mostrar_resultado_sem_som]).
Qed.

Lemma iniciar_teste_sem_som amb le l canal :
  so_emite (sem_som (MODO_SIMULACAO amb)) (iniciar_teste amb le l canal).
Proof.
  unfold iniciar_teste, corpo_do_teste, random_uniform, print, time_sleep, GPIO_output,
    GPIO_remove_event_detect, GPIO_add_event_detect.
  classe_com ltac:(first [apply laco_reacao_sem_som | apply mostrar_resultado_sem_som]).
Qed.

Lemma sessao_sem_som amb le l bordas :
  so_emite (sem_som (MODO_SIMULACAO amb)) (sessao amb le l bordas).
Proof.
  unfold sessao, principal, configuracao_gpio, borda_subida, print, GPIO_output,
    GPIO_add_event_detect.
  apply so_emite_bind.
  - destruct (MODO_SIMULACAO amb); simpl negb; cbv iota; classe_com fail.
  - intros _. classe_com ltac:(apply iniciar_teste_sem_som).
Qed.

Lemma sem_som_aplica sim e p :
  sem_som sim e ->
  (pino_buzzer p = false -> pino_buzzer (aplica e p) = false) /\
  (sim = true -> pwm_duty (aplica e p) = pwm_duty p).
Proof.
  destruct e; simpl; intros H;
    try (split; [auto|]; intros ->; now destruct H);
    try (split; auto; fail);
    try (destruct (pino =? PIN_BOTAO)%Z; split; auto; fail).
  unfold aplica_output.
  destruct (pino =? PIN_LED_AMARELO)%Z; [split; auto|].
  destruct (pino =? PIN_LED_VERDE)%Z; [split; auto|].
  destruct (pino =? PIN_LED_VERMELHO)%Z; [split; auto|].
  destruct (pino =? PIN_BUZZER)%Z; [|destruct (pino =? PIN_TRIG)%Z; split; auto].
  destruct nivel; [destruct H|]. split; auto.
Qed.

Lemma sem_som_painel_de sim log :
  Forall (sem_som sim) log ->
  pino_buzzer (painel_de log) = false /\
  (sim = true -> pwm_duty (painel_de log) = 0%Z).
Proof.
  induction 1 as [|e log He _ [IH1 IH2]]; simpl; [split; reflexivity|].
  destruct (sem_som_aplica sim e (painel_de log) He) as [H1 H2].
  split; [auto|]. intros Hs. rewrite (H2 Hs). auto.
Qed.

(** X13. Whatever the environment does (writes that raise included), at
    every instant of a session the pin of the buzzer is low: no call of the
    script drives it high, the PWM is the only way the buzzer sounds.  And in
    simulation mode the PWM is never called and its duty stays 0: there the
    buzzer never sounds. *)
Theorem buzzer_so_pelo_pwm (amb : Ambiente) (le l bordas : nat)
    (antes depois : list Evento) :
  historico (snd (sessao amb le l bordas mundo_inicial)) = antes ++ depois ->
  pino_buzzer (painel_de (rev antes)) = false /\
  (MODO_SIMULACAO amb = true ->
   pwm_duty (painel_de (rev antes)) = 0%Z /\ Forall (sem_som true) antes).
Proof.
  intros H.
  destruct (sessao_sem_som amb le l bordas mundo_inicial) as [novos [E F]].
  simpl in E. rewrite app_nil_r in E.
  unfold historico in H. rewrite E in H.
  assert (Fa : Forall (sem_som (MODO_SIMULACAO amb)) antes).
  { apply Forall_rev in F. rewrite H in F. apply Forall_app in F. tauto. }
  destruct (sem_som_painel_de _ _ (Forall_rev Fa)) as [H1 H2].
  split; [exact H1|]. intros Hs. split; [now apply H2|]. now rewrite Hs in Fa.
Qed.

Lemma buzzer_so_pelo_pwm_witness :
  historico (snd (sessao ambiente_reacao 0 1 2 mundo_inicial)) =
    firstn 25 (historico (snd (sessao ambiente_reacao 0 1 2 mundo_inicial))) ++
    skipn 25 (historico (snd (sessao ambiente_reacao 0 1 2 mundo_inicial))) /\
  pino_buzzer
    (painel_de (rev (firstn 25 (historico (snd (sessao ambiente_reacao 0 1 2 mundo_inicial))))))
    = false /\
  (MODO_SIMULACAO ambiente_reacao = true ->
   pwm_duty
     (painel_de (rev (firstn 25 (historico (snd (sessao ambiente_reacao 0 1 2 mundo_inicial))))))
     = 0%Z /\
   Forall (sem_som true)
     (firstn 25 (historico (snd (sessao ambiente_reacao 0 1 2 mundo_inicial))))).
Proof.
  split; [vm_compute; reflexivity|].
  apply (buzzer_so_pelo_pwm ambiente_reacao 0 1 2 _
           (skipn 25 (historico (snd (sessao ambiente_reacao 0 1 2 mundo_inicial))))).
  vm_compute. reflexivity.
Defined.

(** ** The variable [buzzer_pwm] *)

(** Whatever the world and the outcome, the program leaves the variable
    [buzzer_pwm] as it was. *)
Definition guarda_pwm {A} (m : Prog A) : Prop :=
  forall w, buzzer_pwm (snd (m w)) = buzzer_pwm w.

Lemma guarda_pwm_bind {A B} (m : Prog A) (f : A -> Prog B) :
  guarda_pwm m -> (forall a, guarda_pwm (f a)) -> guarda_pwm (bind m f).
Proof.
  intros Hm Hf w. unfold bind. specialize (Hm w).
  destruct (m w) as [[a| | ] w1]; simpl in *; [|assumption|assumption].
  now rewrite Hf.
Qed.

Lemma guarda_pwm_tenta (m : Prog unit) : guarda_pwm m -> guarda_pwm (tenta m).
Proof.
  intros Hm w. unfold tenta. specialize (Hm w).
  destruct (m w) as [[a| | ] w1]; simpl in *; assumption.
Qed.

Lemma guarda_pwm_escreve amb e : guarda_pwm (escreve amb e).
Proof. intros w. unfold escreve. destruct (falha amb (n_escritas w)); reflexivity. Qed.

Lemma guarda_pwm_repete n (m : Prog unit) : guarda_pwm m -> guarda_pwm (repete n m).
Proof.
  intros Hm. induction n as [|n IH]; simpl.
  - intros w. reflexivity.
  - apply guarda_pwm_bind; auto.
Qed.

Ltac guarda :=
  repeat first
    [ apply guarda_pwm_bind; [|intros ?]
    | apply guarda_pwm_tenta
    | apply guarda_pwm_repete
    | apply guarda_pwm_escreve
    | match goal with |- guarda_pwm (if ?c then _ else _) => destruct c end
    | match goal with |- guarda_pwm (match ?c with _ => _ end) => destruct c end
    | (intros ?; reflexivity) ].

Lemma guarda_pwm_mostrar_resultado amb t : guarda_pwm (mostrar_resultado amb t).
Proof.
  unfold mostrar_resultado, limpar_saidas, tocar_tom, pisca_amarelo, print, time_sleep,
    GPIO_output, ChangeFrequency, ChangeDutyCycle.
  guarda.
Qed.

Lemma guarda_pwm_laco_reacao amb le l : guarda_pwm (laco_reacao amb le l).
Proof.
  induction l as [|l IH]; simpl.
  - intros w. reflexivity.
  - unfold medir_distancia, time_sleep, GPIO_output.
    repeat first
      [ apply IH
      | apply guarda_pwm_mostrar_resultado
      | progress guarda ].
Qed.

Lemma guarda_pwm_iniciar_teste amb le l canal : guarda_pwm (iniciar_teste amb le l canal).
Proof.
  unfold iniciar_teste, corpo_do_teste, random_uniform, print, time_sleep, GPIO_output,
    GPIO_remove_event_detect, GPIO_add_event_detect.
  repeat first
    [ apply guarda_pwm_laco_reacao
    | apply guarda_pwm_mostrar_resultado
    | progress guarda ].
Qed.

Lemma guarda_pwm_bordas amb le l n : guarda_pwm (repete n (borda_subida amb le l)).
Proof.
  apply guarda_pwm_repete. unfold borda_subida.
  apply guarda_pwm_bind; [intros w; reflexivity|]. intros w0.
  destruct (ouvindo (painel w0)); [apply guarda_pwm_iniciar_teste|intros w; reflexivity].
Qed.

(** ** The end of the script *)

(** The calls of the [except] and [finally] blocks (lines 169-174), which
    nothing else in the script makes. *)
Inductive ChamadaFinal : Type :=
| PrintFinalizando      (* print("\nFinalizando...") *)
| PwmStop               (* buzzer_pwm.stop() *)
| GpioCleanup.          (* GPIO.cleanup() *)

(** The [finally] block (lines 171-174). *)
Definition finalmente (amb : Ambiente) (w : Mundo) : list ChamadaFinal :=
  if negb (MODO_SIMULACAO amb) then
    (if buzzer_pwm w then [PwmStop] else []) ++ [GpioCleanup]
  else [].

(** The [try] statement (lines 163-174).  Its body is start-up and the idle
    loop, during which [bordas] edges of the button are served; only a
    KeyboardInterrupt ends the idle loop, and the [except] block answers it.
    An exception of start-up is no KeyboardInterrupt: the [except] block is
    passed over and the exception leaves the script.  The [finally] block
    runs in both cases. *)
Definition script (amb : Ambiente) (limite_eco limite bordas : nat) (w : Mundo)
    : Desfecho unit * Mundo * list ChamadaFinal :=
  match principal amb w with
  | (Retorno _, w0) =>
      let w' := snd (repete bordas (borda_subida amb limite_eco limite) w0) in
      (Retorno tt, w', PrintFinalizando :: finalmente amb w')
  | (r, w0) => (r, w0, finalmente amb w0)
  end.

(** X14. How the script ends, started with [buzzer_pwm] at [None] (line 33).
    When the write of start-up went through and the idle loop is interrupted,
    whatever happened in the trials served meanwhile: "Finalizando..." is
    printed and the script ends normally; on the board [buzzer_pwm.stop()]
    and then [GPIO.cleanup()] are called; in simulation mode neither is.
    When the write of start-up raised: nothing is printed and the exception
    leaves the script; on the board [GPIO.cleanup()] is called, and
    [buzzer_pwm.stop()] is not, as the PWM was never made. *)
Theorem encerramento (amb : Ambiente) (le l bordas : nat) :
  fst (fst (script amb le l bordas mundo_inicial)) =
    (if falha amb 0 then Excecao else Retorno tt) /\
  snd (script amb le l bordas mundo_inicial) =
    (if falha amb 0 then [] else [PrintFinalizando]) ++
    (if MODO_SIMULACAO amb then []
     else (if falha amb 0 then [] else [PwmStop]) ++ [GpioCleanup]).
Proof.
  unfold script.
  change (falha amb 0) with (falha amb (n_escritas mundo_inicial)).
  destruct (falha amb (n_escritas mundo_inicial)) eqn:H.
  - rewrite (principal_falha _ _ H). unfold fst, snd, finalmente.
    destruct (MODO_SIMULACAO amb); split; reflexivity.
  - rewrite (principal_passa _ _ H). cbn [fst snd]. unfold finalmente.
    rewrite (guarda_pwm_bordas amb le l bordas (pronto amb mundo_inicial)).
    unfold pronto. cbn [buzzer_pwm].
    destruct (MODO_SIMULACAO amb); split; reflexivity.
Qed.
